(** * GPTCrawler: the crawl engine of gpt_crawler_core.py

    A shallow embedding of class [GPTCrawler] (src/gpt_crawler_core.py) and
    the properties of its pattern filter, content extraction and crawl loop,
    followed by the dashboard of src/main.py.

    Modelling conventions.
    - A Python [str] is a [string]; each character stands for one code
      point below 256.
    - Python sets of strings ([visited_urls], [urls_to_visit]) are
      [gset string].
    - Every awaited browser call, the clock and the file system belong to an
      environment [Env W] that threads a world state [W]; a call either
      returns a value or raises an [Exception] carrying its [str(e)].
      Only subclasses of [Exception] are modelled, the ones the handlers of
      the crawler catch; [BaseException]s such as [CancelledError] are
      outside the model.
    - [urlparse], [os.path.splitext] and [str.isalnum] are library functions
      outside the repository: they are fields of the environment.
    - The [while] loop of [crawl] runs on fuel; [crawl_terminates] shows
      that some amount of fuel is always enough.
    - The fields [crawl_page_calls] and [written] of the state are
      histories kept for the statements; the code does not read them.
      [written] lists the writes that completed; what a write that raised
      left on disk is part of the world.
    - The settings file of the dashboard holds any JSON value [Json]; the
      text a [QLineEdit] takes from a value that is not a [str] is the
      toolkit's and belongs to the environment [Gui.FileEnv]. *)

From Stdlib Require Import ZArith Ascii String List Lia Bool.
From stdpp Require Import gmap strings list pretty.

Local Open Scope Z_scope.

(** ** Python string primitives used by the crawler *)

Module PyStr.

(** [str.startswith]: [startswith url p] tests that [p] is a prefix of
    [url]. *)
Fixpoint startswith (s p : string) {struct p} : bool :=
  match p with
  | EmptyString => true
  | String c p' =>
      match s with
      | EmptyString => false
      | String d s' => if Ascii.eqb d c then startswith s' p' else false
      end
  end.

(** [str.isspace] on one character: the code points below 256 that Python
    treats as whitespace (TAB..CR, FS..US, SPACE, NEL, NBSP). *)
Definition isspace (c : ascii) : bool :=
  let n := nat_of_ascii c in
  ((9 <=? n)%nat && (n <=? 13)%nat)
  || ((28 <=? n)%nat && (n <=? 32)%nat)
  || (n =? 133)%nat || (n =? 160)%nat.

(** [str.split()] with no argument: the maximal runs of characters that
    are not whitespace, in order; no empty word is produced. *)
Fixpoint split (s : string) : list string :=
  match s with
  | EmptyString => []
  | String c s' =>
      if isspace c then split s'
      else
        match s' with
        | EmptyString => [String c EmptyString]
        | String d _ =>
            if isspace d then String c EmptyString :: split s'
            else
              match split s' with
              | w :: ws => String c w :: ws
              | [] => [String c EmptyString]
              end
        end
  end.

(** [sep.join(ws)]. *)
Fixpoint join (sep : string) (ws : list string) : string :=
  match ws with
  | [] => EmptyString
  | [w] => w
  | w :: ws' => w +:+ sep +:+ join sep ws'
  end.

(** [str.lstrip()], [str.rstrip()] and [str.strip()]. *)
Fixpoint lstrip (s : string) : string :=
  match s with
  | EmptyString => EmptyString
  | String c s' => if isspace c then lstrip s' else s
  end.

Fixpoint rstrip (s : string) : string :=
  match s with
  | EmptyString => EmptyString
  | String c s' =>
      match rstrip s' with
      | EmptyString => if isspace c then EmptyString else String c EmptyString
      | r => String c r
      end
  end.

Definition strip (s : string) : string := rstrip (lstrip s).

(** [s.replace(a, b)] for one-character [a] and [b]. *)
Fixpoint replace_char (a b : ascii) (s : string) : string :=
  match s with
  | EmptyString => EmptyString
  | String c s' =>
      String (if Ascii.eqb c a then b else c) (replace_char a b s')
  end.

(** ["".join(c for c in s if keep c)]. *)
Fixpoint filter_chars (keep : ascii -> bool) (s : string) : string :=
  match s with
  | EmptyString => EmptyString
  | String c s' =>
      if keep c then String c (filter_chars keep s') else filter_chars keep s'
  end.

(** [s[:n]]. *)
Fixpoint take (n : nat) (s : string) : string :=
  match n, s with
  | S n', String c s' => String c (take n' s')
  | _, _ => EmptyString
  end.

(** Truthiness of a [str]: the empty string is false. *)
Definition truthy (s : string) : bool :=
  match s with EmptyString => false | _ => true end.

End PyStr.

(** ** Exceptions *)

(** An instance of a subclass of Python's [Exception], kept as its
    [str(e)]. *)
Inductive exn : Type := Exception (msg : string).

Definition str_exn (e : exn) : string :=
  match e with Exception m => m end.

(** The outcome of a call that may raise. *)
Inductive exc (A : Type) : Type :=
| Ok (a : A)
| Raise (e : exn).
Arguments Ok {A} a.
Arguments Raise {A} e.

Definition is_ok {A} (r : exc A) : bool :=
  match r with Ok _ => true | Raise _ => false end.

(** ** The browser page handle

    The answers a Playwright [Page] gives to the calls the crawler makes on
    it. Each call is made at most once per handle, in a fixed order. *)

Record Element : Type := {
  (** [await element.evaluate('el => el.textContent')]; [None] is JS null. *)
  el_text_content : exc (option string)
}.

Record Page : Type := {
  (** [await page.title()] *)
  page_title : exc string;
  (** [await page.query_selector_all(selector)] *)
  page_query_selector_all : string -> exc (list Element);
  (** [await page.evaluate('() => document.body.textContent')] *)
  page_body_text_content : exc (option string);
  (** [a.href] of every element of [document.querySelectorAll('a[href]')] *)
  page_anchor_hrefs : exc (list string);
  (** [await page.close()] *)
  page_close : exc unit
}.

(** ** Data model *)

(** One entry of [self.results]: the dict with keys url, title, content. *)
Record PageRecord : Type := {
  pr_url : string;
  pr_title : string;
  pr_content : string
}.

Record Metadata : Type := {
  md_title : string;
  md_domain : string;
  md_crawl_date : string;
  md_total_pages : nat;
  md_start_url : string;
  md_pattern : string
}.

(** The document handed to [json.dump]. *)
Record Artifact : Type := {
  art_metadata : Metadata;
  art_pages : list PageRecord
}.

Inductive LogRecord : Type :=
| LogInfo (msg : string)
| LogError (msg : string).

(** ** The environment *)

Record Env (W : Type) : Type := {
  (** [init_browser]: [async_playwright().start()] and [chromium.launch] *)
  env_launch : W -> exc unit * W;
  (** [browser.new_page()] followed by [page.goto(url, networkidle)] *)
  env_goto : string -> W -> exc Page * W;
  (** [self.browser.close()] *)
  env_close_browser : W -> exc unit * W;
  (** [datetime.now().strftime("%Y%m%d_%H%M%S")] *)
  env_strftime : W -> string;
  (** [datetime.now().isoformat()] *)
  env_isoformat : W -> string;
  (** [os.makedirs(os.path.dirname(os.path.abspath(f)), exist_ok=True)] *)
  env_makedirs : string -> W -> exc unit * W;
  (** [open(f, 'w')] and [json.dump(doc, f)]; when one of them raises, the
      world returned holds whatever was left on disk (after a failing
      [json.dump], a file created by [open] with part of the document) *)
  env_write_json : string -> Artifact -> W -> exc unit * W;
  (** whether [stop()] has been called from the GUI thread *)
  env_stop_requested : W -> bool;
  (** which element [set.pop()] removes, as an index into the elements *)
  env_pop_index : W -> gset string -> nat;
  (** [urlparse(url).netloc] *)
  env_netloc : string -> exc string;
  (** [os.path.splitext] *)
  env_splitext : string -> string * string;
  (** [str.isalnum] on one character *)
  env_isalnum : ascii -> bool
}.
Arguments env_launch {W} _ _.
Arguments env_goto {W} _ _ _.
Arguments env_close_browser {W} _ _.
Arguments env_strftime {W} _ _.
Arguments env_isoformat {W} _ _.
Arguments env_makedirs {W} _ _ _.
Arguments env_write_json {W} _ _ _ _.
Arguments env_stop_requested {W} _ _.
Arguments env_pop_index {W} _ _ _.
Arguments env_netloc {W} _ _.
Arguments env_splitext {W} _ _.
Arguments env_isalnum {W} _ _.

(** ** Crawler state *)

Record State (W : Type) : Type := {
  world : W;
  (** [self.browser] is set *)
  browser : bool;
  visited_urls : gset string;
  results : list PageRecord;
  running : bool;
  (** what [logger] has emitted, oldest first *)
  log : list LogRecord;
  (** history: the [url] argument of every [crawl_page] call, oldest first *)
  crawl_page_calls : list string;
  (** history: every write that completed ([open] and [json.dump] both
      returned), with its document, oldest first; a write that raised is
      not in it, whatever it left on disk *)
  written : list (string * Artifact)
}.
Arguments world {W} _.
Arguments browser {W} _.
Arguments visited_urls {W} _.
Arguments results {W} _.
Arguments running {W} _.
Arguments log {W} _.
Arguments crawl_page_calls {W} _.
Arguments written {W} _.

(** [GPTCrawler.__init__] on world [w]. *)
Definition init {W} (w : W) : State W :=
  {| world := w; browser := false; visited_urls := ∅; results := [];
     running := true; log := []; crawl_page_calls := []; written := [] |}.

(** ** A state and exception monad *)

Definition M (W A : Type) : Type := State W -> exc A * State W.

Definition ret {W A} (a : A) : M W A := fun st => (Ok a, st).

Definition bind {W A B} (m : M W A) (k : A -> M W B) : M W B :=
  fun st =>
    match m st with
    | (Ok a, st') => k a st'
    | (Raise e, st') => (Raise e, st')
    end.

(** [raise e] and lifting of an outcome. *)
Definition lift {W A} (r : exc A) : M W A := fun st => (r, st).

(** [try: body  except Exception as e: handler e]. *)
Definition try_except {W A} (body : M W A) (handler : exn -> M W A) : M W A :=
  fun st =>
    match body st with
    | (Ok a, st') => (Ok a, st')
    | (Raise e, st') => handler e st'
    end.

Declare Scope crawler_scope.
Delimit Scope crawler_scope with crawler.
Notation "x <- m ;; k" := (bind m (fun x => k))
  (at level 100, m at next level, right associativity) : crawler_scope.
Notation "m ;;; k" := (bind m (fun _ => k))
  (at level 100, right associativity) : crawler_scope.
Local Open Scope crawler_scope.

(** The state [st] in world [w]. *)
Definition with_world {W} (w : W) (st : State W) : State W :=
  {| world := w; browser := browser st;
     visited_urls := visited_urls st; results := results st;
     running := running st; log := log st;
     crawl_page_calls := crawl_page_calls st;
     written := written st |}.

(** A call into the environment that steps the world. *)
Definition call {W A} (f : W -> exc A * W) : M W A :=
  fun st =>
    let '(r, w) := f (world st) in (r, with_world w st).

Definition set_browser {W} (b : bool) : M W unit :=
  fun st =>
    (Ok tt, {| world := world st; browser := b;
               visited_urls := visited_urls st; results := results st;
               running := running st; log := log st;
               crawl_page_calls := crawl_page_calls st;
               written := written st |}).

Definition set_visited_urls {W} (v : gset string) : M W unit :=
  fun st =>
    (Ok tt, {| world := world st; browser := browser st;
               visited_urls := v; results := results st;
               running := running st; log := log st;
               crawl_page_calls := crawl_page_calls st;
               written := written st |}).

Definition set_results {W} (r : list PageRecord) : M W unit :=
  fun st =>
    (Ok tt, {| world := world st; browser := browser st;
               visited_urls := visited_urls st; results := r;
               running := running st; log := log st;
               crawl_page_calls := crawl_page_calls st;
               written := written st |}).

Definition set_running {W} (b : bool) : M W unit :=
  fun st =>
    (Ok tt, {| world := world st; browser := browser st;
               visited_urls := visited_urls st; results := results st;
               running := b; log := log st;
               crawl_page_calls := crawl_page_calls st;
               written := written st |}).

Definition emit {W} (r : LogRecord) : M W unit :=
  fun st =>
    (Ok tt, {| world := world st; browser := browser st;
               visited_urls := visited_urls st; results := results st;
               running := running st; log := log st ++ [r];
               crawl_page_calls := crawl_page_calls st;
               written := written st |}).

Definition note_call {W} (url : string) : M W unit :=
  fun st =>
    (Ok tt, {| world := world st; browser := browser st;
               visited_urls := visited_urls st; results := results st;
               running := running st; log := log st;
               crawl_page_calls := crawl_page_calls st ++ [url];
               written := written st |}).

Definition note_written {W} (f : string) (doc : Artifact) : M W unit :=
  fun st =>
    (Ok tt, {| world := world st; browser := browser st;
               visited_urls := visited_urls st; results := results st;
               running := running st; log := log st;
               crawl_page_calls := crawl_page_calls st;
               written := written st ++ [(f, doc)] |}).

Definition get {W} : M W (State W) := fun st => (Ok st, st).

(** ** class GPTCrawler *)

Section GPTCrawler.
Context {W : Type} (E : Env W).

(** [init_browser] *)
Definition init_browser : M W unit :=
  call (env_launch E) ;;;
  set_browser true.

(** [close_browser] *)
Definition close_browser : M W unit :=
  st <- get ;;
  if browser st then call (env_close_browser E) else ret tt.

(** [matches_pattern] *)
Definition matches_pattern (url pattern : string) : bool :=
  if negb (PyStr.truthy pattern) then true
  else PyStr.startswith url pattern.

(** The [for element in elements] loop of [process_page]: the stripped
    text of every element whose text is neither null nor empty. *)
Fixpoint element_texts (elements : list Element) : exc (list string) :=
  match elements with
  | [] => Ok []
  | element :: rest =>
      match el_text_content element with
      | Raise e => Raise e
      | Ok text =>
          match element_texts rest with
          | Raise e => Raise e
          | Ok contents =>
              match text with
              | Some t =>
                  if PyStr.truthy t then Ok (PyStr.strip t :: contents)
                  else Ok contents
              | None => Ok contents
              end
          end
      end
  end.

Definition newline : ascii := ascii_of_nat 10.
Definition blank_line : string := String newline (String newline "").

(** [' '.join(content.split())] *)
Definition clean_up (content : string) : string :=
  PyStr.join " " (PyStr.split content).

(** The [try] block of [process_page]. A null body text makes
    [content.split()] raise [AttributeError]. *)
Definition process_page_try (page : Page) (selector : string)
    (remove_selectors : list string) : exc string :=
  let content :=
    if PyStr.truthy selector then
      match page_query_selector_all page selector with
      | Raise e => Raise e
      | Ok elements =>
          match element_texts elements with
          | Raise e => Raise e
          | Ok contents => Ok (PyStr.join blank_line contents)
          end
      end
    else
      match page_body_text_content page with
      | Raise e => Raise e
      | Ok (Some text) => Ok text
      | Ok None =>
          Raise (Exception "'NoneType' object has no attribute 'split'")
      end in
  match content with
  | Raise e => Raise e
  | Ok content => Ok (clean_up content)
  end.

(** [process_page] *)
Definition process_page (page : Page) (selector : string)
    (remove_selectors : list string) : M W string :=
  try_except
    (lift (process_page_try page selector remove_selectors))
    (fun e =>
       emit (LogError ("Error processing page: " +:+ str_exn e)) ;;;
       ret ("Error processing page: " +:+ str_exn e)).

(** The list comprehension of [crawl_page]: the links whose netloc is
    [base_domain]; [urlparse] raising on a link aborts the whole
    comprehension. *)
Fixpoint same_domain_links (base_domain : string) (links : list string)
    : exc (list string) :=
  match links with
  | [] => Ok []
  | link :: rest =>
      match env_netloc E link with
      | Raise e => Raise e
      | Ok d =>
          match same_domain_links base_domain rest with
          | Raise e => Raise e
          | Ok kept =>
              if String.eqb d base_domain then Ok (link :: kept)
              else Ok kept
          end
      end
  end.

(** The JavaScript filter [href => href.startsWith('http')]. *)
Definition http_links (hrefs : list string) : list string :=
  List.filter (fun href => PyStr.startswith href "http") hrefs.

(** The [try] block of [crawl_page]. *)
Definition crawl_page_try (url selector : string)
    (remove_selectors : list string) : M W (list string) :=
  page <- call (env_goto E url) ;;
  title <- lift (page_title page) ;;
  content <- process_page page selector remove_selectors ;;
  (st <- get ;;
   set_results (results st ++
     [{| pr_url := url; pr_title := title; pr_content := content |}])) ;;;
  hrefs <- lift (page_anchor_hrefs page) ;;
  base_domain <- lift (env_netloc E url) ;;
  filtered_links <- lift (same_domain_links base_domain (http_links hrefs)) ;;
  lift (page_close page) ;;;
  ret filtered_links.

(** [crawl_page] *)
Definition crawl_page (url selector : string)
    (remove_selectors : list string) : M W (list string) :=
  note_call url ;;;
  (st <- get ;; if browser st then ret tt else init_browser) ;;;
  try_except
    (crawl_page_try url selector remove_selectors)
    (fun e =>
       emit (LogError ("Error crawling " +:+ url +:+ ": " +:+ str_exn e)) ;;;
       ret []).

(** The keyword arguments of [crawl]. *)
Record Config : Type := {
  start_url : string;
  url_pattern : string;
  selector : string;
  remove_selectors : list string;
  max_pages : Z;
  output_file : string
}.

(** [set.pop()]: removes and returns the element the environment picks;
    [KeyError] on the empty set. *)
Definition set_pop (i : nat) (s : gset string)
    : exc (string * gset string) :=
  match elements s !! (i mod length (elements s))%nat with
  | Some x => Ok (x, s ∖ {[x]})
  | None => Raise (Exception "'pop from an empty set'")
  end.

(** [self.running] as the loop reads it: [stop()] clears the flag from
    the GUI thread. *)
Definition is_running (st : State W) : bool :=
  running st && negb (env_stop_requested E (world st)).

(** The [while] condition. *)
Definition loop_cond (cfg : Config) (urls_to_visit : gset string)
    (st : State W) : bool :=
  negb (bool_decide (urls_to_visit = ∅))
  && (Z.of_nat (size (visited_urls st)) <? max_pages cfg)
  && is_running st.

(** The [while] body; it returns the new [urls_to_visit]. *)
Definition loop_body (cfg : Config) (urls_to_visit : gset string)
    : M W (gset string) :=
  st <- get ;;
  popped <- lift (set_pop (env_pop_index E (world st) urls_to_visit)
                    urls_to_visit) ;;
  let '(url, urls_to_visit) := popped in
  if bool_decide (url ∈ visited_urls st) then ret urls_to_visit
  else if negb (matches_pattern url (url_pattern cfg)) then ret urls_to_visit
  else
    emit (LogInfo ("Crawling: " +:+ url)) ;;;
    set_visited_urls ({[url]} ∪ visited_urls st) ;;;
    new_urls <- crawl_page url (selector cfg) (remove_selectors cfg) ;;
    st' <- get ;;
    ret (urls_to_visit ∪ (list_to_set new_urls ∖ visited_urls st')).

(** The [while] loop, run for at most [fuel] iterations: [None] when the
    fuel runs out, otherwise the outcome with the final [urls_to_visit]. *)
Fixpoint crawl_loop (cfg : Config) (fuel : nat) (urls_to_visit : gset string)
    (st : State W) : option (exc (gset string) * State W) :=
  if loop_cond cfg urls_to_visit st then
    match fuel with
    | O => None
    | S fuel' =>
        match loop_body cfg urls_to_visit st with
        | (Ok urls', st') => crawl_loop cfg fuel' urls' st'
        | (Raise e, st') => Some (Raise e, st')
        end
    end
  else Some (Ok urls_to_visit, st).

(** The loop after at most [n] iterations: the configuration the run is
    in at that iteration boundary. *)
Fixpoint loop_iter (cfg : Config) (n : nat) (urls_to_visit : gset string)
    (st : State W) : exc (gset string) * State W :=
  match n with
  | O => (Ok urls_to_visit, st)
  | S n' =>
      if loop_cond cfg urls_to_visit st then
        match loop_body cfg urls_to_visit st with
        | (Ok urls', st') => loop_iter cfg n' urls' st'
        | (Raise e, st') => (Raise e, st')
        end
      else (Ok urls_to_visit, st)
  end.

(** The title-derived part of the output file name. *)
Definition clean_title (page_title : string) : string :=
  let kept :=
    PyStr.filter_chars
      (fun c => env_isalnum E c
                || Ascii.eqb c " " || Ascii.eqb c "-" || Ascii.eqb c "_")
      page_title in
  PyStr.take 50 (PyStr.replace_char " " "_" (PyStr.strip kept)).

(** The start of [crawl]'s [try] block, up to the loop: the title probe
    of the seed and the unique output file name. It returns
    [(page_title, unique_output_file)]. *)
Definition crawl_begin (cfg : Config) : M W (string * string) :=
  (st <- get ;; if browser st then ret tt else init_browser) ;;;
  page <- call (env_goto E (start_url cfg)) ;;
  page_title <- lift (page_title page) ;;
  lift (page_close page) ;;;
  st <- get ;;
  let timestamp := env_strftime E (world st) in
  let '(filename, ext) := env_splitext E (output_file cfg) in
  ret (page_title,
       filename +:+ "_" +:+ clean_title page_title +:+ "_"
         +:+ timestamp +:+ ext).

(** The document [crawl] dumps. *)
Definition artifact (cfg : Config) (page_title domain : string)
    (st : State W) : Artifact :=
  {| art_metadata :=
       {| md_title := page_title;
          md_domain := domain;
          md_crawl_date := env_isoformat E (world st);
          md_total_pages := length (results st);
          md_start_url := start_url cfg;
          md_pattern := url_pattern cfg |};
     art_pages := results st |}.

(** The end of [crawl]'s [try] block, after the loop. *)
Definition save_results (cfg : Config) (page_title unique_output_file : string)
    : M W unit :=
  domain <- lift (env_netloc E (start_url cfg)) ;;
  call (env_makedirs E unique_output_file) ;;;
  st <- get ;;
  let doc := artifact cfg page_title domain st in
  call (env_write_json E unique_output_file doc) ;;;
  note_written unique_output_file doc ;;;
  emit (LogInfo ("Crawling completed. Processed "
                 +:+ pretty (size (visited_urls st)) +:+ " pages.")) ;;;
  emit (LogInfo ("Results saved to: " +:+ unique_output_file)).

(** The [try] block of [crawl]. *)
Definition crawl_try (cfg : Config) (fuel : nat) (st : State W)
    : option (exc unit * State W) :=
  match crawl_begin cfg st with
  | (Raise e, st1) => Some (Raise e, st1)
  | (Ok (page_title, unique_output_file), st1) =>
      match crawl_loop cfg fuel {[start_url cfg]} st1 with
      | None => None
      | Some (Raise e, st2) => Some (Raise e, st2)
      | Some (Ok _, st2) =>
          Some (save_results cfg page_title unique_output_file st2)
      end
  end.

(** The statements of [crawl] before its [try]. *)
Definition crawl_reset : M W unit :=
  set_running true ;;;
  set_visited_urls ∅ ;;;
  set_results [].

(** The [except Exception as e] clause of [crawl]. *)
Definition crawl_except (e : exn) : M W unit :=
  emit (LogError ("Crawling error: " +:+ str_exn e)).

(** The [finally] clause of [crawl]. *)
Definition crawl_finally : M W unit :=
  set_running false ;;;
  close_browser.

(** [crawl]: [None] when [fuel] loop iterations do not suffice, otherwise
    how the call ends ([Raise] only out of the [finally] clause) and the
    state it leaves. *)
Definition crawl (cfg : Config) (fuel : nat) (st : State W)
    : option (exc unit * State W) :=
  match crawl_try cfg fuel (snd (crawl_reset st)) with
  | None => None
  | Some (Ok _, st1) => Some (crawl_finally st1)
  | Some (Raise e, st1) => Some (crawl_finally (snd (crawl_except e st1)))
  end.

(** The state at the loop's [n]-th iteration boundary of the run of
    [crawl cfg] from [st]; [None] when the run does not reach the loop. *)
Definition crawl_at (cfg : Config) (n : nat) (st : State W)
    : option (exc (gset string) * State W) :=
  match crawl_begin cfg (snd (crawl_reset st)) with
  | (Raise _, _) => None
  | (Ok _, st1) => Some (loop_iter cfg n {[start_url cfg]} st1)
  end.

(** [stop] *)
Definition stop : M W unit := set_running false.

End GPTCrawler.

(** ** A small site to run the crawler on *)

Module Site.

(** The world counts the navigations made so far. *)
Definition world : Type := nat.

Definition element (t : string) : Element :=
  {| el_text_content := Ok (Some t) |}.

Definition page (title body : string) (hrefs : list string) : Page :=
  {| page_title := Ok title;
     page_query_selector_all := fun sel =>
       if String.eqb sel "main" then Ok [element body] else Ok [];
     page_body_text_content := Ok (Some body);
     page_anchor_hrefs := Ok hrefs;
     page_close := Ok tt |}.

(** The netloc of the sample URLs: the text between "//" and the next
    "/", for URLs of scheme https. *)
Fixpoint upto_slash (s : string) : string :=
  match s with
  | EmptyString => EmptyString
  | String c s' => if Ascii.eqb c "/" then EmptyString
                   else String c (upto_slash s')
  end.

Definition netloc (url : string) : exc string :=
  if PyStr.startswith url "https://"
  then Ok (upto_slash (String.substring 8 (String.length url - 8) url))
  else Ok EmptyString.

Definition site (url : string) : exc Page :=
  if String.eqb url "https://a.com/" then
    Ok (page "Home" "  Hello
 world " ["https://a.com/docs"; "https://b.com/y"; "https://a.com/#top";
          "mailto:x@a.com"])
  else if String.eqb url "https://a.com/docs" then
    Ok (page "Docs" "Docs" ["https://a.com/"])
  else if String.eqb url "https://a.com/#top" then
    Ok (page "Home" "Hello world" [])
  else Raise (Exception "net::ERR_NAME_NOT_RESOLVED").

Definition env : Env world :=
  {| env_launch := fun w => (Ok tt, w);
     env_goto := fun url w => (site url, S w);
     env_close_browser := fun w => (Ok tt, w);
     env_strftime := fun _ => "20240101_000000";
     env_isoformat := fun _ => "2024-01-01T00:00:00";
     env_makedirs := fun _ w => (Ok tt, w);
     env_write_json := fun _ _ w => (Ok tt, w);
     env_stop_requested := fun _ => false;
     env_pop_index := fun _ _ => 0%nat;
     env_netloc := netloc;
     env_splitext := fun f => (f, "");
     env_isalnum := fun c =>
       let n := nat_of_ascii c in
       ((48 <=? n) && (n <=? 57) || (65 <=? n) && (n <=? 90)
        || (97 <=? n) && (n <=? 122))%nat |}.

Definition config (pattern : string) (n : Z) : Config :=
  {| start_url := "https://a.com/"; url_pattern := pattern;
     selector := ""; remove_selectors := []; max_pages := n;
     output_file := "out" |}.

End Site.

(** The documentation site of the specification's end-to-end scenario: the
    seed links to two pages under the pattern, to an external page and to a
    page of the same host outside the pattern. *)
Module Docs.

Definition site (url : string) : exc Page :=
  if String.eqb url "https://example.com/docs/" then
    Ok (Site.page "Docs" "Welcome" ["https://example.com/docs/a";
                                     "https://example.com/docs/b";
                                     "https://other.org/";
                                     "https://example.com/blog/"])
  else if String.eqb url "https://example.com/docs/a" then
    Ok (Site.page "A" "Page A" ["https://example.com/docs/"])
  else if String.eqb url "https://example.com/docs/b" then
    Ok (Site.page "B" "Page B" ["https://example.com/docs/a"])
  else Ok (Site.page "Elsewhere" "Not documentation" []).

Definition env : Env Site.world :=
  {| env_launch := env_launch Site.env;
     env_goto := fun url w => (site url, S w);
     env_close_browser := env_close_browser Site.env;
     env_strftime := env_strftime Site.env;
     env_isoformat := env_isoformat Site.env;
     env_makedirs := env_makedirs Site.env;
     env_write_json := env_write_json Site.env;
     env_stop_requested := env_stop_requested Site.env;
     env_pop_index := env_pop_index Site.env;
     env_netloc := env_netloc Site.env;
     env_splitext := env_splitext Site.env;
     env_isalnum := env_isalnum Site.env |}.

Definition config : Config :=
  {| start_url := "https://example.com/docs/";
     url_pattern := "https://example.com/docs/";
     selector := ""; remove_selectors := []; max_pages := 3;
     output_file := "out" |}.

End Docs.

(** ** Observations on a run *)

(** Whether the fetch of [url] in world [w] gets as far as the title:
    [new_page], [goto] and [page.title()] all return. *)
Definition navigation_ok {W} (E : Env W) (url : string) (w : W) : bool :=
  match env_goto E url w with
  | (Ok page, _) => is_ok (page_title page)
  | (Raise _, _) => false
  end.

(** The [crawl_page] calls made between state [st] and state [st']. *)
Definition calls_since {W} (st st' : State W) : list string :=
  drop (length (crawl_page_calls st)) (crawl_page_calls st').

(** The files written between state [st] and state [st']. *)
Definition written_since {W} (st st' : State W) : list (string * Artifact) :=
  drop (length (written st)) (written st').

(** The state a finished run of [crawl] leaves, [st] itself when the fuel
    does not suffice. *)
Definition final_state {W} (E : Env W) (cfg : Config) (fuel : nat)
    (st : State W) : State W :=
  match crawl E cfg fuel st with
  | Some (_, st') => st'
  | None => st
  end.

(** The outcome of the loop of a run, for a run that reaches the end of
    the loop within [fuel] iterations. *)
Definition loop_end {W} (E : Env W) (cfg : Config) (fuel : nat)
    (st1 : State W) : gset string * State W :=
  match crawl_loop E cfg fuel {[start_url cfg]} st1 with
  | Some (Ok urls, st2) => (urls, st2)
  | _ => (∅, st1)
  end.

(** Creating the output directory or writing the file raises [e] in state
    [st2], the state at the end of the loop. *)
Definition write_fails {W} (E : Env W) (cfg : Config)
    (page_title unique_output_file : string) (st2 : State W) (e : exn)
    : Prop :=
  exists domain,
    env_netloc E (start_url cfg) = Ok domain
    /\ (fst (env_makedirs E unique_output_file (world st2)) = Raise e
        \/ exists w,
             env_makedirs E unique_output_file (world st2) = (Ok tt, w)
             /\ fst (env_write_json E unique_output_file
                       (artifact E cfg page_title domain (with_world w st2)) w)
                = Raise e).

(** ** The words of the specification *)

Module SpecWords.

(** The specification's normalized form of a URL: scheme, host, path and
    query are kept, the fragment (everything from the first "#") is
    stripped. The crawler has no such function; this one is used only to
    state normalized equality. *)
Fixpoint normalize_url (url : string) : string :=
  match url with
  | EmptyString => EmptyString
  | String c rest =>
      if Ascii.eqb c "#" then EmptyString else String c (normalize_url rest)
  end.

End SpecWords.

(** ** Predicates used in the proofs *)

(** A word: a non-empty string without whitespace. *)
Fixpoint no_space (s : string) : bool :=
  match s with
  | EmptyString => true
  | String c s' => negb (PyStr.isspace c) && no_space s'
  end.

Definition is_word (s : string) : bool :=
  PyStr.truthy s && no_space s.

(** The loop invariant, relative to the state [st1] in which the loop is
    entered. *)
Definition loop_inv {W} (E : Env W) (cfg : Config) (st1 : State W)
    (urls : gset string) (st : State W) : Prop :=
  browser st = true
  /\ written st = written st1
  /\ Z.of_nat (size (visited_urls st)) <= Z.max 0 (max_pages cfg)
  /\ (length (results st) <= size (visited_urls st))%nat
  /\ (exists calls,
        crawl_page_calls st = crawl_page_calls st1 ++ calls
        /\ NoDup calls
        /\ forall u, u ∈ calls -> u ∈ visited_urls st)
  /\ (forall u, u ∈ urls ∪ visited_urls st ->
        u = start_url cfg
        \/ exists d, env_netloc E u = Ok d
                     /\ env_netloc E (start_url cfg) = Ok d).

(** No queued URL has been visited. *)
Definition frontier_fresh {W} (urls : gset string) (st : State W) : Prop :=
  forall u, u ∈ urls -> u ∉ visited_urls st.

(** What every finished run of [crawl] guarantees about the state it
    leaves, relative to the state [st] it was called in. *)
Definition run_summary {W} (cfg : Config) (st st' : State W) : Prop :=
  Z.of_nat (size (visited_urls st')) <= Z.max 0 (max_pages cfg)
  /\ (length (results st') <= size (visited_urls st'))%nat
  /\ (exists calls,
        crawl_page_calls st' = crawl_page_calls st ++ calls
        /\ NoDup calls
        /\ forall u, u ∈ calls -> u ∈ visited_urls st')
  /\ (written st' = written st
      \/ exists f doc,
           written st' = written st ++ [(f, doc)]
           /\ art_pages doc = results st'
           /\ md_total_pages (art_metadata doc) = length (results st'))
  /\ running st' = false.

(** What the loop keeps true of the URLs it has crawled, relative to the
    state [st1] in which the loop is entered: the visited set is the set of
    URLs passed to [crawl_page], every one of them matches the pattern, the
    records follow the order of the calls, and the first call, if any, is
    on the seed. *)
Definition crawled_inv {W} (cfg : Config) (st1 : State W)
    (urls : gset string) (st : State W) : Prop :=
  exists calls,
    crawl_page_calls st = crawl_page_calls st1 ++ calls
    /\ visited_urls st = list_to_set calls
    /\ Forall (fun u => matches_pattern u (url_pattern cfg) = true) calls
    /\ map pr_url (results st) `sublist_of` calls
    /\ ((calls = [] /\ urls ⊆ {[start_url cfg]})
        \/ exists rest, calls = start_url cfg :: rest).

(** ** Environments that fail *)

(** A site whose pages cannot be queried for links: evaluating the link
    script raises after the page has loaded. *)
Module Flaky.

Definition page : Page :=
  {| page_title := Ok "Home";
     page_query_selector_all := fun _ => Ok [];
     page_body_text_content := Ok (Some "Hello");
     page_anchor_hrefs := Raise (Exception "Execution context was destroyed");
     page_close := Ok tt |}.

Definition env : Env Site.world :=
  {| env_launch := env_launch Site.env;
     env_goto := fun _ w => (Ok page, S w);
     env_close_browser := env_close_browser Site.env;
     env_strftime := env_strftime Site.env;
     env_isoformat := env_isoformat Site.env;
     env_makedirs := env_makedirs Site.env;
     env_write_json := env_write_json Site.env;
     env_stop_requested := env_stop_requested Site.env;
     env_pop_index := env_pop_index Site.env;
     env_netloc := env_netloc Site.env;
     env_splitext := env_splitext Site.env;
     env_isalnum := env_isalnum Site.env |}.

End Flaky.

(** The sample site going offline after the first navigation: the title
    probe succeeds and every later fetch fails. *)
Module Offline.

Definition env : Env Site.world :=
  {| env_launch := env_launch Site.env;
     env_goto := fun url w =>
       (match w with
        | O => Site.site url
        | S _ => Raise (Exception "net::ERR_INTERNET_DISCONNECTED")
        end, S w);
     env_close_browser := env_close_browser Site.env;
     env_strftime := env_strftime Site.env;
     env_isoformat := env_isoformat Site.env;
     env_makedirs := env_makedirs Site.env;
     env_write_json := env_write_json Site.env;
     env_stop_requested := env_stop_requested Site.env;
     env_pop_index := env_pop_index Site.env;
     env_netloc := env_netloc Site.env;
     env_splitext := env_splitext Site.env;
     env_isalnum := env_isalnum Site.env |}.

(** The state in which the loop is entered. *)
Definition entry : State Site.world :=
  snd (crawl_begin env (Site.config "" 10) (snd (crawl_reset (init 0%nat)))).

End Offline.

(** A file system on which the output directory cannot be created. *)
Module ReadOnly.

Definition env : Env Site.world :=
  {| env_launch := env_launch Site.env;
     env_goto := env_goto Site.env;
     env_close_browser := env_close_browser Site.env;
     env_strftime := env_strftime Site.env;
     env_isoformat := env_isoformat Site.env;
     env_makedirs := fun _ w =>
       (Raise (Exception "[Errno 13] Permission denied: '/out'"), w);
     env_write_json := env_write_json Site.env;
     env_stop_requested := env_stop_requested Site.env;
     env_pop_index := env_pop_index Site.env;
     env_netloc := env_netloc Site.env;
     env_splitext := env_splitext Site.env;
     env_isalnum := env_isalnum Site.env |}.

End ReadOnly.

(** A network on which no page can be reached. *)
Module Unreachable.

Definition env : Env Site.world :=
  {| env_launch := env_launch Site.env;
     env_goto := fun _ w =>
       (Raise (Exception "net::ERR_NAME_NOT_RESOLVED"), S w);
     env_close_browser := env_close_browser Site.env;
     env_strftime := env_strftime Site.env;
     env_isoformat := env_isoformat Site.env;
     env_makedirs := env_makedirs Site.env;
     env_write_json := env_write_json Site.env;
     env_stop_requested := env_stop_requested Site.env;
     env_pop_index := env_pop_index Site.env;
     env_netloc := env_netloc Site.env;
     env_splitext := env_splitext Site.env;
     env_isalnum := env_isalnum Site.env |}.

End Unreachable.

(** The site of [Site], with the user pressing Stop while the title probe
    is under way: the flag is clear when [crawl] starts and set from the
    first navigation on. *)
Module StopDuringProbe.

Definition env : Env Site.world :=
  {| env_launch := env_launch Site.env;
     env_goto := env_goto Site.env;
     env_close_browser := env_close_browser Site.env;
     env_strftime := env_strftime Site.env;
     env_isoformat := env_isoformat Site.env;
     env_makedirs := env_makedirs Site.env;
     env_write_json := env_write_json Site.env;
     env_stop_requested := fun w => Nat.leb 1 w;
     env_pop_index := env_pop_index Site.env;
     env_netloc := env_netloc Site.env;
     env_splitext := env_splitext Site.env;
     env_isalnum := env_isalnum Site.env |}.

End StopDuringProbe.


(** ** Predicates used in the further properties *)

(** Every character of [s] satisfies [P]. *)
Fixpoint all_chars (P : ascii -> bool) (s : string) : bool :=
  match s with
  | EmptyString => true
  | String c s' => P c && all_chars P s'
  end.

(** The characters [clean_title] lets through. *)
Definition title_char {W} (E : Env W) (c : ascii) : bool :=
  (env_isalnum E c || Ascii.eqb c "-" || Ascii.eqb c "_")
  && negb (Ascii.eqb c " ").

(** Whether [urlparse(link).netloc] is the string [d]. *)
Definition has_netloc {W} (E : Env W) (d link : string) : bool :=
  match env_netloc E link with
  | Ok d' => String.eqb d' d
  | Raise _ => false
  end.

(** No two adjacent characters of [s] are both whitespace. *)
Fixpoint no_adjacent_spaces (s : string) : bool :=
  match s with
  | EmptyString => true
  | String a s' =>
      match s' with
      | EmptyString => true
      | String b _ => negb (PyStr.isspace a && PyStr.isspace b)
      end && no_adjacent_spaces s'
  end.

(** The words of the text of one element; a null text has none. *)
Definition text_words (text : option string) : list string :=
  match text with
  | Some t => PyStr.split t
  | None => []
  end.

(** ** main.py: the dashboard around the crawler *)

Module PyStr2.

(** [str.endswith]. *)
Fixpoint endswith (s suffix : string) : bool :=
  if String.eqb s suffix then true
  else match s with
       | EmptyString => false
       | String _ s' => endswith s' suffix
       end.

(** [s.split(sep)] for a one-character separator: the pieces between the
    separators, empty pieces included; never the empty list. *)
Fixpoint split_on (sep : ascii) (s : string) : list string :=
  match s with
  | EmptyString => [EmptyString]
  | String c s' =>
      if Ascii.eqb c sep then EmptyString :: split_on sep s'
      else match split_on sep s' with
           | piece :: pieces => String c piece :: pieces
           | [] => [String c EmptyString]
           end
  end.

End PyStr2.

Module Gui.

(** A value [json.load] returns. Of a float only whether it is zero
    matters here. *)
#[warnings="-register-all"]
Inductive Json : Type :=
| JNull
| JBool (b : bool)
| JInt (n : Z)
| JFloat (is_zero : bool)
| JString (s : string)
| JList (items : list Json)
| JDict (members : gmap string Json).

(** [type(v).__name__] *)
Definition type_name (v : Json) : string :=
  match v with
  | JNull => "NoneType"
  | JBool _ => "bool"
  | JInt _ => "int"
  | JFloat _ => "float"
  | JString _ => "str"
  | JList _ => "list"
  | JDict _ => "dict"
  end.

(** [bool(v)], as [or] tests it. *)
Definition json_truthy (v : Json) : bool :=
  match v with
  | JNull => false
  | JBool b => b
  | JInt n => negb (n =? 0)
  | JFloat is_zero => negb is_zero
  | JString s => PyStr.truthy s
  | JList items => negb (Nat.eqb (length items) 0)
  | JDict members => negb (Nat.eqb (size members) 0)
  end.

(** The settings file, the toolkit and the constants of the dashboard:
    the default output path, [os.path.exists('settings.json')], [open]
    with [json.load], [open] with [json.dump], what [QLineEdit.setText]
    does with [None] (it takes it as a text or raises, with the version
    of PyQt), and the message of the [TypeError] it raises for a value of
    the named type that is neither a [str] nor [None]. *)
Record FileEnv (F : Type) : Type := {
  default_output_path : string;
  settings_exists : F -> bool;
  settings_load : F -> exc Json;
  settings_dump : gmap string string -> F -> exc unit * F;
  set_text_none : exc string;
  set_text_type_error : string -> string
}.
Arguments default_output_path {F} _.
Arguments settings_exists {F} _ _.
Arguments settings_load {F} _ _.
Arguments settings_dump {F} _ _ _.
Arguments set_text_none {F} _.
Arguments set_text_type_error {F} _ _.

(** The widgets of [CrawlerGUI] that the methods read and write, the
    message boxes shown so far and the configuration of the thread last
    started. *)
Record Window : Type := {
  start_url_text : string;
  url_pattern_text : string;
  output_path_text : string;
  selector_text : string;
  max_pages_value : Z;
  remove_selectors_text : string;
  output_lines : list string;
  start_enabled : bool;
  stop_enabled : bool;
  crawler_thread : option Config;
  warnings : list string;
  informations : list string
}.

Definition set_output_path (p : string) (g : Window) : Window :=
  {| start_url_text := start_url_text g;
     url_pattern_text := url_pattern_text g;
     output_path_text := p;
     selector_text := selector_text g;
     max_pages_value := max_pages_value g;
     remove_selectors_text := remove_selectors_text g;
     output_lines := output_lines g;
     start_enabled := start_enabled g;
     stop_enabled := stop_enabled g;
     crawler_thread := crawler_thread g;
     warnings := warnings g;
     informations := informations g |}.

Definition set_url_pattern (p : string) (g : Window) : Window :=
  {| start_url_text := start_url_text g;
     url_pattern_text := p;
     output_path_text := output_path_text g;
     selector_text := selector_text g;
     max_pages_value := max_pages_value g;
     remove_selectors_text := remove_selectors_text g;
     output_lines := output_lines g;
     start_enabled := start_enabled g;
     stop_enabled := stop_enabled g;
     crawler_thread := crawler_thread g;
     warnings := warnings g;
     informations := informations g |}.

Definition set_start_url (u : string) (g : Window) : Window :=
  {| start_url_text := u;
     url_pattern_text := url_pattern_text g;
     output_path_text := output_path_text g;
     selector_text := selector_text g;
     max_pages_value := max_pages_value g;
     remove_selectors_text := remove_selectors_text g;
     output_lines := output_lines g;
     start_enabled := start_enabled g;
     stop_enabled := stop_enabled g;
     crawler_thread := crawler_thread g;
     warnings := warnings g;
     informations := informations g |}.

(** [QMessageBox.warning(self, "Error", msg)] *)
Definition warn (msg : string) (g : Window) : Window :=
  {| start_url_text := start_url_text g;
     url_pattern_text := url_pattern_text g;
     output_path_text := output_path_text g;
     selector_text := selector_text g;
     max_pages_value := max_pages_value g;
     remove_selectors_text := remove_selectors_text g;
     output_lines := output_lines g;
     start_enabled := start_enabled g;
     stop_enabled := stop_enabled g;
     crawler_thread := crawler_thread g;
     warnings := warnings g ++ [msg];
     informations := informations g |}.

(** The state of the buttons, the output pane, the thread and the
    information boxes after an event. *)
Definition set_controls (start stop : bool) (lines : list string)
    (thread : option Config) (infos : list string) (g : Window) : Window :=
  {| start_url_text := start_url_text g;
     url_pattern_text := url_pattern_text g;
     output_path_text := output_path_text g;
     selector_text := selector_text g;
     max_pages_value := max_pages_value g;
     remove_selectors_text := remove_selectors_text g;
     output_lines := lines;
     start_enabled := start;
     stop_enabled := stop;
     crawler_thread := thread;
     warnings := warnings g;
     informations := infos |}.

Section Methods.
Context {F : Type} (FE : FileEnv F).

(** The dict [save_settings] dumps. *)
Definition settings_of (g : Window) : gmap string string :=
  <["output_path" := output_path_text g]>
    (<["url_pattern" := url_pattern_text g]>
       (<["last_start_url" := start_url_text g]> ∅)).

(** [settings.get(key, '')] *)
Definition get_or_empty (settings : gmap string Json) (key : string)
    : Json :=
  default (JString EmptyString) (settings !! key).

(** The argument of a [setText] call: the text the widget takes, or the
    [TypeError] the call raises, which leaves the widget as it was. *)
Definition set_text (v : Json) : exc string :=
  match v with
  | JString s => Ok s
  | JNull => set_text_none FE
  | _ => Raise (Exception (set_text_type_error FE (type_name v)))
  end.

(** [save_settings] *)
Definition save_settings (g : Window) (f : F) : Window * F :=
  match settings_dump FE (settings_of g) f with
  | (Ok _, f') => (g, f')
  | (Raise e, f') => (warn ("Failed to save settings: " +:+ str_exn e) g, f')
  end.

(** [load_settings]. The three [setText] calls run in order inside the
    [try] block: one that raises ends the block, so the widgets set
    before it keep their new text and the later ones are not touched.
    [settings.get] raises [AttributeError] when the file does not hold a
    JSON object. *)
Definition load_settings (g : Window) (f : F) : Window :=
  let failed e := warn ("Failed to load settings: " +:+ str_exn e) in
  if settings_exists FE f then
    match settings_load FE f with
    | Ok (JDict settings) =>
        let path := get_or_empty settings "output_path" in
        match set_text (if json_truthy path then path
                        else JString (default_output_path FE)) with
        | Raise e => failed e g
        | Ok path =>
            let g := set_output_path path g in
            match set_text (get_or_empty settings "url_pattern") with
            | Raise e => failed e g
            | Ok pattern =>
                let g := set_url_pattern pattern g in
                match set_text (get_or_empty settings "last_start_url") with
                | Raise e => failed e g
                | Ok url => set_start_url url g
                end
            end
        end
    | Ok v =>
        failed (Exception ("'" +:+ type_name v
                             +:+ "' object has no attribute 'get'")) g
    | Raise e => failed e g
    end
  else g.

(** The window [CrawlerGUI.__init__] builds, before [load_settings]. *)
Definition fresh_window : Window :=
  {| start_url_text := EmptyString;
     url_pattern_text := EmptyString;
     output_path_text := default_output_path FE;
     selector_text := EmptyString;
     max_pages_value := 10;
     remove_selectors_text := EmptyString;
     output_lines := [];
     start_enabled := true;
     stop_enabled := false;
     crawler_thread := None;
     warnings := [];
     informations := [] |}.

(** [CrawlerGUI.__init__] *)
Definition new_window (f : F) : Window := load_settings fresh_window f.

(** [browse_output_path], given the path the file dialog returned (empty
    when the dialog was cancelled). *)
Definition browse_output_path (file_path : string) (g : Window) (f : F)
    : Window * F :=
  if PyStr.truthy file_path then
    let file_path :=
      if negb (PyStr2.endswith file_path ".json")
      then file_path +:+ ".json" else file_path in
    save_settings (set_output_path file_path g) f
  else (g, f).

End Methods.

(** The list comprehension of [start_crawler]: the non-empty lines of the
    text of the remove-selectors box. *)
Definition selector_lines (text : string) : list string :=
  List.filter PyStr.truthy (PyStr2.split_on newline text).

(** The [config] dict of [start_crawler]. *)
Definition config_of (g : Window) : Config :=
  {| start_url := start_url_text g;
     url_pattern := url_pattern_text g;
     selector := selector_text g;
     remove_selectors := selector_lines (remove_selectors_text g);
     max_pages := max_pages_value g;
     output_file := output_path_text g |}.

(** [start_crawler] *)
Definition start_crawler (g : Window) : Window :=
  if negb (PyStr.truthy (start_url_text g)) then
    warn "Please enter a starting URL" g
  else
    set_controls false true (output_lines g) (Some (config_of g))
      (informations g) g.

(** [update_output] *)
Definition update_output (text : string) (g : Window) : Window :=
  set_controls (start_enabled g) (stop_enabled g) (output_lines g ++ [text])
    (crawler_thread g) (informations g) g.

(** [crawler_finished] *)
Definition crawler_finished (g : Window) : Window :=
  set_controls true false (output_lines g) (crawler_thread g)
    (informations g ++ ["Crawler process has finished!"]) g.

(** [stop_crawler]; the call of [stop] on the thread's crawler reaches
    the crawler through [env_stop_requested]. *)
Definition stop_crawler (g : Window) : Window :=
  match crawler_thread g with
  | Some _ =>
      set_controls true false (output_lines g ++ ["Crawler stopped by user"])
        (crawler_thread g) (informations g) g
  | None => g
  end.

(** What the user and the thread can do to the window. *)
Inductive Event : Type :=
| ClickStart
| ClickStop
| ThreadFinished
| ThreadOutput (text : string)
| EditStartUrl (text : string)
| EditUrlPattern (text : string)
| EditOutputPath (text : string).

Definition react (ev : Event) (g : Window) : Window :=
  match ev with
  | ClickStart => start_crawler g
  | ClickStop => stop_crawler g
  | ThreadFinished => crawler_finished g
  | ThreadOutput text => update_output text g
  | EditStartUrl text => set_start_url text g
  | EditUrlPattern text => set_url_pattern text g
  | EditOutputPath text => set_output_path text g
  end.

(** The window after a sequence of events, oldest first. *)
Definition after (events : list Event) (g : Window) : Window :=
  fold_left (fun g ev => react ev g) events g.

End Gui.

(** A settings file kept in memory: dumping replaces it, loading reads
    it back. *)
Module MemoryFile.

Definition env : Gui.FileEnv (option Gui.Json) :=
  {| Gui.default_output_path := "/home/user/Desktop/crawler_output.json";
     Gui.settings_exists := fun f => bool_decide (is_Some f);
     Gui.settings_load := fun f =>
       match f with
       | Some v => Ok v
       | None => Raise (Exception "[Errno 2] No such file or directory")
       end;
     Gui.settings_dump := fun m _ =>
       (Ok tt, Some (Gui.JDict (Gui.JString <$> m)));
     Gui.set_text_none := Ok EmptyString;
     Gui.set_text_type_error := fun t =>
       "setText(self, a0: Optional[str]): argument 1 has unexpected type '"
         +:+ t +:+ "'" |}.

End MemoryFile.

(** The settings file keeps what is dumped into it. *)
Definition file_keeps_dump {F} (FE : Gui.FileEnv F) : Prop :=
  forall m f f',
    Gui.settings_dump FE m f = (Ok tt, f') ->
    Gui.settings_exists FE f' = true
    /\ Gui.settings_load FE f' = Ok (Gui.JDict (Gui.JString <$> m)).

(** The invariant of the dashboard's buttons and thread. *)
Definition controls_ok (g : Gui.Window) : Prop :=
  Gui.start_enabled g = negb (Gui.stop_enabled g)
  /\ (Gui.stop_enabled g = true -> is_Some (Gui.crawler_thread g))
  /\ (forall cfg, Gui.crawler_thread g = Some cfg ->
        PyStr.truthy (start_url cfg) = true).

(** The records logged between state [st] and state [st']. *)
Definition log_since {W} (st st' : State W) : list LogRecord :=
  drop (length (log st)) (log st').

Definition is_info (r : LogRecord) : bool :=
  match r with LogInfo _ => true | LogError _ => false end.

(** The record [crawl] logs before it crawls [url]. *)
Definition crawling_line (url : string) : LogRecord :=
  LogInfo ("Crawling: " +:+ url).

(** What the loop keeps true of the log, relative to the state [st1] in
    which the loop is entered: its info records are the lines of the
    calls made. *)
Definition logged_inv {W} (st1 : State W) (st : State W) : Prop :=
  exists lines calls,
    log st = log st1 ++ lines
    /\ crawl_page_calls st = crawl_page_calls st1 ++ calls
    /\ List.filter is_info lines = map crawling_line calls.

(** * Properties *)

(** ** Strings *)

Example split_sample :
  PyStr.split "  a b
  c  " = ["a"; "b"; "c"].
Proof. reflexivity. Qed.

Example strip_sample : PyStr.strip "  a b  " = "a b".
Proof. reflexivity. Qed.

Section StringFacts.

Lemma startswith_spec (s p : string) :
  PyStr.startswith s p = true <-> exists rest, s = p +:+ rest.
Proof.
  revert s; induction p as [|c p IH]; intros s; simpl.
  - split; [intros _; exists s; reflexivity | reflexivity].
  - destruct s as [|d s]; simpl.
    + split; [discriminate | intros [rest H]; discriminate].
    + destruct (Ascii.eqb_spec d c) as [->|Hne].
      * rewrite IH. split; intros [rest H]; exists rest.
        -- now rewrite H.
        -- now injection H.
      * split; [discriminate|].
        intros [rest H]. injection H as Hd _. contradiction.
Qed.

Lemma is_word_cons c w :
  PyStr.isspace c = false -> no_space w = true ->
  is_word (String c w) = true.
Proof. intros Hc Hw. unfold is_word; simpl. now rewrite Hc, Hw. Qed.

Lemma split_words (s : string) :
  Forall (fun w => is_word w = true) (PyStr.split s).
Proof.
  induction s as [|c s IH]; simpl; [constructor|].
  destruct (PyStr.isspace c) eqn:Hc; [exact IH|].
  destruct s as [|d s'].
  - constructor; [now apply is_word_cons | constructor].
  - destruct (PyStr.isspace d) eqn:Hd.
    + constructor; [now apply is_word_cons | exact IH].
    + destruct (PyStr.split (String d s')) as [|w ws] eqn:Hs.
      * constructor; [now apply is_word_cons | constructor].
      * inversion IH as [|? ? Hw Hws]; subst.
        constructor; [|exact Hws].
        apply is_word_cons; [exact Hc|].
        unfold is_word in Hw. now apply andb_true_iff in Hw as [_ Hw].
Qed.

Lemma append_cons (a : ascii) (w s : string) :
  String a w +:+ s = String a (w +:+ s).
Proof. reflexivity. Qed.

Lemma split_cons (c : ascii) (s : string) :
  PyStr.split (String c s) =
  if PyStr.isspace c then PyStr.split s
  else match s with
       | EmptyString => [String c EmptyString]
       | String d _ =>
           if PyStr.isspace d then String c EmptyString :: PyStr.split s
           else match PyStr.split s with
                | w :: ws => String c w :: ws
                | [] => [String c EmptyString]
                end
       end.
Proof. reflexivity. Qed.

Lemma is_word_inv (a : ascii) (w : string) :
  is_word (String a w) = true ->
  PyStr.isspace a = false /\ no_space w = true.
Proof.
  unfold is_word; simpl. intros [Ha Hw]%andb_true_iff.
  now apply negb_true_iff in Ha.
Qed.

Lemma split_word_then_space (w rest : string) (c : ascii) :
  is_word w = true -> PyStr.isspace c = true ->
  PyStr.split (w +:+ String c rest) = w :: PyStr.split rest.
Proof.
  intros Hw Hc. induction w as [|a w IH]; [discriminate|].
  apply is_word_inv in Hw as [Ha Hw].
  rewrite append_cons, split_cons, Ha.
  destruct w as [|b w'].
  - change ("" +:+ String c rest) with (String c rest). cbv beta iota.
    now rewrite Hc, split_cons, Hc.
  - assert (Hbw : is_word (String b w') = true) by exact Hw.
    destruct (is_word_inv _ _ Hbw) as [Hb _].
    rewrite IH by exact Hbw.
    rewrite append_cons. cbv beta iota. now rewrite Hb.
Qed.

Lemma split_word (w : string) :
  is_word w = true -> PyStr.split w = [w].
Proof.
  intros Hw. induction w as [|a w IH]; [discriminate|].
  apply is_word_inv in Hw as [Ha Hw].
  rewrite split_cons, Ha.
  destruct w as [|b w']; [reflexivity|].
  assert (Hbw : is_word (String b w') = true) by exact Hw.
  destruct (is_word_inv _ _ Hbw) as [Hb _].
  rewrite IH by exact Hbw. now rewrite Hb.
Qed.

Lemma split_join (ws : list string) :
  Forall (fun w => is_word w = true) ws ->
  PyStr.split (PyStr.join " " ws) = ws.
Proof.
  induction 1 as [|w ws Hw Hws IH]; [reflexivity|].
  destruct ws as [|w2 ws'].
  - simpl. now apply split_word.
  - change (PyStr.join " " (w :: w2 :: ws'))
      with (w +:+ String " " (PyStr.join " " (w2 :: ws'))).
    rewrite split_word_then_space; [|exact Hw|reflexivity].
    now rewrite IH.
Qed.

End StringFacts.

(** C4. [matches_pattern url pattern] is true when [pattern] is empty, and
    for a non-empty pattern it is true exactly when [url] starts with the
    literal [pattern]; the three sample evaluations of the specification
    hold. *)
Theorem matches_pattern_prefix :
  (forall url, matches_pattern url "" = true)
  /\ (forall url c p,
        matches_pattern url (String c p) = true
        <-> exists rest, url = String c p +:+ rest)
  /\ matches_pattern "https://a.com/x" "https://a.com/docs" = false
  /\ matches_pattern "https://a.com/docs/x" "https://a.com/docs" = true.
Proof.
  split; [reflexivity|].
  split; [|split; reflexivity].
  intros url c p. unfold matches_pattern.
  change (negb (PyStr.truthy (String c p))) with false.
  cbv iota. apply startswith_spec.
Qed.

(** C9. The whitespace clean-up of [process_page],
    [' '.join(content.split())], is idempotent. *)
Theorem clean_up_idempotent (content : string) :
  clean_up (clean_up content) = clean_up content.
Proof.
  unfold clean_up. now rewrite split_join by apply split_words.
Qed.

(** ** The crawl loop *)

Ltac unfold_monad :=
  unfold bind, ret, lift, get, call, with_world, try_except, set_browser,
    set_visited_urls, set_results, set_running, emit, note_call,
    note_written in *;
  cbn [fst snd world browser visited_urls results running log
       crawl_page_calls written] in *.

Section LoopFacts.
Context {W : Type} (E : Env W).

(** Every link kept by the same-domain filter has netloc [d]. *)
Lemma same_domain_links_netloc (d : string) (links kept : list string) :
  same_domain_links E d links = Ok kept ->
  Forall (fun l => env_netloc E l = Ok d) kept.
Proof.
  revert kept; induction links as [|l links IH]; intros kept; simpl.
  - intros [= <-]. constructor.
  - destruct (env_netloc E l) as [d'|e] eqn:Hl; [|discriminate].
    destruct (same_domain_links E d links) as [kept'|e]; [|discriminate].
    destruct (String.eqb_spec d' d) as [->|Hne]; intros [= <-].
    + constructor; [exact Hl | now apply IH].
    + now apply IH.
Qed.

(** What [process_page] leaves untouched. *)
Lemma process_page_frame (page : Page) (sel : string) (rs : list string)
    (st : State W) :
  let st' := snd (process_page page sel rs st) in
  world st' = world st /\ browser st' = browser st
  /\ visited_urls st' = visited_urls st /\ results st' = results st
  /\ running st' = running st /\ crawl_page_calls st' = crawl_page_calls st
  /\ written st' = written st.
Proof.
  unfold process_page. unfold_monad.
  destruct (process_page_try page sel rs); cbn; repeat split.
Qed.

(** [process_page] returns a string on every input. *)
Lemma process_page_returns (page : Page) (sel : string) (rs : list string)
    (st : State W) :
  exists content, fst (process_page page sel rs st) = Ok content.
Proof.
  unfold process_page. unfold_monad.
  destruct (process_page_try page sel rs); cbn; eauto.
Qed.

(** The effect of the [try] block of [crawl_page]. *)
Lemma crawl_page_try_effect (url sel : string) (rs : list string)
    (st st' : State W) (r : exc (list string)) :
  crawl_page_try E url sel rs st = (r, st') ->
  browser st' = browser st
  /\ visited_urls st' = visited_urls st
  /\ running st' = running st
  /\ crawl_page_calls st' = crawl_page_calls st
  /\ written st' = written st
  /\ (results st' = results st
      \/ exists rec, results st' = results st ++ [rec] /\ pr_url rec = url)
  /\ (forall links, r = Ok links ->
        exists d, env_netloc E url = Ok d
                  /\ Forall (fun l => env_netloc E l = Ok d) links).
Proof.
  unfold crawl_page_try, process_page. unfold_monad.
  destruct (env_goto E url (world st)) as [[page|e] w]; cbn.
  2: { intros [= <- <-]; cbn. repeat split; auto. intros links [=]. }
  destruct (page_title page) as [title|e]; cbn.
  2: { intros [= <- <-]; cbn. repeat split; auto. intros links [=]. }
  destruct (process_page_try page sel rs) as [content|e]; cbn;
    (destruct (page_anchor_hrefs page) as [hrefs|e']; cbn;
     [|intros [= <- <-]; cbn; repeat split; eauto; intros links [=]]);
    (destruct (env_netloc E url) as [d|e'] eqn:Hd; cbn;
     [|intros [= <- <-]; cbn; repeat split; eauto; intros links [=]]);
    (destruct (same_domain_links E d (http_links hrefs)) as [kept|e'] eqn:Hk;
     cbn;
     [|intros [= <- <-]; cbn; repeat split; eauto; intros links [=]]);
    (destruct (page_close page) as [[]|e']; cbn;
     [|intros [= <- <-]; cbn; repeat split; eauto; intros links [=]]);
    intros [= <- <-]; cbn; repeat split; eauto;
    intros links [= <-]; exists d; (split; [reflexivity|]);
    now apply same_domain_links_netloc in Hk.
Qed.

(** [set.pop()] on a non-empty set removes one of its elements. *)
Lemma set_pop_nonempty (i : nat) (s : gset string) :
  s <> ∅ ->
  exists x, x ∈ s /\ set_pop i s = Ok (x, s ∖ {[x]}).
Proof.
  intros Hne. unfold set_pop.
  assert (Hlen : (0 < length (elements s))%nat).
  { destruct (elements s) eqn:Hel; [|simpl; lia].
    now apply elements_empty_inv, leibniz_equiv in Hel. }
  destruct (lookup_lt_is_Some_2 (elements s) (i mod length (elements s))%nat)
    as [x Hx].
  { apply Nat.mod_upper_bound. lia. }
  rewrite Hx. exists x. split; [|reflexivity].
  apply elem_of_elements. eapply list_elem_of_lookup_2. exact Hx.
Qed.

(** The effect of [crawl_page] once the browser is set: it returns, and
    only the log, the results and the call history change. *)
Lemma crawl_page_effect (url sel : string) (rs : list string)
    (st st' : State W) (r : exc (list string)) :
  browser st = true ->
  crawl_page E url sel rs st = (r, st') ->
  browser st' = true
  /\ visited_urls st' = visited_urls st
  /\ running st' = running st
  /\ crawl_page_calls st' = crawl_page_calls st ++ [url]
  /\ written st' = written st
  /\ (results st' = results st
      \/ exists rec, results st' = results st ++ [rec] /\ pr_url rec = url)
  /\ exists links, r = Ok links
       /\ (links = []
           \/ exists d, env_netloc E url = Ok d
                        /\ Forall (fun l => env_netloc E l = Ok d) links).
Proof.
  intros Hb. unfold crawl_page.
  unfold bind at 1. unfold note_call at 1.
  unfold bind at 1. unfold bind at 1. unfold get at 1.
  cbn [browser]. rewrite Hb. unfold ret at 1.
  unfold try_except.
  match goal with |- context [crawl_page_try E url sel rs ?s] =>
    destruct (crawl_page_try E url sel rs s) as [r1 s1] eqn:Htry end.
  apply crawl_page_try_effect in Htry.
  cbn [browser visited_urls running crawl_page_calls written results] in Htry.
  destruct Htry as (Hbr & Hv & Hrun & Hc & Hw & Hres & Hlinks).
  destruct r1 as [links|e].
  - intros [= <- <-]. try rewrite Hb in Hbr. repeat split; auto.
    exists links; split; [reflexivity|]. right. now apply Hlinks.
  - unfold_monad. intros [= <- <-]; cbn. try rewrite Hb in Hbr.
    repeat split; auto. exists []; split; [reflexivity|]. now left.
Qed.

(** One iteration of the loop: it pops a queued URL and either skips it,
    leaving the state alone, or marks it visited and crawls it. *)
Lemma loop_body_effect (cfg : Config) (urls : gset string) (st : State W) :
  loop_cond E cfg urls st = true ->
  browser st = true ->
  exists url urls' st',
    loop_body E cfg urls st = (Ok urls', st')
    /\ url ∈ urls
    /\ browser st' = true
    /\ written st' = written st
    /\ running st' = running st
    /\ ((st' = st /\ urls' = urls ∖ {[url]})
        \/ ((url ∉ visited_urls st)
            /\ matches_pattern url (url_pattern cfg) = true
            /\ visited_urls st' = {[url]} ∪ visited_urls st
            /\ crawl_page_calls st' = crawl_page_calls st ++ [url]
            /\ (results st' = results st
                \/ exists rec,
                    results st' = results st ++ [rec] /\ pr_url rec = url)
            /\ exists links,
                 urls' = (urls ∖ {[url]}) ∪ (list_to_set links ∖ visited_urls st')
                 /\ (links = []
                     \/ exists d, env_netloc E url = Ok d
                          /\ Forall (fun l => env_netloc E l = Ok d) links))).
Proof.
  intros Hcond Hb. unfold loop_cond in Hcond.
  apply andb_true_iff in Hcond as [Hcond _].
  apply andb_true_iff in Hcond as [Hne _].
  apply negb_true_iff, bool_decide_eq_false in Hne.
  destruct (set_pop_nonempty (env_pop_index E (world st) urls) urls Hne)
    as (url & Hin & Hpop).
  exists url. unfold loop_body.
  unfold bind at 1. unfold get at 1.
  unfold bind at 1. unfold lift at 1. rewrite Hpop.
  destruct (bool_decide (url ∈ visited_urls st)) eqn:Hvis.
  { exists (urls ∖ {[url]}), st. unfold ret. repeat split; auto. }
  apply bool_decide_eq_false in Hvis.
  destruct (matches_pattern url (url_pattern cfg)) eqn:Hpat; cbn [negb].
  2: { exists (urls ∖ {[url]}), st. unfold ret. repeat split; auto. }
  unfold bind at 1. unfold emit at 1.
  unfold bind at 1. unfold set_visited_urls at 1.
  cbn [world browser visited_urls results running log crawl_page_calls
       written].
  unfold bind at 1.
  match goal with |- context [crawl_page E url ?a ?b ?s] =>
    destruct (crawl_page E url a b s) as [r1 s1] eqn:Hcp end.
  apply crawl_page_effect in Hcp; [|exact Hb].
  cbn [browser visited_urls running crawl_page_calls written results] in Hcp.
  destruct Hcp as (Hbr & Hv & Hrun & Hc & Hw & Hres & links & -> & Hlinks).
  unfold_monad.
  eexists _, s1. split; [reflexivity|].
  repeat split; auto.
  right. repeat split; auto.
  exists links. split; [reflexivity | exact Hlinks].
Qed.

Lemma loop_inv_entry (cfg : Config) (st1 : State W) :
  browser st1 = true -> visited_urls st1 = ∅ -> results st1 = [] ->
  loop_inv E cfg st1 {[start_url cfg]} st1.
Proof.
  intros Hb Hv Hr. unfold loop_inv. rewrite Hv, Hr.
  repeat split; auto.
  - rewrite size_empty. lia.
  - exists []. rewrite app_nil_r. repeat split; [constructor|].
    intros u Hu. now apply elem_of_nil in Hu.
  - intros u Hu. left. set_solver.
Qed.

Lemma loop_body_inv (cfg : Config) (st1 : State W) (urls : gset string)
    (st : State W) :
  loop_inv E cfg st1 urls st ->
  loop_cond E cfg urls st = true ->
  exists urls' st',
    loop_body E cfg urls st = (Ok urls', st') /\ loop_inv E cfg st1 urls' st'.
Proof.
  intros (Hb & Hw & Hsize & Hres & (calls & Hcalls & Hnd & Hsub) & Hdom) Hcond.
  destruct (loop_body_effect cfg urls st Hcond Hb)
    as (url & urls' & st' & Hbody & Hin & Hb' & Hw' & _ & Hcase).
  exists urls', st'. split; [exact Hbody|].
  destruct Hcase as [[-> ->]|
    (Hnv & _ & Hv' & Hc' & Hr' & links & -> & Hlinks)].
  - unfold loop_inv. repeat split; auto.
    + exists calls. repeat split; auto.
    + intros u Hu. apply Hdom. set_solver.
  - assert (Hsz : size (visited_urls st') = S (size (visited_urls st))).
    { rewrite Hv', size_union by set_solver. now rewrite size_singleton. }
    unfold loop_cond in Hcond.
    apply andb_true_iff in Hcond as [Hcond _].
    apply andb_true_iff in Hcond as [_ Hlt]. apply Z.ltb_lt in Hlt.
    unfold loop_inv. repeat split.
    + exact Hb'.
    + congruence.
    + rewrite Hsz. lia.
    + rewrite Hsz. destruct Hr' as [->|(rec & -> & _)]; [lia|].
      rewrite length_app. simpl. lia.
    + exists (calls ++ [url]). repeat split.
      * rewrite Hc', Hcalls. now rewrite app_assoc.
      * apply NoDup_app. repeat split; [exact Hnd| |apply NoDup_singleton].
        intros u Hu Hu'. apply list_elem_of_singleton in Hu' as ->.
        apply Hnv. now apply Hsub.
      * intros u Hu. rewrite Hv'. apply elem_of_app in Hu as [Hu|Hu].
        -- apply elem_of_union_r. now apply Hsub.
        -- apply list_elem_of_singleton in Hu as ->. set_solver.
    + intros u Hu.
      assert (Hurl : url = start_url cfg
                     \/ exists d, env_netloc E url = Ok d
                          /\ env_netloc E (start_url cfg) = Ok d).
      { apply Hdom. set_solver. }
      rewrite Hv' in Hu.
      assert (Hu' : u ∈ urls ∪ visited_urls st \/ u = url \/ u ∈ links)
        by set_solver.
      destruct Hu' as [Hu'|[->|Hu']]; [now apply Hdom | exact Hurl |].
      destruct Hlinks as [->|(d & Hd & Hall)].
      { now apply elem_of_nil in Hu'. }
      rewrite Forall_forall in Hall. specialize (Hall u Hu').
      right. exists d. split; [exact Hall|].
      destruct Hurl as [<-|(d' & Hd' & Hs)]; [exact Hd|congruence].
Qed.

Lemma loop_iter_inv (cfg : Config) (st1 : State W) (n : nat)
    (urls : gset string) (st : State W) :
  loop_inv E cfg st1 urls st ->
  exists urls' st',
    loop_iter E cfg n urls st = (Ok urls', st') /\ loop_inv E cfg st1 urls' st'.
Proof.
  revert urls st; induction n as [|n IH]; intros urls st Hinv; simpl.
  - eauto.
  - destruct (loop_cond E cfg urls st) eqn:Hcond; [|eauto].
    destruct (loop_body_inv cfg st1 urls st Hinv Hcond)
      as (urls' & st' & -> & Hinv').
    now apply IH.
Qed.

Lemma crawl_loop_inv (cfg : Config) (st1 : State W) (fuel : nat)
    (urls : gset string) (st st' : State W) (r : exc (gset string)) :
  loop_inv E cfg st1 urls st ->
  crawl_loop E cfg fuel urls st = Some (r, st') ->
  exists urls', r = Ok urls' /\ loop_inv E cfg st1 urls' st'
                /\ loop_cond E cfg urls' st' = false.
Proof.
  revert urls st; induction fuel as [|fuel IH]; intros urls st Hinv; simpl;
    destruct (loop_cond E cfg urls st) eqn:Hcond;
    try discriminate; try (intros [= <- <-]; eauto).
  destruct (loop_body_inv cfg st1 urls st Hinv Hcond)
    as (urls' & st2 & -> & Hinv').
  now apply IH.
Qed.

(** ** Termination of the loop

    Every iteration either visits a new URL, of which there are at most
    [max_pages], or removes a URL from the frontier without adding any. *)

Lemma loop_cond_true (cfg : Config) (urls : gset string) (st : State W) :
  loop_cond E cfg urls st = true ->
  (0 < size urls)%nat
  /\ Z.of_nat (size (visited_urls st)) < max_pages cfg.
Proof.
  unfold loop_cond. intros [[Hne Hlt]%andb_true_iff _]%andb_true_iff.
  apply negb_true_iff, bool_decide_eq_false in Hne.
  apply Z.ltb_lt in Hlt. split; [|exact Hlt].
  destruct (size urls) eqn:Hs; [|lia].
  now apply size_empty_inv, leibniz_equiv in Hs.
Qed.

Lemma crawl_loop_terminates_aux (cfg : Config) (st1 : State W) (k m : nat) :
  forall (urls : gset string) (st : State W),
    loop_inv E cfg st1 urls st ->
    (Z.to_nat (max_pages cfg - Z.of_nat (size (visited_urls st))) <= k)%nat ->
    (size urls <= m)%nat ->
    exists fuel r st', crawl_loop E cfg fuel urls st = Some (r, st').
Proof.
  revert m; induction k as [|k IHk]; intros m;
    induction m as [|m IHm]; intros urls st Hinv Hk Hm;
    destruct (loop_cond E cfg urls st) eqn:Hcond;
    try (exists 0%nat; simpl; rewrite Hcond; eauto; fail);
    try (apply loop_cond_true in Hcond; lia).
  pose proof (loop_cond_true _ _ _ Hcond) as [Hpos Hlt].
  destruct Hinv as (Hb & Hrest).
  destruct (loop_body_effect cfg urls st Hcond Hb)
    as (url & urls' & st' & Hbody & Hin & _ & _ & _ & Hcase).
  destruct (loop_body_inv cfg st1 urls st (conj Hb Hrest) Hcond)
    as (urls2 & st2 & Hbody2 & Hinv').
  rewrite Hbody in Hbody2. injection Hbody2 as <- <-.
  assert (Hnext : exists fuel r st3,
             crawl_loop E cfg fuel urls' st' = Some (r, st3)).
  { destruct Hcase as [[-> ->]|(Hnv & _ & Hv' & _)].
    - apply IHm; [exact Hinv' | exact Hk |].
      rewrite size_difference by set_solver. rewrite size_singleton. lia.
    - apply (IHk (size urls')); [exact Hinv' | | lia].
      rewrite Hv', size_union by set_solver. rewrite size_singleton. lia. }
  destruct Hnext as (fuel & r & st3 & Hrun).
  exists (S fuel), r, st3. simpl. now rewrite Hcond, Hbody.
Qed.

Lemma crawl_loop_terminates (cfg : Config) (st1 : State W)
    (urls : gset string) (st : State W) :
  loop_inv E cfg st1 urls st ->
  exists fuel r st', crawl_loop E cfg fuel urls st = Some (r, st').
Proof.
  intros Hinv. eapply crawl_loop_terminates_aux; eauto.
Qed.

(** More fuel does not change a finished loop. *)
Lemma crawl_loop_more_fuel (cfg : Config) (fuel extra : nat)
    (urls : gset string) (st : State W) (x : exc (gset string) * State W) :
  crawl_loop E cfg fuel urls st = Some x ->
  crawl_loop E cfg (fuel + extra) urls st = Some x.
Proof.
  revert urls st; induction fuel as [|fuel IH]; intros urls st; simpl.
  - destruct (loop_cond E cfg urls st) eqn:Hcond; [discriminate|].
    intros <-. destruct extra; simpl; now rewrite Hcond.
  - destruct (loop_cond E cfg urls st); [|auto].
    destruct (loop_body E cfg urls st) as [[urls'|e] st']; auto.
Qed.

(** ** The run of [crawl] around the loop *)

(** The title probe changes the world and [self.browser] only; when it
    succeeds the browser is set. *)
Lemma crawl_begin_effect (cfg : Config) (st st1 : State W)
    (r : exc (string * string)) :
  crawl_begin E cfg st = (r, st1) ->
  visited_urls st1 = visited_urls st
  /\ results st1 = results st
  /\ running st1 = running st
  /\ log st1 = log st
  /\ crawl_page_calls st1 = crawl_page_calls st
  /\ written st1 = written st
  /\ (is_ok r = true -> browser st1 = true).
Proof.
  unfold crawl_begin, init_browser. unfold_monad.
  destruct (browser st) eqn:Hb; cbn.
  - destruct (env_goto E (start_url cfg) (world st)) as [[page|e] w]; cbn;
      [|intros [= <- <-]; cbn; repeat split; auto; discriminate].
    destruct (page_title page) as [title|e]; cbn;
      [|intros [= <- <-]; cbn; repeat split; auto; discriminate].
    destruct (page_close page) as [[]|e]; cbn;
      [|intros [= <- <-]; cbn; repeat split; auto; discriminate].
    destruct (env_splitext E (output_file cfg)) as [filename ext]; cbn.
    intros [= <- <-]; cbn; repeat split; auto.
  - destruct (env_launch E (world st)) as [[[]|e] w0]; cbn;
      [|intros [= <- <-]; cbn; repeat split; auto; discriminate].
    destruct (env_goto E (start_url cfg) w0) as [[page|e] w]; cbn;
      [|intros [= <- <-]; cbn; repeat split; auto; discriminate].
    destruct (page_title page) as [title|e]; cbn;
      [|intros [= <- <-]; cbn; repeat split; auto; discriminate].
    destruct (page_close page) as [[]|e]; cbn;
      [|intros [= <- <-]; cbn; repeat split; auto; discriminate].
    destruct (env_splitext E (output_file cfg)) as [filename ext]; cbn.
    intros [= <- <-]; cbn; repeat split; auto.
Qed.

(** Saving writes at most one file, the document of the results so far,
    and none when it raises. *)
Lemma save_results_effect (cfg : Config) (title file : string)
    (st st' : State W) (r : exc unit) :
  save_results E cfg title file st = (r, st') ->
  visited_urls st' = visited_urls st
  /\ results st' = results st
  /\ running st' = running st
  /\ browser st' = browser st
  /\ crawl_page_calls st' = crawl_page_calls st
  /\ ((is_ok r = false /\ written st' = written st /\ log st' = log st)
      \/ (r = Ok tt
          /\ exists doc,
               written st' = written st ++ [(file, doc)]
               /\ art_pages doc = results st
               /\ md_total_pages (art_metadata doc) = length (results st))).
Proof.
  unfold save_results. unfold_monad.
  destruct (env_netloc E (start_url cfg)) as [domain|e]; cbn;
    [|intros [= <- <-]; cbn; repeat split; auto].
  destruct (env_makedirs E file (world st)) as [[[]|e] w]; cbn;
    [|intros [= <- <-]; cbn; repeat split; auto].
  match goal with |- context [env_write_json E file ?d w] =>
    set (doc := d); destruct (env_write_json E file doc w) as [[[]|e] w'] end;
    cbn; [|intros [= <- <-]; cbn; repeat split; auto].
  intros [= <- <-]; cbn; repeat split; auto.
  right. split; [reflexivity|]. exists doc. repeat split.
Qed.

Lemma crawl_finally_effect (st st' : State W) (r : exc unit) :
  crawl_finally E st = (r, st') ->
  visited_urls st' = visited_urls st
  /\ results st' = results st
  /\ running st' = false
  /\ log st' = log st
  /\ crawl_page_calls st' = crawl_page_calls st
  /\ written st' = written st
  /\ (r = Ok tt \/ exists w, r = fst (env_close_browser E w)).
Proof.
  unfold crawl_finally, close_browser. unfold_monad.
  destruct (browser st); cbn.
  - destruct (env_close_browser E (world st)) as [r0 w] eqn:Hc; cbn.
    intros [= <- <-]; cbn; repeat split; auto.
    right. exists (world st). now rewrite Hc.
  - intros [= <- <-]; cbn; repeat split; auto.
Qed.

(** The loop is entered in a state that satisfies the invariant. *)
Lemma crawl_begin_inv (cfg : Config) (st st1 : State W) (x : string * string) :
  crawl_begin E cfg (snd (crawl_reset st)) = (Ok x, st1) ->
  loop_inv E cfg st1 {[start_url cfg]} st1
  /\ crawl_page_calls st1 = crawl_page_calls st
  /\ written st1 = written st
  /\ log st1 = log st.
Proof.
  intros Hbegin. apply crawl_begin_effect in Hbegin.
  cbn in Hbegin. destruct Hbegin as (Hv & Hr & _ & Hl & Hc & Hw & Hb).
  split; [apply loop_inv_entry; auto | repeat split; auto].
Qed.

Lemma crawl_at_inv (cfg : Config) (n : nat) (st st' : State W)
    (r : exc (gset string)) :
  crawl_at E cfg n st = Some (r, st') ->
  exists st1 urls,
    r = Ok urls /\ loop_inv E cfg st1 urls st'
    /\ crawl_page_calls st1 = crawl_page_calls st
    /\ written st1 = written st.
Proof.
  unfold crawl_at.
  destruct (crawl_begin E cfg (snd (crawl_reset st))) as [[x|e] st1] eqn:Hbegin;
    [|discriminate].
  apply crawl_begin_inv in Hbegin as (Hinv & Hc & Hw & _).
  destruct (loop_iter_inv cfg st1 n _ _ Hinv) as (urls & st2 & Hiter & Hinv').
  rewrite Hiter. intros [= <- <-]. eauto 10.
Qed.

Lemma crawl_summary (cfg : Config) (fuel : nat) (st st' : State W)
    (r : exc unit) :
  crawl E cfg fuel st = Some (r, st') -> run_summary cfg st st'.
Proof.
  unfold crawl, crawl_try.
  destruct (crawl_begin E cfg (snd (crawl_reset st))) as [[[t f]|e] st1]
    eqn:Hbegin.
  - apply crawl_begin_inv in Hbegin as (Hinv & Hc & Hw & _).
    destruct (crawl_loop E cfg fuel {[start_url cfg]} st1) as [[rl st2]|]
      eqn:Hloop; [|discriminate].
    destruct (crawl_loop_inv cfg st1 fuel _ _ _ _ Hinv Hloop)
      as (urls & -> & Hinv2 & _).
    destruct Hinv2 as (_ & Hw2 & Hsize & Hres & (calls & Hcalls & Hnd & Hsub)
                       & _).
    destruct (save_results E cfg t f st2) as [rs st3] eqn:Hsave.
    apply save_results_effect in Hsave
      as (Hv3 & Hr3 & _ & _ & Hc3 & Hwr3).
    assert (Hfin : forall st4 : State W,
      visited_urls st4 = visited_urls st3 -> results st4 = results st3 ->
      running st4 = false -> crawl_page_calls st4 = crawl_page_calls st3 ->
      written st4 = written st3 -> run_summary cfg st st4).
    { intros st4 Hv4 Hr4 Hrun4 Hc4 Hw4. unfold run_summary.
      rewrite Hv4, Hr4, Hc4, Hw4, Hv3, Hr3, Hc3.
      repeat split; auto.
      - exists calls. rewrite Hcalls, Hc. auto.
      - destruct Hwr3 as [(_ & -> & _)|(_ & doc & -> & Hp & Ht)].
        + left. congruence.
        + right. exists f, doc. rewrite Hw2, Hw. auto. }
    destruct rs as [[]|e].
    + destruct (crawl_finally E st3) as [rf st4] eqn:Hf.
      intros [= <- <-].
      apply crawl_finally_effect in Hf as (? & ? & ? & _ & ? & ? & _).
      now apply Hfin.
    + destruct (crawl_finally E (snd (crawl_except e st3))) as [rf st4] eqn:Hf.
      intros [= <- <-].
      apply crawl_finally_effect in Hf as (? & ? & ? & _ & ? & ? & _).
      now apply Hfin.
  - apply crawl_begin_effect in Hbegin.
    cbn in Hbegin. destruct Hbegin as (Hv & Hr & _ & _ & Hc & Hw & _).
    destruct (crawl_finally E (snd (crawl_except e st1))) as [rf st4] eqn:Hf.
    intros [= <- <-].
    apply crawl_finally_effect in Hf as (Hv4 & Hr4 & Hrun4 & _ & Hc4 & Hw4 & _).
    cbn in Hv4, Hr4, Hc4, Hw4.
    unfold run_summary. rewrite Hv4, Hr4, Hc4, Hw4, Hv, Hr, Hc, Hw.
    repeat split; auto.
    + rewrite size_empty. lia.
    + exists []. rewrite app_nil_r. repeat split; [constructor|].
      intros u Hu. now apply elem_of_nil in Hu.
Qed.

(** [crawl] returns: some amount of fuel is enough on every input. *)
Lemma crawl_terminates (cfg : Config) (st : State W) :
  exists fuel r st', crawl E cfg fuel st = Some (r, st').
Proof.
  unfold crawl, crawl_try.
  destruct (crawl_begin E cfg (snd (crawl_reset st))) as [[[t f]|e] st1]
    eqn:Hbegin.
  - apply crawl_begin_inv in Hbegin as (Hinv & _).
    destruct (crawl_loop_terminates cfg st1 _ _ Hinv)
      as (fuel & r & st2 & Hloop).
    exists fuel. rewrite Hloop.
    destruct r as [urls|e];
      [destruct (save_results E cfg t f st2) as [[[]|e] st3]|];
      match goal with |- context [crawl_finally E ?s] =>
        destruct (crawl_finally E s) as [rf sf] end; eauto.
  - exists 0%nat.
    match goal with |- context [crawl_finally E ?s] =>
      destruct (crawl_finally E s) as [rf sf] end; eauto.
Qed.

(** The next iteration boundary of a run that is still looping. *)
Lemma loop_iter_next (cfg : Config) (n : nat) (urls0 urls : gset string)
    (st0 st : State W) :
  loop_iter E cfg n urls0 st0 = (Ok urls, st) ->
  loop_cond E cfg urls st = true ->
  loop_iter E cfg (S n) urls0 st0 = loop_body E cfg urls st.
Proof.
  revert urls0 st0; induction n as [|n IH]; intros urls0 st0.
  - intros [= -> ->] Hcond. simpl. rewrite Hcond.
    now destruct (loop_body E cfg urls st) as [[u|e] s].
  - intros Hn Hcond. simpl in Hn.
    change (loop_iter E cfg (S (S n)) urls0 st0)
      with (if loop_cond E cfg urls0 st0
            then match loop_body E cfg urls0 st0 with
                 | (Ok urls', st') => loop_iter E cfg (S n) urls' st'
                 | (Raise e, st') => (Raise e, st')
                 end
            else (Ok urls0, st0)).
    destruct (loop_cond E cfg urls0 st0) eqn:Hc0.
    + destruct (loop_body E cfg urls0 st0) as [[u1|e] s1]; [|discriminate].
      now apply IH.
    + injection Hn as -> ->. congruence.
Qed.

(** ** The frontier holds unvisited URLs only *)

Lemma loop_body_fresh (cfg : Config) (urls urls' : gset string)
    (st st' : State W) :
  loop_cond E cfg urls st = true ->
  browser st = true ->
  frontier_fresh urls st ->
  loop_body E cfg urls st = (Ok urls', st') ->
  frontier_fresh urls' st'.
Proof.
  intros Hcond Hb Hfresh Hbody.
  destruct (loop_body_effect cfg urls st Hcond Hb)
    as (url & urls2 & st2 & Hbody2 & Hin & _ & _ & _ & Hcase).
  rewrite Hbody in Hbody2. injection Hbody2 as <- <-.
  destruct Hcase as [[-> ->]|(_ & _ & Hv' & _ & _ & links & -> & _)].
  - intros u Hu. apply Hfresh. set_solver.
  - intros u Hu. rewrite Hv'.
    apply elem_of_union in Hu as [Hu|Hu].
    + apply elem_of_difference in Hu as [Hu Hne].
      specialize (Hfresh u Hu). set_solver.
    + apply elem_of_difference in Hu as [_ Hu]. now rewrite Hv' in Hu.
Qed.

Lemma loop_iter_fresh (cfg : Config) (st1 : State W) (n : nat) :
  forall (urls urls' : gset string) (st st' : State W),
    loop_inv E cfg st1 urls st ->
    frontier_fresh urls st ->
    loop_iter E cfg n urls st = (Ok urls', st') ->
    frontier_fresh urls' st'.
Proof.
  induction n as [|n IH]; intros urls urls' st st' Hinv Hfresh; simpl.
  - now intros [= <- <-].
  - destruct (loop_cond E cfg urls st) eqn:Hcond; [|now intros [= <- <-]].
    destruct (loop_body_inv cfg st1 urls st Hinv Hcond)
      as (urls2 & st2 & Hbody & Hinv2).
    rewrite Hbody. apply IH; [exact Hinv2|].
    destruct Hinv as (Hb & _).
    exact (loop_body_fresh cfg urls urls2 st st2 Hcond Hb Hfresh Hbody).
Qed.

End LoopFacts.

(** ** Claims about the crawl loop *)

(** C1, as stated, fails: on the sample site the seed links to itself with
    a fragment, and the run calls [crawl_page] on both
    "https://a.com/" and "https://a.com/#top", which are equal after
    normalization. *)
Lemma crawl_fetches_fragment_variants :
  let st' := final_state Site.env (Site.config "" 10) 10 (init 0%nat) in
  crawl Site.env (Site.config "" 10) 10 (init 0%nat) = Some (Ok tt, st')
  /\ calls_since (init 0%nat) st'
     = ["https://a.com/"; "https://a.com/#top"; "https://a.com/docs"]
  /\ SpecWords.normalize_url "https://a.com/"
     = SpecWords.normalize_url "https://a.com/#top"
  /\ ~ NoDup (map SpecWords.normalize_url (calls_since (init 0%nat) st')).
Proof.
  cbv zeta. split; [vm_compute; reflexivity|].
  split; [vm_compute; reflexivity|].
  split; [reflexivity|].
  intros Hnd.
  assert (Heq : map SpecWords.normalize_url
                  (calls_since (init 0%nat)
                     (final_state Site.env (Site.config "" 10) 10 (init 0%nat)))
                = ["https://a.com/"; "https://a.com/"; "https://a.com/docs"])
    by (vm_compute; reflexivity).
  rewrite Heq in Hnd.
  apply NoDup_cons in Hnd as [Hnotin _]. apply Hnotin. left.
Qed.

(** C1, amended. In every run of [crawl], no two calls of [crawl_page] are
    made with the same URL string, and every URL passed to [crawl_page] is
    in the visited set; this holds at every iteration boundary of the loop
    and in the state the run leaves. URLs are compared as strings, without
    normalization. *)
Theorem crawl_page_called_once_per_url {W : Type} (E : Env W) (cfg : Config)
    (st : State W) :
  (forall n r st',
      crawl_at E cfg n st = Some (r, st') ->
      NoDup (calls_since st st')
      /\ forall u, u ∈ calls_since st st' -> u ∈ visited_urls st')
  /\ (forall fuel r st',
        crawl E cfg fuel st = Some (r, st') ->
        NoDup (calls_since st st')
        /\ forall u, u ∈ calls_since st st' -> u ∈ visited_urls st').
Proof.
  split.
  - intros n r st' Hat.
    apply crawl_at_inv in Hat
      as (st1 & urls & _ & (_ & _ & _ & _ & (calls & Hc & Hnd & Hsub) & _)
          & Hc1 & _).
    unfold calls_since. rewrite Hc, Hc1, drop_app_length. auto.
  - intros fuel r st' Hrun.
    apply crawl_summary in Hrun as (_ & _ & (calls & Hc & Hnd & Hsub) & _).
    unfold calls_since. rewrite Hc, drop_app_length. auto.
Qed.

(** C2. With [max_pages = N >= 1], the visited set never holds more than
    [N] URLs and the results list never more than [N] records, at every
    iteration boundary of the loop and when [crawl] ends; a document
    written by the run has at most [N] pages. *)
Theorem crawl_respects_max_pages {W : Type} (E : Env W) (cfg : Config)
    (st : State W) :
  1 <= max_pages cfg ->
  (forall n r st',
      crawl_at E cfg n st = Some (r, st') ->
      Z.of_nat (size (visited_urls st')) <= max_pages cfg
      /\ Z.of_nat (length (results st')) <= max_pages cfg)
  /\ (forall fuel r st',
        crawl E cfg fuel st = Some (r, st') ->
        Z.of_nat (size (visited_urls st')) <= max_pages cfg
        /\ Z.of_nat (length (results st')) <= max_pages cfg
        /\ forall f doc,
             (f, doc) ∈ written_since st st' ->
             Z.of_nat (length (art_pages doc)) <= max_pages cfg).
Proof.
  intros HN. split.
  - intros n r st' Hat.
    apply crawl_at_inv in Hat
      as (st1 & urls & _ & (_ & _ & Hsize & Hres & _) & _).
    lia.
  - intros fuel r st' Hrun.
    apply crawl_summary in Hrun as (Hsize & Hres & _ & Hw & _).
    split; [lia|]. split; [lia|].
    intros f doc Hin. unfold written_since in Hin.
    destruct Hw as [Hw|(f' & doc' & Hw & Hp & _)]; rewrite Hw in Hin.
    + rewrite drop_all in Hin. now apply elem_of_nil in Hin.
    + rewrite drop_app_length in Hin.
      apply list_elem_of_singleton in Hin as [= -> ->].
      rewrite Hp. lia.
Qed.

(** The bound at work on the sample site with [max_pages = 2]. *)
Lemma crawl_respects_max_pages_witness :
  let cfg := Site.config "" 2 in
  let st' := final_state Site.env cfg 10 (init 0%nat) in
  crawl Site.env cfg 10 (init 0%nat) = Some (Ok tt, st')
  /\ Z.of_nat (size (visited_urls st')) <= 2
  /\ Z.of_nat (length (results st')) <= 2.
Proof.
  cbv zeta. split; [vm_compute; reflexivity|].
  destruct (crawl_respects_max_pages Site.env (Site.config "" 2)
              (init 0%nat)) as [_ Hend]; [cbn; lia|].
  destruct (Hend 10%nat (Ok tt)
              (final_state Site.env (Site.config "" 2) 10 (init 0%nat)))
    as (Hv & Hr & _); [vm_compute; reflexivity|].
  split; [exact Hv | exact Hr].
Defined.

(** C3. At every iteration boundary of the loop, every URL in the frontier
    other than the seed has the seed's host: [crawl_page] keeps a link only
    when [urlparse(link).netloc], the component that holds the host, is the
    same string as that of the page it was found on, which by induction is
    the seed's. A link whose netloc differs from the seed's is never in
    the frontier. *)
Theorem frontier_stays_on_seed_host {W : Type} (E : Env W) (cfg : Config)
    (st : State W) (n : nat) (urls : gset string) (st' : State W) :
  crawl_at E cfg n st = Some (Ok urls, st') ->
  (forall u, u ∈ urls -> u <> start_url cfg ->
     exists d, env_netloc E u = Ok d /\ env_netloc E (start_url cfg) = Ok d)
  /\ (forall u, u <> start_url cfg ->
        env_netloc E u <> env_netloc E (start_url cfg) -> u ∉ urls).
Proof.
  intros Hat.
  apply crawl_at_inv in Hat
    as (st1 & urls1 & [= <-] & (_ & _ & _ & _ & _ & Hdom) & _).
  assert (Hhost : forall u, u ∈ urls -> u <> start_url cfg ->
            exists d, env_netloc E u = Ok d
                      /\ env_netloc E (start_url cfg) = Ok d).
  { intros u Hu Hne. destruct (Hdom u) as [->|Hd]; [set_solver|done|auto]. }
  split; [exact Hhost|].
  intros u Hne Hdiff Hu.
  destruct (Hhost u Hu Hne) as (d & Hd & Hs). congruence.
Qed.

(** After the seed of the sample site has been crawled the frontier holds
    its two same-host links and not the link to "b.com". *)
Lemma frontier_stays_on_seed_host_witness :
  crawl_at Site.env (Site.config "" 10) 1 (init 0%nat)
  = Some (Ok {["https://a.com/docs"; "https://a.com/#top"]},
          snd (loop_iter Site.env (Site.config "" 10) 1 {["https://a.com/"]}
                 (snd (crawl_begin Site.env (Site.config "" 10)
                         (snd (crawl_reset (init 0%nat)))))))
  /\ (exists d, Site.netloc "https://a.com/docs" = Ok d
                /\ Site.netloc "https://a.com/" = Ok d)
  /\ "https://b.com/y" ∉ ({["https://a.com/docs"; "https://a.com/#top"]}
                           : gset string).
Proof.
  assert (Hat : crawl_at Site.env (Site.config "" 10) 1 (init 0%nat)
    = Some (Ok {["https://a.com/docs"; "https://a.com/#top"]},
            snd (loop_iter Site.env (Site.config "" 10) 1 {["https://a.com/"]}
                   (snd (crawl_begin Site.env (Site.config "" 10)
                           (snd (crawl_reset (init 0%nat)))))))).
  { vm_compute. reflexivity. }
  split; [exact Hat|].
  destruct (frontier_stays_on_seed_host _ _ _ _ _ _ Hat) as [Hin Hout].
  split.
  - apply (Hin "https://a.com/docs"); [set_solver | discriminate].
  - apply Hout; [discriminate | vm_compute; discriminate].
Defined.

(** ** Per-page errors *)

Section PageErrors.
Context {W : Type} (E : Env W).

(** A fetch that fails before the title is read appends no record and
    yields no link; one that gets past it appends the record of [url],
    whatever happens afterwards. *)
Lemma crawl_page_results (url sel : string) (rs : list string)
    (st st' : State W) (r : exc (list string)) :
  browser st = true ->
  crawl_page E url sel rs st = (r, st') ->
  if navigation_ok E url (world st)
  then exists rec, results st' = results st ++ [rec] /\ pr_url rec = url
  else results st' = results st /\ r = Ok [].
Proof.
  intros Hb. unfold navigation_ok, crawl_page, crawl_page_try, process_page.
  unfold_monad. rewrite Hb. cbn.
  destruct (env_goto E url (world st)) as [[page|e] w]; cbn;
    [|intros [= <- <-]; cbn; auto].
  destruct (page_title page) as [title|e]; cbn;
    [|intros [= <- <-]; cbn; auto].
  destruct (process_page_try page sel rs) as [content|e]; cbn;
    (destruct (page_anchor_hrefs page) as [hrefs|e'];
     [|intros [= <- <-]; cbn; eauto]);
    (destruct (env_netloc E url) as [d|e']; cbn;
     [|intros [= <- <-]; cbn; eauto]);
    (destruct (same_domain_links E d (http_links hrefs)) as [kept|e']; cbn;
     [|intros [= <- <-]; cbn; eauto]);
    (destruct (page_close page) as [[]|e']; cbn;
     intros [= <- <-]; cbn; eauto).
Qed.

End PageErrors.

(** C5, as stated, fails: on the flaky site the link script raises after
    the page has loaded, a per-page error that [crawl_page] catches and
    logs, and the record of the page has already been appended. *)
Lemma late_page_error_keeps_record :
  let st := snd (crawl_reset (init 0%nat)) in
  let st' := final_state Flaky.env (Site.config "" 10) 10 (init 0%nat) in
  (exists e st1,
      crawl_page_try Flaky.env "https://a.com/" "" [] st = (Raise e, st1)
      /\ results st1 <> results st)
  /\ crawl Flaky.env (Site.config "" 10) 10 (init 0%nat) = Some (Ok tt, st')
  /\ results st'
     = [{| pr_url := "https://a.com/"; pr_title := "Home";
           pr_content := "Hello" |}]
  /\ log st'
     = [LogInfo "Crawling: https://a.com/";
        LogError
          "Error crawling https://a.com/: Execution context was destroyed";
        LogInfo "Crawling completed. Processed 1 pages.";
        LogInfo "Results saved to: out_Home_20240101_000000"].
Proof.
  cbv zeta. split.
  - exists (Exception "Execution context was destroyed"),
      (snd (crawl_page_try Flaky.env "https://a.com/" "" []
              (snd (crawl_reset (init 0%nat))))).
    split; [vm_compute; reflexivity | vm_compute; discriminate].
  - split; [vm_compute; reflexivity|].
    split; vm_compute; reflexivity.
Qed.

(** C5, amended. Take any iteration of the loop in a run of [crawl]: it
    pops a URL and returns normally, so the run goes on to the next
    iteration boundary. When the URL is crawled, it is in the visited set
    afterwards, which grows by one, whether the fetch fails or not; when
    the fetch fails before the title has been read (opening the page,
    navigation or reading the title raises), no record is appended and no
    link is queued; when it gets past the title, the record of the URL is
    appended even if a later step of [crawl_page] raises. *)
Theorem failed_fetch_is_skipped {W : Type} (E : Env W) (cfg : Config)
    (st0 : State W) (n : nat) (urls : gset string) (st : State W) :
  crawl_at E cfg n st0 = Some (Ok urls, st) ->
  loop_cond E cfg urls st = true ->
  exists url urls' st',
    set_pop (env_pop_index E (world st) urls) urls = Ok (url, urls ∖ {[url]})
    /\ loop_body E cfg urls st = (Ok urls', st')
    /\ crawl_at E cfg (S n) st0 = Some (Ok urls', st')
    /\ (forall fuel,
          crawl_loop E cfg (S fuel) urls st = crawl_loop E cfg fuel urls' st')
    /\ ((url ∉ visited_urls st) ->
        matches_pattern url (url_pattern cfg) = true ->
        url ∈ visited_urls st'
        /\ size (visited_urls st') = S (size (visited_urls st))
        /\ if navigation_ok E url (world st)
           then exists rec,
                  results st' = results st ++ [rec] /\ pr_url rec = url
           else results st' = results st /\ urls' = urls ∖ {[url]}).
Proof.
  intros Hat Hcond.
  pose proof Hat as Hat'.
  apply crawl_at_inv in Hat' as (st1 & urls1 & [= <-] & (Hb & _) & _).
  pose proof Hcond as Hne. apply loop_cond_true in Hne as [Hne _].
  assert (Hne' : urls <> ∅).
  { intros ->. rewrite size_empty in Hne. lia. }
  destruct (set_pop_nonempty (env_pop_index E (world st) urls) urls Hne')
    as (url & Hin & Hpop).
  exists url.
  assert (Hbody : exists urls' st', loop_body E cfg urls st = (Ok urls', st')).
  { destruct (loop_body_effect E cfg urls st Hcond Hb)
      as (u & urls' & st' & Hbody & _). eauto. }
  destruct Hbody as (urls' & st' & Hbody).
  exists urls', st'. split; [exact Hpop|]. split; [exact Hbody|].
  split.
  { unfold crawl_at in *.
    destruct (crawl_begin E cfg (snd (crawl_reset st0))) as [[x|e] s1];
      [|discriminate].
    injection Hat as Hiter.
    now rewrite (loop_iter_next E cfg n _ _ _ _ Hiter Hcond), Hbody. }
  split.
  { intros fuel. simpl. now rewrite Hcond, Hbody. }
  intros Hnv Hpat. revert Hbody. unfold loop_body.
  unfold bind at 1. unfold get at 1.
  unfold bind at 1. unfold lift at 1. rewrite Hpop.
  rewrite bool_decide_eq_false_2 by exact Hnv.
  rewrite Hpat. cbn [negb].
  unfold bind at 1. unfold emit at 1.
  unfold bind at 1. unfold set_visited_urls at 1.
  cbn [world browser visited_urls results running log crawl_page_calls
       written].
  unfold bind at 1.
  match goal with |- context [crawl_page E url ?a ?b ?s] =>
    destruct (crawl_page E url a b s) as [r1 s1] eqn:Hcp end.
  pose proof Hcp as Hres.
  apply crawl_page_effect in Hcp
    as (_ & Hv & _ & _ & _ & _ & links & -> & _); [|exact Hb].
  apply crawl_page_results in Hres; [|exact Hb].
  cbn [world browser visited_urls results] in Hv, Hres.
  unfold_monad. intros [= <- <-].
  split; [rewrite Hv; set_solver|].
  split.
  { rewrite Hv, size_union by set_solver. now rewrite size_singleton. }
  destruct (navigation_ok E url (world st)); [exact Hres|].
  destruct Hres as [Hr [= ->]]. split; [exact Hr|].
  set_solver.
Qed.

(** On the site that goes offline after the title probe, the seed is
    marked visited and leaves no record. *)
Lemma failed_fetch_is_skipped_witness :
  crawl_at Offline.env (Site.config "" 10) 0 (init 0%nat)
  = Some (Ok {["https://a.com/"]}, Offline.entry)
  /\ loop_cond Offline.env (Site.config "" 10) {["https://a.com/"]}
       Offline.entry = true
  /\ exists urls' st',
       loop_body Offline.env (Site.config "" 10) {["https://a.com/"]}
         Offline.entry = (Ok urls', st')
       /\ "https://a.com/" ∈ visited_urls st'
       /\ results st' = [].
Proof.
  assert (Hat : crawl_at Offline.env (Site.config "" 10) 0 (init 0%nat)
                = Some (Ok {["https://a.com/"]}, Offline.entry))
    by (vm_compute; reflexivity).
  assert (Hcond : loop_cond Offline.env (Site.config "" 10)
                    {["https://a.com/"]} Offline.entry = true)
    by (vm_compute; reflexivity).
  split; [exact Hat|]. split; [exact Hcond|].
  destruct (failed_fetch_is_skipped Offline.env (Site.config "" 10)
              (init 0%nat) 0 {["https://a.com/"]} Offline.entry Hat Hcond)
    as (url & urls' & st' & Hpop & Hbody & _ & _ & Hvisit).
  assert (Hp : set_pop (env_pop_index Offline.env (world Offline.entry)
                          {["https://a.com/"]}) {["https://a.com/"]}
               = Ok ("https://a.com/", ∅))
    by (vm_compute; reflexivity).
  rewrite Hp in Hpop. injection Hpop as <- _.
  assert (Hv : visited_urls Offline.entry = ∅) by (vm_compute; reflexivity).
  assert (Hr : results Offline.entry = []) by (vm_compute; reflexivity).
  assert (Hn : navigation_ok Offline.env "https://a.com/"
                 (world Offline.entry) = false)
    by (vm_compute; reflexivity).
  rewrite Hv, Hr, Hn in Hvisit.
  exists urls', st'. split; [exact Hbody|].
  destruct Hvisit as (Hin & _ & Hres & _);
    [apply not_elem_of_empty | reflexivity | auto].
Defined.

(** ** Content extraction *)

Example process_page_no_match :
  fst (process_page (Site.page "T" "body text" []) "article" []
         (init 0%nat)) = Ok "".
Proof. reflexivity. Qed.

Example process_page_diagnostic :
  process_page
    {| page_title := Ok "T";
       page_query_selector_all := fun _ => Raise (Exception "Target closed");
       page_body_text_content := Ok None;
       page_anchor_hrefs := Ok [];
       page_close := Ok tt |} "main" [] (init 0%nat)
  = (Ok "Error processing page: Target closed",
     snd (emit (LogError "Error processing page: Target closed")
            (init 0%nat))).
Proof. reflexivity. Qed.

(** [element_texts] reads the elements in order: the first element whose
    [textContent] cannot be read ends the loop with its exception. *)
Lemma element_texts_raises (pre post : list Element) (el : Element)
    (e : exn) :
  Forall (fun x => is_ok (el_text_content x) = true) pre ->
  el_text_content el = Raise e ->
  element_texts (pre ++ el :: post) = Raise e.
Proof.
  intros Hpre Hel. induction Hpre as [|x pre Hx _ IH]; simpl.
  - now rewrite Hel.
  - destruct (el_text_content x) as [text|e1]; [|discriminate Hx].
    now rewrite IH.
Qed.

Lemma process_page_diagnostic_of {W : Type} (page : Page) (sel : string)
    (rs : list string) (st : State W) (e : exn) :
  process_page_try page sel rs = Raise e ->
  process_page page sel rs st
  = (Ok ("Error processing page: " +:+ str_exn e),
     snd (emit (LogError ("Error processing page: " +:+ str_exn e)) st)).
Proof. intros He. unfold process_page. unfold_monad. now rewrite He. Qed.

(** [crawl_page] stores whatever [process_page] returned as the content of
    the page's record. *)
Lemma crawl_page_try_stores_content {W : Type} (E : Env W) (page : Page)
    (url sel : string) (rs : list string) (st : State W) (w : W)
    (title content : string) :
  env_goto E url (world st) = (Ok page, w) ->
  page_title page = Ok title ->
  fst (process_page page sel rs (with_world w st)) = Ok content ->
  results (snd (crawl_page_try E url sel rs st))
  = results st
    ++ [{| pr_url := url; pr_title := title; pr_content := content |}].
Proof.
  intros Hgoto Htitle Hcontent.
  unfold crawl_page_try, process_page in *. unfold_monad.
  revert Hcontent. unfold_monad. rewrite Hgoto, Htitle. cbn.
  destruct (process_page_try page sel rs) as [c|e]; cbn;
    intros [= <-];
    (destruct (page_anchor_hrefs page) as [hrefs|e1]; cbn; [|reflexivity]);
    (destruct (env_netloc E url) as [d|e1]; cbn; [|reflexivity]);
    (destruct (same_domain_links E d (http_links hrefs)) as [kept|e1]; cbn;
     [|reflexivity]);
    destruct (page_close page) as [[]|e1]; reflexivity.
Qed.

(** C6. [process_page] never raises: it returns a string on every input.
    When a non-empty selector matches no element the string is empty.
    Whatever raises inside its [try] block is turned into the diagnostic
    "Error processing page: " followed by [str(e)], which is returned,
    logged as an error and stored by [crawl_page] as the content of the
    page's record: [query_selector_all] raising [e]; the first element
    whose [textContent] cannot be read raising [e]; without a selector, the
    read of the body's text raising [e], or the body's text being [None]
    (the [split] of line 49 then raises). [crawl_page] stores the returned
    string, diagnostic or not, as the content of the record. *)
Theorem process_page_never_raises {W : Type} (E : Env W) (page : Page)
    (sel : string) (rs : list string) (st : State W) :
  let diagnostic e := "Error processing page: " +:+ str_exn e in
  let stores content :=
    forall url w title,
      env_goto E url (world st) = (Ok page, w) ->
      page_title page = Ok title ->
      results (snd (crawl_page_try E url sel rs st))
      = results st
        ++ [{| pr_url := url; pr_title := title; pr_content := content |}] in
  let gives_diagnostic e :=
    process_page page sel rs st
    = (Ok (diagnostic e), snd (emit (LogError (diagnostic e)) st))
    /\ stores (diagnostic e) in
  (exists content, fst (process_page page sel rs st) = Ok content)
  /\ (PyStr.truthy sel = true ->
      page_query_selector_all page sel = Ok [] ->
      fst (process_page page sel rs st) = Ok "")
  /\ (forall e,
        process_page_try page sel rs = Raise e ->
        fst (process_page page sel rs st)
        = Ok ("Error processing page: " +:+ str_exn e)
        /\ forall url w title,
             env_goto E url (world st) = (Ok page, w) ->
             page_title page = Ok title ->
             results (snd (crawl_page_try E url sel rs st))
             = results st
               ++ [{| pr_url := url; pr_title := title;
                      pr_content :=
                        "Error processing page: " +:+ str_exn e |}])
  /\ (forall e,
        PyStr.truthy sel = true ->
        page_query_selector_all page sel = Raise e ->
        gives_diagnostic e)
  /\ (forall pre el post e,
        PyStr.truthy sel = true ->
        page_query_selector_all page sel = Ok (pre ++ el :: post) ->
        Forall (fun x => is_ok (el_text_content x) = true) pre ->
        el_text_content el = Raise e ->
        gives_diagnostic e)
  /\ (forall e,
        PyStr.truthy sel = false ->
        page_body_text_content page = Raise e ->
        gives_diagnostic e)
  /\ (PyStr.truthy sel = false ->
      page_body_text_content page = Ok None ->
      gives_diagnostic
        (Exception "'NoneType' object has no attribute 'split'"))
  /\ (forall content,
        fst (process_page page sel rs st) = Ok content -> stores content).
Proof.
  cbv zeta.
  assert (Hstores : forall content,
            fst (process_page page sel rs st) = Ok content ->
            forall url w title,
              env_goto E url (world st) = (Ok page, w) ->
              page_title page = Ok title ->
              results (snd (crawl_page_try E url sel rs st))
              = results st
                ++ [{| pr_url := url; pr_title := title;
                       pr_content := content |}]).
  { intros content Hc url w title Hgoto Htitle.
    apply (crawl_page_try_stores_content E page url sel rs st w);
      [exact Hgoto | exact Htitle |].
    rewrite <- Hc. unfold process_page. unfold_monad.
    now destruct (process_page_try page sel rs). }
  assert (Hdiag : forall e,
            process_page_try page sel rs = Raise e ->
            process_page page sel rs st
            = (Ok ("Error processing page: " +:+ str_exn e),
               snd (emit (LogError ("Error processing page: " +:+ str_exn e))
                      st))
            /\ forall url w title,
                 env_goto E url (world st) = (Ok page, w) ->
                 page_title page = Ok title ->
                 results (snd (crawl_page_try E url sel rs st))
                 = results st
                   ++ [{| pr_url := url; pr_title := title;
                          pr_content :=
                            "Error processing page: " +:+ str_exn e |}]).
  { intros e He.
    pose proof (process_page_diagnostic_of page sel rs st e He) as Hpp.
    split; [exact Hpp|]. apply Hstores. now rewrite Hpp. }
  split; [apply process_page_returns|]. split.
  { intros Hsel Hq. unfold process_page, process_page_try.
    rewrite Hsel, Hq. reflexivity. }
  split.
  { intros e He. destruct (Hdiag e He) as [Hpp Hst].
    split; [now rewrite Hpp | exact Hst]. }
  split.
  { intros e Hsel Hq. apply Hdiag.
    unfold process_page_try. now rewrite Hsel, Hq. }
  split.
  { intros pre el post e Hsel Hq Hpre Hel. apply Hdiag.
    unfold process_page_try.
    now rewrite Hsel, Hq, (element_texts_raises pre post el e Hpre Hel). }
  split.
  { intros e Hsel Hbody. apply Hdiag.
    unfold process_page_try. now rewrite Hsel, Hbody. }
  split.
  { intros Hsel Hbody. apply Hdiag.
    unfold process_page_try. now rewrite Hsel, Hbody. }
  exact Hstores.
Qed.

(** A page whose second matching element is detached while it is read. *)
Example process_page_detached_element :
  process_page
    {| page_title := Ok "T";
       page_query_selector_all := fun _ =>
         Ok [ {| el_text_content := Ok (Some " first ") |};
              {| el_text_content :=
                   Raise (Exception "Element is not attached to the DOM") |};
              {| el_text_content := Ok (Some "third") |} ];
       page_body_text_content := Ok (Some "body");
       page_anchor_hrefs := Ok [];
       page_close := Ok tt |} "p" [] (init 0%nat)
  = (Ok "Error processing page: Element is not attached to the DOM",
     snd (emit (LogError
                  "Error processing page: Element is not attached to the DOM")
            (init 0%nat))).
Proof. reflexivity. Qed.

(** C7. The [remove_selectors] argument has no effect on [process_page]:
    two calls on the same page, selector and state return the same
    content (and leave the same state), whatever the two lists are. *)
Theorem process_page_ignores_remove_selectors {W : Type} (page : Page)
    (sel : string) (rs1 rs2 : list string) (st : State W) :
  process_page page sel rs1 st = process_page page sel rs2 st
  /\ fst (process_page page sel rs1 st) = fst (process_page page sel rs2 st)
  /\ process_page_try page sel rs1 = process_page_try page sel rs2.
Proof.
  assert (Htry : process_page_try page sel rs1 = process_page_try page sel rs2).
  { unfold process_page_try. destruct (PyStr.truthy sel); reflexivity. }
  assert (Hpp : process_page page sel rs1 st = process_page page sel rs2 st).
  { unfold process_page. now rewrite Htry. }
  split; [exact Hpp|]. split; [now rewrite Hpp | exact Htry].
Qed.

(** ** Saving the results *)

Section Saving.
Context {W : Type} (E : Env W).

Lemma save_results_write_fails (cfg : Config) (title file : string)
    (st2 : State W) (e : exn) :
  write_fails E cfg title file st2 e ->
  exists st3,
    save_results E cfg title file st2 = (Raise e, st3)
    /\ log st3 = log st2 /\ browser st3 = browser st2.
Proof.
  intros (domain & Hd & Hfail). unfold save_results. unfold_monad.
  rewrite Hd. cbn.
  destruct Hfail as [Hmk|(w & Hmk & Hwr)].
  - destruct (env_makedirs E file (world st2)) as [r w]. cbn in Hmk.
    subst r. cbn. eauto.
  - rewrite Hmk. cbn. unfold artifact, with_world in Hwr. cbn in Hwr.
    unfold artifact. cbn.
    match type of Hwr with fst ?x = _ => destruct x as [r w'] end.
    cbn in Hwr. subst r. cbn. eauto.
Qed.

End Saving.

(** C8, as stated, fails: when the output directory cannot be created the
    [OSError] is caught by the [except Exception] clause of [crawl] and
    logged; [crawl] returns normally, nothing reaches its caller, and no
    file is written. *)
Lemma write_error_does_not_propagate :
  let cfg := Site.config "" 10 in
  let st' := final_state ReadOnly.env cfg 10 (init 0%nat) in
  crawl ReadOnly.env cfg 10 (init 0%nat) = Some (Ok tt, st')
  /\ last (log st')
     = Some (LogError
               "Crawling error: [Errno 13] Permission denied: '/out'")
  /\ written st' = []
  /\ length (results st') = 3%nat.
Proof.
  cbv zeta. split; [vm_compute; reflexivity|].
  split; [vm_compute; reflexivity|].
  split; vm_compute; reflexivity.
Qed.

(** C8, amended. If creating the output directory or writing the output
    file raises [e] at the end of a run, [crawl] catches [e] in its
    [except Exception] clause: it logs "Crawling error: " followed by
    [str(e)], clears [running], keeps the results in memory and closes the
    browser; the call ends the way closing the browser ends, so [e] itself
    never reaches the caller. Nothing is said of the file: [open] may have
    created it before [json.dump] raised. *)
Theorem write_failure_is_caught {W : Type} (E : Env W) (cfg : Config)
    (fuel : nat) (st st1 st2 : State W) (title file : string)
    (urls : gset string) (e : exn) :
  crawl_begin E cfg (snd (crawl_reset st)) = (Ok (title, file), st1) ->
  crawl_loop E cfg fuel {[start_url cfg]} st1 = Some (Ok urls, st2) ->
  write_fails E cfg title file st2 e ->
  exists r st',
    crawl E cfg fuel st = Some (r, st')
    /\ (exists w, r = fst (env_close_browser E w))
    /\ log st' = log st2 ++ [LogError ("Crawling error: " +:+ str_exn e)]
    /\ running st' = false
    /\ results st' = results st2.
Proof.
  intros Hbegin Hloop Hfail.
  destruct (save_results_write_fails E cfg title file st2 e Hfail)
    as (st3 & Hsave & Hlog3 & Hb3).
  pose proof (crawl_begin_inv E cfg st st1 _ Hbegin) as (Hinv & _).
  destruct (crawl_loop_inv E cfg st1 fuel _ _ _ _ Hinv Hloop)
    as (urls2 & _ & (Hb2 & _) & _).
  pose proof (save_results_effect E cfg title file st2 st3 _ Hsave)
    as (_ & Hr3 & _).
  unfold crawl, crawl_try. rewrite Hbegin, Hloop, Hsave.
  unfold crawl_finally, close_browser, crawl_except. unfold_monad.
  rewrite Hb3, Hb2.
  cbn.
  destruct (env_close_browser E (world st3)) as [r w] eqn:Hclose.
  eexists _, _. split; [reflexivity|].
  split; [exists (world st3); now rewrite Hclose|].
  cbn. rewrite Hlog3, Hr3. repeat split.
Qed.

(** On the read-only file system the error of [os.makedirs] is logged and
    [crawl] returns. *)
Lemma write_failure_is_caught_witness :
  let cfg := Site.config "" 10 in
  let st1 := snd (crawl_begin ReadOnly.env cfg
                    (snd (crawl_reset (init 0%nat)))) in
  write_fails ReadOnly.env cfg "Home" "out_Home_20240101_000000"
    (snd (loop_end ReadOnly.env cfg 10 st1))
    (Exception "[Errno 13] Permission denied: '/out'")
  /\ exists r st',
       crawl ReadOnly.env cfg 10 (init 0%nat) = Some (r, st')
       /\ (exists w, r = fst (env_close_browser ReadOnly.env w))
       /\ running st' = false.
Proof.
  cbv zeta.
  assert (Hfail :
    write_fails ReadOnly.env (Site.config "" 10) "Home"
      "out_Home_20240101_000000"
      (snd (loop_end ReadOnly.env (Site.config "" 10) 10
              (snd (crawl_begin ReadOnly.env (Site.config "" 10)
                      (snd (crawl_reset (init 0%nat)))))))
      (Exception "[Errno 13] Permission denied: '/out'")).
  { exists "a.com". split; [reflexivity|]. left. reflexivity. }
  split; [exact Hfail|].
  destruct (write_failure_is_caught ReadOnly.env (Site.config "" 10) 10
              (init 0%nat)
              (snd (crawl_begin ReadOnly.env (Site.config "" 10)
                      (snd (crawl_reset (init 0%nat)))))
              (snd (loop_end ReadOnly.env (Site.config "" 10) 10
                      (snd (crawl_begin ReadOnly.env (Site.config "" 10)
                              (snd (crawl_reset (init 0%nat)))))))
              "Home" "out_Home_20240101_000000"
              (fst (loop_end ReadOnly.env (Site.config "" 10) 10
                      (snd (crawl_begin ReadOnly.env (Site.config "" 10)
                              (snd (crawl_reset (init 0%nat)))))))
              (Exception "[Errno 13] Permission denied: '/out'"))
    as (r & st' & Hrun & Hclose & _ & Hrunning & _).
  - vm_compute. reflexivity.
  - vm_compute. reflexivity.
  - exact Hfail.
  - exists r, st'. auto.
Defined.

(** ** A seed outside the pattern *)

Section RejectedSeed.
Context {W : Type} (E : Env W).

Lemma loop_cond_empty (cfg : Config) (st : State W) :
  loop_cond E cfg ∅ st = false.
Proof. reflexivity. Qed.

(** When the seed does not match the pattern the loop pops it, rejects it
    and ends: one iteration at most, and the state is untouched. *)
Lemma crawl_loop_rejected_seed (cfg : Config) (fuel : nat) (st1 : State W) :
  matches_pattern (start_url cfg) (url_pattern cfg) = false ->
  exists urls,
    crawl_loop E cfg (S fuel) {[start_url cfg]} st1 = Some (Ok urls, st1).
Proof.
  intros Hpat. simpl.
  destruct (loop_cond E cfg {[start_url cfg]} st1) eqn:Hcond; [|eauto].
  destruct (set_pop_nonempty
              (env_pop_index E (world st1) {[start_url cfg]})
              {[start_url cfg]}) as (url & Hin & Hpop).
  { apply non_empty_singleton_L. }
  apply elem_of_singleton in Hin as ->.
  assert (Hempty : ({[start_url cfg]} : gset string) ∖ {[start_url cfg]} = ∅)
    by set_solver.
  rewrite Hempty in Hpop.
  assert (Hbody : loop_body E cfg {[start_url cfg]} st1 = (Ok ∅, st1)).
  { unfold loop_body. unfold_monad. rewrite Hpop. cbn. rewrite Hpat. cbn.
    now destruct (bool_decide (start_url cfg ∈ visited_urls st1)). }
  rewrite Hbody. exists ∅.
  destruct fuel; simpl; now rewrite loop_cond_empty.
Qed.

End RejectedSeed.

(** C10, as stated, fails: when the seed cannot be reached the title probe
    raises, [crawl] logs the error and ends, and no artifact is written. *)
Lemma rejected_seed_unreachable_writes_nothing :
  let cfg := Site.config "https://a.com/docs" 10 in
  let st' := final_state Unreachable.env cfg 10 (init 0%nat) in
  PyStr.truthy (url_pattern cfg) = true
  /\ PyStr.startswith (start_url cfg) (url_pattern cfg) = false
  /\ crawl Unreachable.env cfg 10 (init 0%nat) = Some (Ok tt, st')
  /\ written st' = []
  /\ log st' = [LogError "Crawling error: net::ERR_NAME_NOT_RESOLVED"].
Proof.
  cbv zeta. split; [reflexivity|]. split; [reflexivity|].
  split; [vm_compute; reflexivity|].
  split; vm_compute; reflexivity.
Qed.

(** C10, amended. If [url_pattern] is non-empty and [start_url] does not
    begin with it, [crawl] ends after at most one loop iteration, visits no
    URL, calls [crawl_page] on none and appends no record. If moreover the
    title probe of the seed, the parse of the seed's domain, the creation
    of the output directory and the write all succeed, the run writes
    exactly one document, whose [pages] is empty and whose [total_pages] is
    0; in every case the only write that can complete is the write of such
    an empty document. *)
Theorem rejected_seed_writes_empty_artifact {W : Type} (E : Env W)
    (cfg : Config) (fuel : nat) (st : State W) :
  PyStr.truthy (url_pattern cfg) = true ->
  PyStr.startswith (start_url cfg) (url_pattern cfg) = false ->
  exists r st',
    crawl E cfg (S fuel) st = Some (r, st')
    /\ visited_urls st' = ∅
    /\ results st' = []
    /\ calls_since st st' = []
    /\ (written_since st st' = []
        \/ exists f doc,
             written_since st st' = [(f, doc)]
             /\ art_pages doc = []
             /\ md_total_pages (art_metadata doc) = 0%nat)
    /\ (forall title file st1 domain w2 w3,
          crawl_begin E cfg (snd (crawl_reset st)) = (Ok (title, file), st1) ->
          env_netloc E (start_url cfg) = Ok domain ->
          env_makedirs E file (world st1) = (Ok tt, w2) ->
          env_write_json E file
            (artifact E cfg title domain (with_world w2 st1)) w2
          = (Ok tt, w3) ->
          written_since st st'
          = [(file, artifact E cfg title domain (with_world w2 st1))]
          /\ art_pages (artifact E cfg title domain (with_world w2 st1)) = []
          /\ md_total_pages
               (art_metadata
                  (artifact E cfg title domain (with_world w2 st1))) = 0%nat).
Proof.
  intros Hne Hpre.
  assert (Hpat : matches_pattern (start_url cfg) (url_pattern cfg) = false).
  { unfold matches_pattern. now rewrite Hne, Hpre. }
  unfold crawl, crawl_try.
  destruct (crawl_begin E cfg (snd (crawl_reset st))) as [[[t f]|e] st1]
    eqn:Hbegin.
  - pose proof (crawl_begin_effect E cfg _ _ _ Hbegin)
      as (Hv1 & Hr1 & _ & _ & Hc1 & Hw1 & _).
    cbn in Hv1, Hr1, Hc1, Hw1.
    destruct (crawl_loop_rejected_seed E cfg fuel st1 Hpat) as (urls & ->).
    destruct (save_results E cfg t f st1) as [rs st3] eqn:Hsave.
    pose proof (save_results_effect E cfg t f st1 st3 rs Hsave)
      as (Hv3 & Hr3 & _ & _ & Hc3 & Hwr3).
    assert (Hfin : exists r st',
      (match rs with
       | Ok _ => Some (crawl_finally E st3)
       | Raise e => Some (crawl_finally E (snd (crawl_except e st3)))
       end) = Some (r, st')
      /\ visited_urls st' = visited_urls st3 /\ results st' = results st3
      /\ crawl_page_calls st' = crawl_page_calls st3
      /\ written st' = written st3).
    { destruct rs as [[]|e].
      - destruct (crawl_finally E st3) as [r st'] eqn:Hf.
        apply crawl_finally_effect in Hf as (? & ? & _ & _ & ? & ? & _).
        eauto 10.
      - destruct (crawl_finally E (snd (crawl_except e st3)))
          as [r st'] eqn:Hf.
        apply crawl_finally_effect in Hf as (? & ? & _ & _ & ? & ? & _).
        eauto 10. }
    destruct Hfin as (r & st' & Hrun & Hv' & Hr' & Hc' & Hw').
    exists r, st'. split.
    { destruct rs as [[]|e]; exact Hrun. }
    split; [congruence|]. split; [congruence|].
    split.
    { unfold calls_since. rewrite Hc', Hc3, Hc1. apply drop_all. }
    assert (Hres1 : results st1 = []) by congruence.
    split.
    + unfold written_since. rewrite Hw'.
      destruct Hwr3 as [(_ & -> & _)|(_ & doc & -> & Hp & Ht)].
      * left. rewrite Hw1. apply drop_all.
      * right. exists f, doc. rewrite Hw1, drop_app_length.
        rewrite Hp, Ht, Hres1. auto.
    + intros title file st1' domain w2 w3 [= <- <- <-] Hd Hmk Hwr.
      revert Hsave. unfold save_results. unfold_monad.
      rewrite Hd. cbn. rewrite Hmk. cbn.
      unfold artifact, with_world in Hwr. cbn in Hwr.
      unfold artifact at 1. cbn. rewrite Hwr. cbn.
      intros [= <- <-]. cbn in Hw'.
      unfold written_since. rewrite Hw', Hw1, drop_app_length.
      unfold artifact, with_world. cbn. rewrite Hres1. auto.
  - pose proof (crawl_begin_effect E cfg _ _ _ Hbegin)
      as (Hv1 & Hr1 & _ & _ & Hc1 & Hw1 & _).
    cbn in Hv1, Hr1, Hc1, Hw1.
    destruct (crawl_finally E (snd (crawl_except e st1))) as [r st'] eqn:Hf.
    apply crawl_finally_effect in Hf as (Hv' & Hr' & _ & _ & Hc' & Hw' & _).
    cbn in Hv', Hr', Hc', Hw'.
    exists r, st'. split; [reflexivity|].
    split; [congruence|]. split; [congruence|].
    split; [unfold calls_since; rewrite Hc', Hc1; apply drop_all|].
    split; [left; unfold written_since; rewrite Hw', Hw1; apply drop_all|].
    intros title file st1' domain w2 w3 [=].
Qed.

(** On the sample site with pattern "https://a.com/docs" the run writes
    one empty document. *)
Lemma rejected_seed_writes_empty_artifact_witness :
  let cfg := Site.config "https://a.com/docs" 10 in
  PyStr.truthy (url_pattern cfg) = true
  /\ PyStr.startswith (start_url cfg) (url_pattern cfg) = false
  /\ exists r st' doc,
       crawl Site.env cfg 1 (init 0%nat) = Some (r, st')
       /\ visited_urls st' = ∅
       /\ written_since (init 0%nat) st' = [("out_Home_20240101_000000", doc)]
       /\ art_pages doc = []
       /\ md_total_pages (art_metadata doc) = 0%nat.
Proof.
  cbv zeta. split; [reflexivity|]. split; [reflexivity|].
  destruct (rejected_seed_writes_empty_artifact Site.env
              (Site.config "https://a.com/docs" 10) 0 (init 0%nat)
              eq_refl eq_refl)
    as (r & st' & Hrun & Hv & _ & _ & _ & Hok).
  destruct (Hok "Home" "out_Home_20240101_000000"
              (snd (crawl_begin Site.env (Site.config "https://a.com/docs" 10)
                      (snd (crawl_reset (init 0%nat)))))
              "a.com" 1%nat 1%nat) as (Hw & Hp & Ht);
    [vm_compute; reflexivity ..|].
  eexists r, st', _. split; [exact Hrun|]. split; [exact Hv|].
  split; [exact Hw|]. split; [exact Hp | exact Ht].
Defined.

(** ** Further properties of the loop *)

(** X1. [crawl] returns on every input: for every environment, configuration
    and state there is a number of loop iterations within which the call
    ends. *)
Theorem crawl_always_returns {W : Type} (E : Env W) (cfg : Config)
    (st : State W) :
  exists fuel r st', crawl E cfg fuel st = Some (r, st').
Proof. apply crawl_terminates. Qed.

(** X2. At every iteration boundary of the loop no URL is both queued and
    visited: the frontier and the visited set are disjoint. *)
Theorem frontier_disjoint_from_visited {W : Type} (E : Env W) (cfg : Config)
    (st : State W) :
  forall n urls st' u,
    crawl_at E cfg n st = Some (Ok urls, st') ->
    ~ (u ∈ urls /\ u ∈ visited_urls st').
Proof.
  intros n urls st' u. unfold crawl_at.
  destruct (crawl_begin E cfg (snd (crawl_reset st))) as [[x|e] st1] eqn:Hbegin;
    [|discriminate].
  pose proof (crawl_begin_effect E cfg _ _ _ Hbegin) as (Hv1 & _).
  cbn in Hv1.
  apply crawl_begin_inv in Hbegin as (Hinv & _).
  intros [= Hiter] [Hu Hvis].
  assert (Hfresh0 : frontier_fresh {[start_url cfg]} st1).
  { intros v _. rewrite Hv1. apply not_elem_of_empty. }
  exact (loop_iter_fresh E cfg st1 n _ _ _ _ Hinv Hfresh0 Hiter u Hu Hvis).
Qed.

(** After two iterations on the sample site the queued URL is unvisited. *)
Lemma frontier_disjoint_from_visited_witness :
  crawl_at Site.env (Site.config "" 10) 2 (init 0%nat)
  = Some (Ok {["https://a.com/docs"]},
          snd (loop_iter Site.env (Site.config "" 10) 2 {["https://a.com/"]}
                 (snd (crawl_begin Site.env (Site.config "" 10)
                         (snd (crawl_reset (init 0%nat)))))))
  /\ ~ ("https://a.com/docs" ∈ ({["https://a.com/docs"]} : gset string)
        /\ "https://a.com/docs"
             ∈ visited_urls
                 (snd (loop_iter Site.env (Site.config "" 10) 2
                         {["https://a.com/"]}
                         (snd (crawl_begin Site.env (Site.config "" 10)
                                 (snd (crawl_reset (init 0%nat)))))))).
Proof.
  assert (Hat : crawl_at Site.env (Site.config "" 10) 2 (init 0%nat)
    = Some (Ok {["https://a.com/docs"]},
            snd (loop_iter Site.env (Site.config "" 10) 2 {["https://a.com/"]}
                   (snd (crawl_begin Site.env (Site.config "" 10)
                           (snd (crawl_reset (init 0%nat)))))))).
  { vm_compute. reflexivity. }
  split; [exact Hat|].
  exact (frontier_disjoint_from_visited _ _ _ _ _ _ _ Hat).
Defined.

(** The end-to-end scenario of the specification: seed and pattern
    "https://example.com/docs/", [max_pages = 3], a seed that links to two
    pages under the pattern, an external page and a same-host page outside
    the pattern. The run records exactly the seed and the two pages under
    the pattern, and writes them as one document of three pages. *)
Theorem docs_scenario_records_three_pages :
  exists st' f doc,
    crawl Docs.env Docs.config 10 (init 0%nat) = Some (Ok tt, st')
    /\ map pr_url (results st')
       = ["https://example.com/docs/"; "https://example.com/docs/a";
          "https://example.com/docs/b"]
    /\ written st' = [(f, doc)]
    /\ art_pages doc = results st'
    /\ md_total_pages (art_metadata doc) = 3%nat.
Proof.
  exists (final_state Docs.env Docs.config 10 (init 0%nat)),
    "out_Docs_20240101_000000",
    (artifact Docs.env Docs.config "Docs" "example.com"
       (final_state Docs.env Docs.config 10 (init 0%nat))).
  split; [vm_compute; reflexivity|].
  split; [vm_compute; reflexivity|].
  split; [vm_compute; reflexivity|].
  split; vm_compute; reflexivity.
Qed.

(** ** What a run has crawled *)

Section RunFacts.
Context {W : Type} (E : Env W).

(** A property of the loop configuration that every iteration keeps is
    kept by any number of iterations. *)
Lemma loop_iter_preserves (cfg : Config) (st1 : State W)
    (P : gset string -> State W -> Prop) :
  (forall urls st urls' st',
      loop_inv E cfg st1 urls st -> loop_cond E cfg urls st = true ->
      P urls st -> loop_body E cfg urls st = (Ok urls', st') -> P urls' st') ->
  forall n urls st urls' st',
    loop_inv E cfg st1 urls st -> P urls st ->
    loop_iter E cfg n urls st = (Ok urls', st') -> P urls' st'.
Proof.
  intros Hstep n. induction n as [|n IH]; intros urls st urls' st' Hinv HP;
    simpl.
  - now intros [= <- <-].
  - destruct (loop_cond E cfg urls st) eqn:Hcond; [|now intros [= <- <-]].
    destruct (loop_body_inv E cfg st1 urls st Hinv Hcond)
      as (urls2 & st2 & Hbody & Hinv2).
    rewrite Hbody. apply IH; [exact Hinv2|]. eauto.
Qed.

Lemma crawl_loop_preserves (cfg : Config) (st1 : State W)
    (P : gset string -> State W -> Prop) :
  (forall urls st urls' st',
      loop_inv E cfg st1 urls st -> loop_cond E cfg urls st = true ->
      P urls st -> loop_body E cfg urls st = (Ok urls', st') -> P urls' st') ->
  forall fuel urls st urls' st',
    loop_inv E cfg st1 urls st -> P urls st ->
    crawl_loop E cfg fuel urls st = Some (Ok urls', st') -> P urls' st'.
Proof.
  intros Hstep fuel.
  induction fuel as [|fuel IH]; intros urls st urls' st' Hinv HP; simpl;
    destruct (loop_cond E cfg urls st) eqn:Hcond;
    try discriminate; try (now intros [= <- <-]).
  destruct (loop_body_inv E cfg st1 urls st Hinv Hcond)
    as (urls2 & st2 & Hbody & Hinv2).
  rewrite Hbody. apply IH; [exact Hinv2|]. eauto.
Qed.

Lemma crawled_inv_entry (cfg : Config) (st1 : State W) :
  visited_urls st1 = ∅ -> results st1 = [] ->
  crawled_inv cfg st1 {[start_url cfg]} st1.
Proof.
  intros Hv Hr. exists []. rewrite app_nil_r, Hv, Hr.
  repeat split; [constructor | apply sublist_nil_l |].
  left. split; [reflexivity | set_solver].
Qed.

Lemma crawled_inv_step (cfg : Config) (st1 : State W)
    (urls urls' : gset string) (st st' : State W) :
  loop_inv E cfg st1 urls st ->
  loop_cond E cfg urls st = true ->
  crawled_inv cfg st1 urls st ->
  loop_body E cfg urls st = (Ok urls', st') ->
  crawled_inv cfg st1 urls' st'.
Proof.
  intros (Hb & _) Hcond (calls & Hc & Hv & Hpat & Hsub & Hfirst) Hbody.
  destruct (loop_body_effect E cfg urls st Hcond Hb)
    as (url & urls2 & st2 & Hbody2 & Hin & _ & _ & _ & Hcase).
  rewrite Hbody in Hbody2. injection Hbody2 as <- <-.
  destruct Hcase as [[-> ->]|
    (Hnv & Hm & Hv' & Hc' & Hr' & links & -> & _)].
  - exists calls. repeat split; auto.
    destruct Hfirst as [[Hnil Hs]|Hrest]; [left|right; exact Hrest].
    split; [exact Hnil | set_solver].
  - exists (calls ++ [url]). repeat split.
    + rewrite Hc', Hc. now rewrite app_assoc.
    + rewrite Hv', Hv, list_to_set_snoc_L. set_solver.
    + apply Forall_app. split; [exact Hpat|]. now constructor.
    + destruct Hr' as [->|(rec & -> & Hrec)].
      * now apply sublist_inserts_r.
      * rewrite map_app. simpl. rewrite Hrec. now apply sublist_app.
    + right. destruct Hfirst as [[-> Hs]|(rest & ->)].
      * exists []. simpl. f_equal. set_solver.
      * exists (rest ++ [url]). reflexivity.
Qed.

(** How a finished run of [crawl] went: either the start of the [try]
    block raised, or the loop ended in a state [st2] and the results were
    saved or not. *)
Lemma crawl_decompose (cfg : Config) (fuel : nat) (st st' : State W)
    (r : exc unit) :
  crawl E cfg fuel st = Some (r, st') ->
  (exists e st1,
      crawl_begin E cfg (snd (crawl_reset st)) = (Raise e, st1)
      /\ (r, st') = crawl_finally E (snd (crawl_except e st1)))
  \/ (exists t f st1 urls st2 rs st3,
        crawl_begin E cfg (snd (crawl_reset st)) = (Ok (t, f), st1)
        /\ crawl_loop E cfg fuel {[start_url cfg]} st1 = Some (Ok urls, st2)
        /\ save_results E cfg t f st2 = (rs, st3)
        /\ visited_urls st' = visited_urls st2
        /\ results st' = results st2
        /\ crawl_page_calls st' = crawl_page_calls st2
        /\ written st' = written st3
        /\ running st' = false).
Proof.
  unfold crawl, crawl_try.
  destruct (crawl_begin E cfg (snd (crawl_reset st))) as [[[t f]|e] st1]
    eqn:Hbegin.
  - pose proof (crawl_begin_inv E cfg st st1 _ Hbegin) as (Hinv & _).
    destruct (crawl_loop E cfg fuel {[start_url cfg]} st1) as [[rl st2]|]
      eqn:Hloop; [|discriminate].
    destruct (crawl_loop_inv E cfg st1 fuel _ _ _ _ Hinv Hloop)
      as (urls & -> & _).
    destruct (save_results E cfg t f st2) as [rs st3] eqn:Hsave.
    pose proof (save_results_effect E cfg t f st2 st3 rs Hsave)
      as (Hv3 & Hr3 & _ & _ & Hc3 & _).
    intros Hrun. right. exists t, f, st1, urls, st2, rs, st3.
    split; [reflexivity|]. split; [exact Hloop|]. split; [exact Hsave|].
    clear Hsave. destruct rs as [[]|e];
      match type of Hrun with Some ?x = _ =>
        destruct x as [rf sf] eqn:Hf end;
      injection Hrun as <- <-;
      apply crawl_finally_effect in Hf as (Hv4 & Hr4 & Hrun4 & _ & Hc4 & Hw4 & _);
      cbn in Hv4, Hr4, Hc4, Hw4; repeat split; congruence.
  - intros Hrun. injection Hrun as Hrun. left. exists e, st1.
    split; [reflexivity|]. symmetry. exact Hrun.
Qed.

(** The state a finished run leaves satisfies [crawled_inv] relative to
    the state the run started in. *)
Lemma crawl_crawled (cfg : Config) (fuel : nat) (st st' : State W)
    (r : exc unit) :
  crawl E cfg fuel st = Some (r, st') ->
  exists calls,
    calls_since st st' = calls
    /\ visited_urls st' = list_to_set calls
    /\ Forall (fun u => matches_pattern u (url_pattern cfg) = true) calls
    /\ map pr_url (results st') `sublist_of` calls
    /\ (calls = [] \/ exists rest, calls = start_url cfg :: rest).
Proof.
  intros Hrun. apply crawl_decompose in Hrun
    as [(e & st1 & Hbegin & Hfin)|
        (t & f & st1 & urls & st2 & rs & st3 & Hbegin & Hloop & _
         & Hv & Hr & Hc & _)].
  - apply crawl_begin_effect in Hbegin.
    cbn in Hbegin. destruct Hbegin as (Hv1 & Hr1 & _ & _ & Hc1 & _).
    symmetry in Hfin. apply crawl_finally_effect in Hfin
      as (Hv' & Hr' & _ & _ & Hc' & _).
    cbn in Hv', Hr', Hc'.
    exists []. unfold calls_since. rewrite Hc', Hc1, Hv', Hv1, Hr', Hr1.
    repeat split; [apply drop_all | constructor | apply sublist_nil_l | now left].
  - pose proof (crawl_begin_effect E cfg _ _ _ Hbegin)
      as (Hv1 & Hr1 & _ & _ & Hc1 & _).
    cbn in Hv1, Hr1, Hc1.
    pose proof (crawl_begin_inv E cfg st st1 _ Hbegin) as (Hinv & _).
    pose proof (crawl_loop_preserves cfg st1 (crawled_inv cfg st1)
                  (fun u s u' s' => crawled_inv_step cfg st1 u u' s s')
                  fuel _ _ _ _ Hinv
                  (crawled_inv_entry cfg st1 Hv1 Hr1) Hloop)
      as (calls & Hc2 & Hv2 & Hpat & Hsub & Hfirst).
    exists calls. unfold calls_since.
    rewrite Hc, Hc2, Hc1, drop_app_length, Hv, Hr.
    repeat split; auto.
    destruct Hfirst as [[-> _]|Hrest]; auto.
Qed.

End RunFacts.

(** ** Properties of a finished run *)

(** The run of the sample site that the witnesses below refer to. *)
Lemma sample_run :
  crawl Site.env (Site.config "" 10) 10 (init 0%nat)
  = Some (Ok tt, final_state Site.env (Site.config "" 10) 10 (init 0%nat)).
Proof. vm_compute. reflexivity. Qed.

(** X3. Only URLs that match the pattern are crawled: in a finished run,
    every URL passed to [crawl_page], every visited URL and the URL of
    every record satisfies [matches_pattern] for the configured pattern. *)
Theorem crawl_visits_only_pattern_urls {W : Type} (E : Env W) (cfg : Config)
    (fuel : nat) (st st' : State W) (r : exc unit) :
  crawl E cfg fuel st = Some (r, st') ->
  (forall u, u ∈ calls_since st st' ->
     matches_pattern u (url_pattern cfg) = true)
  /\ (forall u, u ∈ visited_urls st' ->
        matches_pattern u (url_pattern cfg) = true)
  /\ (forall rec, rec ∈ results st' ->
        matches_pattern (pr_url rec) (url_pattern cfg) = true).
Proof.
  intros Hrun.
  apply crawl_crawled in Hrun as (calls & -> & Hv & Hpat & Hsub & _).
  rewrite Forall_forall in Hpat.
  split; [exact Hpat|]. split.
  - intros u Hu. apply Hpat. rewrite Hv in Hu.
    now apply elem_of_list_to_set in Hu.
  - intros rec Hrec. apply Hpat.
    eapply elem_of_sublist; [|exact Hsub].
    apply list_elem_of_fmap. now exists rec.
Qed.

Lemma crawl_visits_only_pattern_urls_witness :
  crawl Site.env (Site.config "" 10) 10 (init 0%nat)
  = Some (Ok tt, final_state Site.env (Site.config "" 10) 10 (init 0%nat))
  /\ forall u,
       u ∈ visited_urls (final_state Site.env (Site.config "" 10) 10
                           (init 0%nat)) ->
       matches_pattern u "" = true.
Proof.
  split; [exact sample_run|].
  exact (proj1 (proj2 (crawl_visits_only_pattern_urls Site.env
                         (Site.config "" 10) 10 (init 0%nat) _ _ sample_run))).
Defined.

(** X4. In a finished run the visited set is exactly the set of URLs
    passed to [crawl_page], one call each, and the records follow the
    calls: their URLs form a subsequence of the sequence of calls, so they
    are pairwise distinct and in crawl order. At most [max_pages] calls
    are made (none when [max_pages] is negative). *)
Theorem crawl_records_follow_calls {W : Type} (E : Env W) (cfg : Config)
    (fuel : nat) (st st' : State W) (r : exc unit) :
  crawl E cfg fuel st = Some (r, st') ->
  visited_urls st' = list_to_set (calls_since st st')
  /\ size (visited_urls st') = length (calls_since st st')
  /\ map pr_url (results st') `sublist_of` calls_since st st'
  /\ NoDup (map pr_url (results st'))
  /\ Z.of_nat (length (calls_since st st')) <= Z.max 0 (max_pages cfg).
Proof.
  intros Hrun.
  pose proof (crawl_summary E cfg fuel st st' r Hrun)
    as (Hsize & _ & (calls' & Hc' & Hnd' & _) & _).
  assert (Hnd : NoDup (calls_since st st')).
  { unfold calls_since. now rewrite Hc', drop_app_length. }
  apply crawl_crawled in Hrun as (calls & Hc & Hv & _ & Hsub & _).
  rewrite Hc in *.
  assert (Hlen : size (visited_urls st') = length calls).
  { rewrite Hv. now apply size_list_to_set. }
  split; [exact Hv|]. split; [exact Hlen|].
  split; [exact Hsub|]. split; [eapply sublist_NoDup; eauto|].
  rewrite <- Hlen. exact Hsize.
Qed.

Lemma crawl_records_follow_calls_witness :
  crawl Site.env (Site.config "" 10) 10 (init 0%nat)
  = Some (Ok tt, final_state Site.env (Site.config "" 10) 10 (init 0%nat))
  /\ NoDup (map pr_url (results (final_state Site.env (Site.config "" 10) 10
                                   (init 0%nat)))).
Proof.
  split; [exact sample_run|].
  exact (proj1 (proj2 (proj2 (proj2 (crawl_records_follow_calls Site.env
                         (Site.config "" 10) 10 (init 0%nat) _ _
                         sample_run))))).
Defined.

(** X5. The first URL a run passes to [crawl_page] is the seed: a run
    either crawls nothing or starts with [start_url]. *)
Theorem crawl_starts_with_seed {W : Type} (E : Env W) (cfg : Config)
    (fuel : nat) (st st' : State W) (r : exc unit) :
  crawl E cfg fuel st = Some (r, st') ->
  calls_since st st' = []
  \/ exists rest, calls_since st st' = start_url cfg :: rest.
Proof.
  intros Hrun.
  apply crawl_crawled in Hrun as (calls & -> & _ & _ & _ & Hfirst).
  exact Hfirst.
Qed.

Lemma crawl_starts_with_seed_witness :
  crawl Site.env (Site.config "" 10) 10 (init 0%nat)
  = Some (Ok tt, final_state Site.env (Site.config "" 10) 10 (init 0%nat))
  /\ (calls_since (init 0%nat)
        (final_state Site.env (Site.config "" 10) 10 (init 0%nat)) = []
      \/ exists rest,
           calls_since (init 0%nat)
             (final_state Site.env (Site.config "" 10) 10 (init 0%nat))
           = "https://a.com/" :: rest).
Proof.
  split; [exact sample_run|].
  exact (crawl_starts_with_seed Site.env (Site.config "" 10) 10 (init 0%nat)
           _ _ sample_run).
Defined.

Lemma crawl_raises_only_from_close_aux {W : Type} (E : Env W) (cfg : Config)
    (fuel : nat) (st st' : State W) (r : exc unit) :
  crawl E cfg fuel st = Some (r, st') ->
  r = Ok tt \/ exists w, r = fst (env_close_browser E w).
Proof.
  unfold crawl. intros Hrun.
  destruct (crawl_try E cfg fuel (snd (crawl_reset st))) as [[[[]|e] s]|];
    [| |discriminate]; injection Hrun as Hrun;
    now apply crawl_finally_effect in Hrun as (_ & _ & _ & _ & _ & _ & Hr).
Qed.

(** X6. [crawl] swallows every exception raised by the title probe, the
    loop and the write: the call can end with an exception only when
    closing the browser in the [finally] clause raises, and then it ends
    with that exception. *)
Theorem crawl_raises_only_from_close {W : Type} (E : Env W) (cfg : Config)
    (fuel : nat) (st st' : State W) (r : exc unit) :
  crawl E cfg fuel st = Some (r, st') ->
  r = Ok tt
  \/ exists e w, r = Raise e /\ fst (env_close_browser E w) = Raise e.
Proof.
  intros Hrun.
  destruct (crawl_raises_only_from_close_aux E cfg fuel st st' r Hrun)
    as [Hok|[w Hw]]; [now left|].
  destruct r as [[]|e]; [now left|]. right. exists e, w. auto.
Qed.

Lemma crawl_raises_only_from_close_witness :
  crawl Unreachable.env (Site.config "" 10) 10 (init 0%nat)
  = Some (Ok tt,
          final_state Unreachable.env (Site.config "" 10) 10 (init 0%nat))
  /\ ((Ok tt : exc unit) = Ok tt
      \/ exists e w,
           (Ok tt : exc unit) = Raise e
           /\ fst (env_close_browser Unreachable.env w) = Raise e).
Proof.
  assert (Hrun : crawl Unreachable.env (Site.config "" 10) 10 (init 0%nat)
    = Some (Ok tt,
            final_state Unreachable.env (Site.config "" 10) 10 (init 0%nat)))
    by (vm_compute; reflexivity).
  split; [exact Hrun|].
  exact (crawl_raises_only_from_close Unreachable.env (Site.config "" 10) 10
           (init 0%nat) _ _ Hrun).
Defined.

(** X7. If the browser cannot be launched, [crawl] logs the error and
    ends normally: it fetches nothing, records nothing, writes nothing
    and, since [self.browser] was never set, does not try to close a
    browser. *)
Theorem crawl_launch_failure {W : Type} (E : Env W) (cfg : Config)
    (fuel : nat) (st : State W) (e : exn) (w : W) :
  browser st = false ->
  env_launch E (world st) = (Raise e, w) ->
  exists st',
    crawl E cfg fuel st = Some (Ok tt, st')
    /\ log st' = log st ++ [LogError ("Crawling error: " +:+ str_exn e)]
    /\ calls_since st st' = []
    /\ written_since st st' = []
    /\ results st' = []
    /\ visited_urls st' = ∅
    /\ browser st' = false
    /\ running st' = false
    /\ world st' = w.
Proof.
  intros Hb Hl.
  unfold crawl, crawl_try, crawl_begin, init_browser, crawl_reset,
    crawl_except, crawl_finally, close_browser.
  unfold_monad. rewrite Hb. cbn. rewrite Hl. cbn.
  eexists. split; [reflexivity|]. cbn.
  unfold calls_since, written_since. cbn.
  repeat split; apply drop_all.
Qed.

Lemma crawl_launch_failure_witness :
  exists st',
    crawl {| env_launch := fun w => (Raise (Exception "no chromium"), w);
             env_goto := env_goto Site.env;
             env_close_browser := env_close_browser Site.env;
             env_strftime := env_strftime Site.env;
             env_isoformat := env_isoformat Site.env;
             env_makedirs := env_makedirs Site.env;
             env_write_json := env_write_json Site.env;
             env_stop_requested := env_stop_requested Site.env;
             env_pop_index := env_pop_index Site.env;
             env_netloc := env_netloc Site.env;
             env_splitext := env_splitext Site.env;
             env_isalnum := env_isalnum Site.env |}
      (Site.config "" 10) 10 (init 0%nat) = Some (Ok tt, st')
    /\ log st' = [LogError "Crawling error: no chromium"].
Proof.
  destruct (crawl_launch_failure
              {| env_launch := fun w => (Raise (Exception "no chromium"), w);
                 env_goto := env_goto Site.env;
                 env_close_browser := env_close_browser Site.env;
                 env_strftime := env_strftime Site.env;
                 env_isoformat := env_isoformat Site.env;
                 env_makedirs := env_makedirs Site.env;
                 env_write_json := env_write_json Site.env;
                 env_stop_requested := env_stop_requested Site.env;
                 env_pop_index := env_pop_index Site.env;
                 env_netloc := env_netloc Site.env;
                 env_splitext := env_splitext Site.env;
                 env_isalnum := env_isalnum Site.env |}
              (Site.config "" 10) 10 (init 0%nat)
              (Exception "no chromium") 0%nat eq_refl eq_refl)
    as (st' & Hrun & Hlog & _).
  exists st'. split; [exact Hrun | exact Hlog].
Defined.



(** With a budget of zero pages nothing is fetched either. *)
Example crawl_with_zero_budget :
  exists r st',
    crawl Site.env (Site.config "" 0) 0 (init 0%nat) = Some (r, st')
    /\ calls_since (init 0%nat) st' = []
    /\ results st' = [].
Proof.
  exists (Ok tt), (final_state Site.env (Site.config "" 0) 0 (init 0%nat)).
  split; [vm_compute; reflexivity|]. split; vm_compute; reflexivity.
Qed.

(** A call of [stop] made before [crawl] starts is lost: [crawl] sets
    [running] again before anything else, so the run is the same as
    without the call. A stop counts only when it arrives during the run. *)
Theorem stop_before_crawl_is_lost {W : Type} (E : Env W) (cfg : Config)
    (fuel : nat) (st : State W) :
  running (snd (stop st)) = false
  /\ crawl E cfg fuel (snd (stop st)) = crawl E cfg fuel st.
Proof. split; reflexivity. Qed.

(** ** The output file *)

Section CharFacts.

Lemma all_chars_impl (P Q : ascii -> bool) (s : string) :
  (forall c, P c = true -> Q c = true) ->
  all_chars P s = true -> all_chars Q s = true.
Proof.
  intros HPQ. induction s as [|c s IH]; simpl; [reflexivity|].
  intros [Hc Hs]%andb_true_iff. rewrite (HPQ c Hc). now apply IH.
Qed.

Lemma all_chars_filter (keep : ascii -> bool) (s : string) :
  all_chars keep (PyStr.filter_chars keep s) = true.
Proof.
  induction s as [|c s IH]; simpl; [reflexivity|].
  destruct (keep c) eqn:Hc; simpl; [now rewrite Hc|exact IH].
Qed.

Lemma all_chars_lstrip (P : ascii -> bool) (s : string) :
  all_chars P s = true -> all_chars P (PyStr.lstrip s) = true.
Proof.
  induction s as [|c s IH]; simpl; [reflexivity|].
  intros H. destruct (PyStr.isspace c); [|exact H].
  apply andb_true_iff in H as [_ H]. now apply IH.
Qed.

Lemma all_chars_rstrip (P : ascii -> bool) (s : string) :
  all_chars P s = true -> all_chars P (PyStr.rstrip s) = true.
Proof.
  induction s as [|c s IH]; simpl; [reflexivity|].
  intros [Hc Hs]%andb_true_iff. specialize (IH Hs).
  destruct (PyStr.rstrip s) as [|d r].
  - destruct (PyStr.isspace c); simpl; [reflexivity|now rewrite Hc].
  - simpl. rewrite Hc. exact IH.
Qed.

Lemma all_chars_replace (P Q : ascii -> bool) (a b : ascii) (s : string) :
  (forall c, P c = true -> Q (if Ascii.eqb c a then b else c) = true) ->
  all_chars P s = true -> all_chars Q (PyStr.replace_char a b s) = true.
Proof.
  intros HPQ. induction s as [|c s IH]; simpl; [reflexivity|].
  intros [Hc Hs]%andb_true_iff. rewrite (HPQ c Hc). now apply IH.
Qed.

Lemma all_chars_take (P : ascii -> bool) (n : nat) (s : string) :
  all_chars P s = true -> all_chars P (PyStr.take n s) = true.
Proof.
  revert s; induction n as [|n IH]; intros [|c s]; simpl; try reflexivity.
  intros [Hc Hs]%andb_true_iff. rewrite Hc. now apply IH.
Qed.

Lemma length_take (n : nat) (s : string) :
  (String.length (PyStr.take n s) <= n)%nat.
Proof.
  revert s; induction n as [|n IH]; intros [|c s]; simpl; try lia.
  specialize (IH s). lia.
Qed.

End CharFacts.

(** X9. The cleaned title that goes into the output file name has at
    most 50 characters, and each of them is alphanumeric, a hyphen or an
    underscore; it holds no space. *)
Theorem clean_title_is_file_name_safe {W : Type} (E : Env W)
    (page_title : string) :
  (String.length (clean_title E page_title) <= 50)%nat
  /\ all_chars (title_char E) (clean_title E page_title) = true.
Proof.
  unfold clean_title. split; [apply length_take|].
  apply all_chars_take.
  eapply all_chars_replace;
    [|apply all_chars_rstrip, all_chars_lstrip, all_chars_filter].
  intros c Hc. cbn beta in Hc. unfold title_char.
  destruct (Ascii.eqb c " ") eqn:Hsp.
  - now rewrite orb_true_r.
  - rewrite Hsp. rewrite orb_false_r in Hc. now rewrite Hc.
Qed.

Example clean_title_sample :
  clean_title Site.env "  GPT Crawler: docs & more!  " = "GPT_Crawler_docs__more".
Proof. reflexivity. Qed.

Section SaveFacts.
Context {W : Type} (E : Env W).

(** A successful save wrote the document of the state it ran in, under
    the domain of the seed. *)
Lemma save_results_ok (cfg : Config) (title file : string)
    (st st' : State W) :
  save_results E cfg title file st = (Ok tt, st') ->
  exists domain w,
    env_netloc E (start_url cfg) = Ok domain
    /\ written st' = written st
                     ++ [(file, artifact E cfg title domain (with_world w st))].
Proof.
  unfold save_results. unfold_monad.
  destruct (env_netloc E (start_url cfg)) as [domain|e]; cbn; [|discriminate].
  destruct (env_makedirs E file (world st)) as [[[]|e] w]; cbn;
    [|discriminate].
  match goal with |- context [env_write_json E file ?d w] =>
    destruct (env_write_json E file d w) as [[[]|e] w'] end;
    cbn; [|discriminate].
  intros [= <-]. cbn. exists domain, w. split; reflexivity.
Qed.

End SaveFacts.

(** X10. A run of [crawl] writes at most one file. A file it writes is
    named by the unique name derived from the probe's title, and its
    document is consistent with the run: [pages] is the list of results,
    [total_pages] is its length, [title] is the probe's title,
    [start_url] and [pattern] are the arguments of the call, [domain] is
    the netloc of the seed, and the pages have pairwise distinct URLs that
    all match the pattern. *)
Theorem crawl_writes_consistent_document {W : Type} (E : Env W)
    (cfg : Config) (fuel : nat) (st st' : State W) (r : exc unit) :
  crawl E cfg fuel st = Some (r, st') ->
  written_since st st' = []
  \/ exists f doc st1,
       written_since st st' = [(f, doc)]
       /\ crawl_begin E cfg (snd (crawl_reset st))
          = (Ok (md_title (art_metadata doc), f), st1)
       /\ art_pages doc = results st'
       /\ md_total_pages (art_metadata doc) = length (art_pages doc)
       /\ md_start_url (art_metadata doc) = start_url cfg
       /\ md_pattern (art_metadata doc) = url_pattern cfg
       /\ env_netloc E (start_url cfg) = Ok (md_domain (art_metadata doc))
       /\ NoDup (map pr_url (art_pages doc))
       /\ Forall (fun rec =>
                    matches_pattern (pr_url rec) (url_pattern cfg) = true)
            (art_pages doc).
Proof.
  intros Hrun.
  pose proof (crawl_crawled E cfg fuel st st' r Hrun)
    as (calls & Hcs & _ & Hpat & Hsub & _).
  assert (Hnd : NoDup calls).
  { pose proof (crawl_summary E cfg fuel st st' r Hrun)
      as (_ & _ & (calls' & Hc & Hnd & _) & _).
    unfold calls_since in Hcs. rewrite Hc, drop_app_length in Hcs.
    now subst. }
  apply crawl_decompose in Hrun
    as [(e & st1 & Hbegin & Hfin)|
        (t & f & st1 & urls & st2 & rs & st3 & Hbegin & Hloop & Hsave
         & _ & Hr & _ & Hw & _)].
  - left. apply crawl_begin_effect in Hbegin. cbn in Hbegin.
    destruct Hbegin as (_ & _ & _ & _ & _ & Hw1 & _).
    symmetry in Hfin.
    apply crawl_finally_effect in Hfin as (_ & _ & _ & _ & _ & Hw' & _).
    cbn in Hw'. unfold written_since. rewrite Hw', Hw1. apply drop_all.
  - pose proof (crawl_begin_inv E cfg st st1 _ Hbegin) as (Hinv & _ & Hw1 & _).
    destruct (crawl_loop_inv E cfg st1 fuel _ _ _ _ Hinv Hloop)
      as (urls2 & _ & (_ & Hw2 & _) & _).
    destruct rs as [[]|e].
    + right. apply save_results_ok in Hsave as (domain & w & Hd & Hw3).
      exists f, (artifact E cfg t domain (with_world w st2)), st1.
      unfold written_since. rewrite Hw, Hw3, Hw2, Hw1, drop_app_length.
      cbn. rewrite Hr. rewrite Hr in Hsub.
      repeat split; auto.
      * eapply sublist_NoDup; eauto.
      * rewrite Forall_forall in Hpat. apply Forall_forall.
        intros rec Hrec. apply Hpat.
        eapply elem_of_sublist; [|exact Hsub].
        apply list_elem_of_fmap. now exists rec.
    + left. apply save_results_effect in Hsave
        as (_ & _ & _ & _ & _ & [(_ & Hw3 & _)|([=] & _)]).
      unfold written_since. rewrite Hw, Hw3, Hw2, Hw1. apply drop_all.
Qed.

Lemma crawl_writes_consistent_document_witness :
  crawl Site.env (Site.config "" 10) 10 (init 0%nat)
  = Some (Ok tt, final_state Site.env (Site.config "" 10) 10 (init 0%nat))
  /\ exists ws,
       written_since (init 0%nat)
         (final_state Site.env (Site.config "" 10) 10 (init 0%nat)) = ws
       /\ (length ws <= 1)%nat.
Proof.
  split; [exact sample_run|].
  destruct (crawl_writes_consistent_document Site.env (Site.config "" 10) 10
              (init 0%nat) _ _ sample_run) as [H|(f & doc & st1 & H & _)];
    eexists; (split; [exact H|simpl; lia]).
Defined.

(** ** The links and the outcome of [crawl_page] *)

Section PageLinks.
Context {W : Type} (E : Env W).

Lemma same_domain_links_filter (d : string) (links kept : list string) :
  same_domain_links E d links = Ok kept ->
  kept = List.filter (has_netloc E d) links.
Proof.
  revert kept; induction links as [|l links IH]; intros kept; simpl.
  - now intros [= <-].
  - unfold has_netloc at 1.
    destruct (env_netloc E l) as [d'|e]; [|discriminate].
    destruct (same_domain_links E d links) as [kept'|e]; [|discriminate].
    specialize (IH kept' eq_refl).
    destruct (String.eqb d' d); intros [= <-]; now rewrite IH.
Qed.

Lemma filter_filter_andb {A} (f g : A -> bool) (l : list A) :
  List.filter g (List.filter f l) = List.filter (fun x => f x && g x) l.
Proof.
  induction l as [|x l IH]; simpl; [reflexivity|].
  destruct (f x); simpl; [|exact IH].
  destruct (g x); now rewrite IH.
Qed.

End PageLinks.

(** X11. When the [try] block of [crawl_page] returns links, they are
    exactly the [href]s of the page's anchors that start with "http" and
    whose netloc is the netloc of the requested URL, in document order,
    duplicates included. *)
Theorem crawl_page_links_are_filtered_hrefs {W : Type} (E : Env W)
    (url sel : string) (rs : list string) (st st' : State W)
    (links : list string) :
  crawl_page_try E url sel rs st = (Ok links, st') ->
  exists page w hrefs d,
    env_goto E url (world st) = (Ok page, w)
    /\ page_anchor_hrefs page = Ok hrefs
    /\ env_netloc E url = Ok d
    /\ links = List.filter
                 (fun l => PyStr.startswith l "http" && has_netloc E d l)
                 hrefs.
Proof.
  unfold crawl_page_try, process_page. unfold_monad.
  destruct (env_goto E url (world st)) as [[page|e] w]; cbn; [|discriminate].
  destruct (page_title page) as [title|e]; cbn; [|discriminate].
  destruct (process_page_try page sel rs) as [content|e]; cbn;
    (destruct (page_anchor_hrefs page) as [hrefs|e'] eqn:Hh; cbn;
     [|discriminate]);
    (destruct (env_netloc E url) as [d|e'] eqn:Hd; cbn; [|discriminate]);
    (destruct (same_domain_links E d (http_links hrefs)) as [kept|e'] eqn:Hk;
     cbn; [|discriminate]);
    (destruct (page_close page) as [[]|e']; cbn; [|discriminate]);
    intros [= <- _]; exists page, w, hrefs, d;
    (split; [reflexivity|]); (split; [exact Hh|]); (split; [reflexivity|]);
    apply same_domain_links_filter in Hk; rewrite Hk;
    unfold http_links; apply filter_filter_andb.
Qed.

Lemma crawl_page_links_are_filtered_hrefs_witness :
  crawl_page_try Site.env "https://a.com/" "" [] (init 0%nat)
  = (Ok ["https://a.com/docs"; "https://a.com/#top"],
     snd (crawl_page_try Site.env "https://a.com/" "" [] (init 0%nat)))
  /\ exists page w hrefs d,
       env_goto Site.env "https://a.com/" 0%nat = (Ok page, w)
       /\ page_anchor_hrefs page = Ok hrefs
       /\ Site.netloc "https://a.com/" = Ok d
       /\ ["https://a.com/docs"; "https://a.com/#top"]
          = List.filter
              (fun l => PyStr.startswith l "http" && has_netloc Site.env d l)
              hrefs.
Proof.
  assert (Hrun : crawl_page_try Site.env "https://a.com/" "" [] (init 0%nat)
    = (Ok ["https://a.com/docs"; "https://a.com/#top"],
       snd (crawl_page_try Site.env "https://a.com/" "" [] (init 0%nat))))
    by (vm_compute; reflexivity).
  split; [exact Hrun|].
  exact (crawl_page_links_are_filtered_hrefs Site.env _ _ _ _ _ _ Hrun).
Defined.

(** X12. [crawl_page] raises in one case only: the browser is not set and
    launching it fails; the launch is outside its [try] block. Then it
    raises the launch error without fetching or logging anything. In
    every other case it returns a list of links. *)
Theorem crawl_page_raises_only_on_launch {W : Type} (E : Env W)
    (url sel : string) (rs : list string) (st : State W) (e : exn) :
  fst (crawl_page E url sel rs st) = Raise e
  <-> (browser st = false /\ fst (env_launch E (world st)) = Raise e).
Proof.
  assert (Hcaught : forall (h : exn -> M W (list string)) (s : State W),
    (forall e0 s0, exists l, fst (h e0 s0) = Ok l) ->
    exists links,
      fst (try_except (crawl_page_try E url sel rs) h s) = Ok links).
  { intros h s Hh. unfold try_except.
    destruct (crawl_page_try E url sel rs s) as [[links|e0] s'];
      [exists links; reflexivity | apply Hh]. }
  assert (Hhandler : forall e0 (s0 : State W),
    exists l,
      fst ((emit (LogError ("Error crawling " +:+ url +:+ ": "
                            +:+ str_exn e0)) ;;;
            (ret [] : M W (list string))) s0) = Ok l).
  { intros e0 s0. exists []. reflexivity. }
  unfold crawl_page.
  unfold bind at 1. unfold note_call at 1.
  unfold bind at 1. unfold bind at 1. unfold get at 1.
  cbn [browser].
  destruct (browser st) eqn:Hb.
  - unfold ret at 1.
    match goal with |- context [try_except ?b ?h ?s] =>
      destruct (Hcaught h s Hhandler) as [links Hl];
      destruct (try_except b h s) as [r1 s1] eqn:Ht end.
    cbn in Hl. subst r1. cbn. split; [discriminate|]. now intros [? _].
  - unfold init_browser. unfold bind at 1. unfold call at 1.
    cbn [world].
    destruct (env_launch E (world st)) as [[[]|e0] w0]; cbn [fst snd].
    + unfold bind at 1. unfold set_browser at 1.
      match goal with |- context [try_except ?b ?h ?s] =>
        destruct (Hcaught h s Hhandler) as [links Hl];
        destruct (try_except b h s) as [r1 s1] eqn:Ht end.
      cbn in Hl. subst r1. cbn.
      split; [discriminate|]. intros [_ [=]].
    + cbn. split; [intros [= ->]; auto | intros [_ [= ->]]; reflexivity].
Qed.

(** ** The extracted content *)

Section ContentFacts.

Lemma all_chars_cons (P : ascii -> bool) (c : ascii) (s : string) :
  all_chars P (String c s) = P c && all_chars P s.
Proof. reflexivity. Qed.

Lemma no_adjacent_cons2 (a b : ascii) (s : string) :
  no_adjacent_spaces (String a (String b s))
  = negb (PyStr.isspace a && PyStr.isspace b)
    && no_adjacent_spaces (String b s).
Proof. reflexivity. Qed.

Lemma join_cons2 (sep w w2 : string) (ws : list string) :
  PyStr.join sep (w :: w2 :: ws) = w +:+ sep +:+ PyStr.join sep (w2 :: ws).
Proof. reflexivity. Qed.

Lemma word_head (w : string) :
  is_word w = true ->
  exists a w', w = String a w' /\ PyStr.isspace a = false /\ no_space w' = true.
Proof.
  destruct w as [|a w']; [discriminate|]. intros Hw.
  apply is_word_inv in Hw as [Ha Hw]. eauto.
Qed.

(** A joined list of words starts with a character that is no space. *)
Lemma join_words_head (ws : list string) :
  Forall (fun w => is_word w = true) ws ->
  PyStr.join " " ws = EmptyString
  \/ exists a s, PyStr.join " " ws = String a s /\ PyStr.isspace a = false.
Proof.
  intros Hws. destruct Hws as [|w ws Hw Hws]; [now left|]. right.
  apply word_head in Hw as (a & w' & -> & Ha & _).
  destruct ws as [|w2 ws].
  - exists a, w'. auto.
  - rewrite join_cons2, append_cons. eauto.
Qed.

Lemma lstrip_join_words (ws : list string) :
  Forall (fun w => is_word w = true) ws ->
  PyStr.lstrip (PyStr.join " " ws) = PyStr.join " " ws.
Proof.
  intros Hws. destruct (join_words_head ws Hws) as [->|(a & s & -> & Ha)];
    [reflexivity|]. simpl. now rewrite Ha.
Qed.

Lemma rstrip_word_chars (w : string) :
  no_space w = true -> PyStr.rstrip w = w.
Proof.
  induction w as [|a w IH]; [reflexivity|]. simpl.
  intros [Ha Hw]%andb_true_iff. apply negb_true_iff in Ha.
  rewrite (IH Hw). destruct w; [now rewrite Ha|reflexivity].
Qed.

Lemma rstrip_app_kept (a r : string) :
  PyStr.rstrip r = r -> r <> EmptyString ->
  PyStr.rstrip (a +:+ r) = a +:+ r.
Proof.
  intros Hr Hne. induction a as [|c a IH]; [exact Hr|].
  rewrite append_cons. simpl. rewrite IH.
  destruct (a +:+ r) eqn:Har; [|reflexivity].
  destruct a; [contradiction|discriminate].
Qed.

Lemma rstrip_join_words (ws : list string) :
  Forall (fun w => is_word w = true) ws ->
  PyStr.rstrip (PyStr.join " " ws) = PyStr.join " " ws.
Proof.
  induction 1 as [|w ws Hw Hws IH]; [reflexivity|].
  destruct ws as [|w2 ws].
  - apply word_head in Hw as (a & w' & -> & Ha & Hw').
    apply rstrip_word_chars. simpl. now rewrite Ha, Hw'.
  - rewrite join_cons2.
    assert (Hne : PyStr.join " " (w2 :: ws) <> EmptyString).
    { inversion Hws as [|? ? Hw2 _]; subst.
      apply word_head in Hw2 as (a & w' & -> & _).
      destruct ws; [discriminate|]. rewrite join_cons2, append_cons.
      discriminate. }
    apply rstrip_app_kept; [|discriminate].
    apply rstrip_app_kept; [exact IH | exact Hne].
Qed.

(** Appending to a word that is followed by a character that is no
    space. *)
Lemma spaces_ok_word_app (w s : string) :
  no_space w = true ->
  all_chars (fun c => negb (PyStr.isspace c) || Ascii.eqb c " ") s = true ->
  no_adjacent_spaces s = true ->
  all_chars (fun c => negb (PyStr.isspace c) || Ascii.eqb c " ") (w +:+ s)
  = true
  /\ no_adjacent_spaces (w +:+ s) = true.
Proof.
  intros Hw Hall Hadj. induction w as [|a w IH]; [auto|].
  simpl in Hw. apply andb_true_iff in Hw as [Ha Hw].
  destruct (IH Hw) as [IH1 IH2].
  rewrite append_cons. simpl. rewrite Ha, IH1, IH2. cbn.
  split; [reflexivity|].
  apply negb_true_iff in Ha. rewrite Ha. cbn.
  now destruct (w +:+ s).
Qed.

Lemma join_words_spaces (ws : list string) :
  Forall (fun w => is_word w = true) ws ->
  all_chars (fun c => negb (PyStr.isspace c) || Ascii.eqb c " ")
    (PyStr.join " " ws) = true
  /\ no_adjacent_spaces (PyStr.join " " ws) = true.
Proof.
  induction 1 as [|w ws Hw Hws IH]; [auto|].
  assert (Hns : no_space w = true).
  { unfold is_word in Hw. now apply andb_true_iff in Hw as [_ Hw]. }
  destruct ws as [|w2 ws].
  - simpl. replace w with (w +:+ "") at 1 2.
    + now apply spaces_ok_word_app.
    + clear. induction w as [|a w IH]; [reflexivity|].
      now rewrite append_cons, IH.
  - rewrite join_cons2. destruct IH as [IH1 IH2].
    apply spaces_ok_word_app; [exact Hns| |].
    + change (" " +:+ PyStr.join " " (w2 :: ws))
        with (String " " (PyStr.join " " (w2 :: ws))).
      now rewrite all_chars_cons, IH1.
    + change (" " +:+ PyStr.join " " (w2 :: ws))
        with (String " " (PyStr.join " " (w2 :: ws))).
      destruct (join_words_head (w2 :: ws) Hws) as [Hnil|(a & s & Hj & Ha)].
      * rewrite Hnil. reflexivity.
      * rewrite Hj in IH2 |- *.
        now rewrite no_adjacent_cons2, Ha, IH2.
Qed.

End ContentFacts.

(** X13. The cleaned-up content is in normal form: it has no leading or
    trailing whitespace ([strip] leaves it unchanged), its only
    whitespace character is the plain space, and no two spaces are
    adjacent. *)
Theorem clean_up_normal_form (content : string) :
  PyStr.strip (clean_up content) = clean_up content
  /\ all_chars (fun c => negb (PyStr.isspace c) || Ascii.eqb c " ")
       (clean_up content) = true
  /\ no_adjacent_spaces (clean_up content) = true.
Proof.
  unfold clean_up. pose proof (split_words content) as Hws.
  split.
  - unfold PyStr.strip. rewrite lstrip_join_words by exact Hws.
    now apply rstrip_join_words.
  - now apply join_words_spaces.
Qed.

Section SplitFacts.

Lemma split_nonspace_nonempty (c : ascii) (s : string) :
  PyStr.isspace c = false -> PyStr.split (String c s) <> [].
Proof.
  intros Hc. rewrite split_cons, Hc.
  destruct s as [|d s]; [discriminate|].
  destruct (PyStr.isspace d); [discriminate|].
  destruct (PyStr.split (String d s)); discriminate.
Qed.

(** Splitting distributes over a whitespace character. *)
Lemma split_app_space (s1 s2 : string) (c : ascii) :
  PyStr.isspace c = true ->
  PyStr.split (s1 +:+ String c s2) = PyStr.split s1 ++ PyStr.split s2.
Proof.
  intros Hc. induction s1 as [|a s1 IH].
  - change ("" +:+ String c s2) with (String c s2).
    now rewrite split_cons, Hc.
  - rewrite append_cons, (split_cons a s1), (split_cons a (s1 +:+ _)).
    destruct (PyStr.isspace a) eqn:Ha; [exact IH|].
    destruct s1 as [|d s1].
    + change ("" +:+ String c s2) with (String c s2). cbv beta iota.
      now rewrite Hc, split_cons, Hc.
    + rewrite append_cons. cbv beta iota. rewrite <- append_cons.
      destruct (PyStr.isspace d) eqn:Hd.
      * now rewrite IH.
      * rewrite IH.
        pose proof (split_nonspace_nonempty d s1 Hd) as Hne.
        destruct (PyStr.split (String d s1)); [contradiction|reflexivity].
Qed.

Lemma split_lstrip (s : string) :
  PyStr.split (PyStr.lstrip s) = PyStr.split s.
Proof.
  induction s as [|c s IH]; [reflexivity|].
  cbn [PyStr.lstrip]. rewrite (split_cons c s).
  destruct (PyStr.isspace c) eqn:Hc; [exact IH|].
  now rewrite split_cons, Hc.
Qed.

Lemma rstrip_head (s r : string) (d : ascii) :
  PyStr.rstrip s = String d r -> exists s', s = String d s'.
Proof.
  destruct s as [|c s]; [discriminate|]. simpl.
  destruct (PyStr.rstrip s).
  - destruct (PyStr.isspace c); [discriminate|]. intros [= -> _]. eauto.
  - intros [= -> _]. eauto.
Qed.

Lemma split_rstrip (s : string) :
  PyStr.split (PyStr.rstrip s) = PyStr.split s.
Proof.
  induction s as [|c s IH]; [reflexivity|].
  cbn [PyStr.rstrip]. rewrite (split_cons c s).
  destruct (PyStr.rstrip s) as [|d r] eqn:Hr.
  - simpl in IH.
    destruct (PyStr.isspace c) eqn:Hc; [exact IH|].
    rewrite split_cons, Hc.
    destruct s as [|d s]; [reflexivity|].
    rewrite <- IH. now destruct (PyStr.isspace d).
  - destruct (rstrip_head s r d Hr) as [s' ->].
    rewrite split_cons.
    destruct (PyStr.isspace c); [exact IH|].
    now rewrite IH.
Qed.

Lemma split_strip (s : string) :
  PyStr.split (PyStr.strip s) = PyStr.split s.
Proof. unfold PyStr.strip. now rewrite split_rstrip, split_lstrip. Qed.

Lemma split_join_blank_line (ts : list string) :
  PyStr.split (PyStr.join blank_line ts) = concat (map PyStr.split ts).
Proof.
  induction ts as [|t ts IH]; [reflexivity|].
  destruct ts as [|t2 ts].
  - simpl. now rewrite app_nil_r.
  - rewrite join_cons2. unfold blank_line at 1.
    rewrite append_cons.
    rewrite split_app_space by reflexivity.
    change (String newline "" +:+ PyStr.join blank_line (t2 :: ts))
      with ("" +:+ String newline (PyStr.join blank_line (t2 :: ts))).
    rewrite split_app_space by reflexivity.
    rewrite IH. reflexivity.
Qed.

(** The texts [process_page] collects hold the same words as the texts of
    the elements. *)
Lemma element_texts_words (elements : list Element)
    (texts : list (option string)) :
  Forall2 (fun el t => el_text_content el = Ok t) elements texts ->
  exists contents,
    element_texts elements = Ok contents
    /\ concat (map PyStr.split contents) = concat (map text_words texts).
Proof.
  induction 1 as [|el t elements texts Hel _ IH].
  - exists []. split; reflexivity.
  - destruct IH as (contents & Hc & Hw). simpl. rewrite Hel, Hc.
    destruct t as [t|].
    + destruct (PyStr.truthy t) eqn:Ht.
      * eexists. split; [reflexivity|]. simpl.
        now rewrite split_strip, Hw.
      * exists contents. split; [reflexivity|].
        destruct t; [|discriminate]. exact Hw.
    + exists contents. split; [reflexivity | exact Hw].
Qed.

End SplitFacts.

(** X14. With a non-empty selector whose elements all yield their text,
    the content [process_page] returns is the sequence of the words of the
    matched elements, in document order, joined by single spaces:
    stripping each text and joining the texts with blank lines leaves no
    trace after the clean-up. *)
Theorem process_page_selects_words {W : Type} (page : Page) (sel : string)
    (rs : list string) (elements : list Element)
    (texts : list (option string)) (st : State W) :
  PyStr.truthy sel = true ->
  page_query_selector_all page sel = Ok elements ->
  Forall2 (fun el t => el_text_content el = Ok t) elements texts ->
  process_page page sel rs st
  = (Ok (PyStr.join " " (concat (map text_words texts))), st).
Proof.
  intros Hsel Hq Htexts.
  destruct (element_texts_words elements texts Htexts)
    as (contents & Hc & Hw).
  unfold process_page, process_page_try, try_except, lift.
  rewrite Hsel, Hq, Hc. unfold clean_up.
  now rewrite split_join_blank_line, Hw.
Qed.

Lemma process_page_selects_words_witness :
  process_page
    {| page_title := Ok "T";
       page_query_selector_all := fun _ =>
         Ok [ {| el_text_content := Ok (Some "  first
 block ") |};
              {| el_text_content := Ok None |};
              {| el_text_content := Ok (Some "second") |} ];
       page_body_text_content := Ok None;
       page_anchor_hrefs := Ok [];
       page_close := Ok tt |} "p" [] (init 0%nat)
  = (Ok "first block second", init 0%nat).
Proof.
  apply (process_page_selects_words _ "p" []
           [ {| el_text_content := Ok (Some "  first
 block ") |};
             {| el_text_content := Ok None |};
             {| el_text_content := Ok (Some "second") |} ]
           [Some "  first
 block "; None; Some "second"]).
  - reflexivity.
  - reflexivity.
  - repeat constructor.
Defined.

(** ** The dashboard *)

Section GuiFacts.

Lemma endswith_unfold (s suffix : string) :
  PyStr2.endswith s suffix
  = if String.eqb s suffix then true
    else match s with
         | EmptyString => false
         | String _ s' => PyStr2.endswith s' suffix
         end.
Proof. destruct s; reflexivity. Qed.

Lemma endswith_spec (s suffix : string) :
  PyStr2.endswith s suffix = true <-> exists stem, s = stem +:+ suffix.
Proof.
  induction s as [|c s IH]; rewrite endswith_unfold.
  - destruct (String.eqb_spec "" suffix) as [<-|Hne]; cbv iota.
    + split; [exists ""; reflexivity | reflexivity].
    + split; [discriminate|]. intros [[|a stem] H]; [|discriminate].
      now destruct Hne.
  - destruct (String.eqb_spec (String c s) suffix) as [<-|Hne]; cbv iota.
    + split; [exists ""; reflexivity | reflexivity].
    + rewrite IH. split.
      * intros [stem ->]. exists (String c stem). reflexivity.
      * intros [[|a stem] H].
        -- now destruct Hne.
        -- injection H as -> ->. eauto.
Qed.

Lemma split_on_nonempty (sep : ascii) (s : string) :
  PyStr2.split_on sep s <> [].
Proof.
  destruct s as [|c s]; simpl; [discriminate|].
  destruct (Ascii.eqb c sep); [discriminate|].
  destruct (PyStr2.split_on sep s); discriminate.
Qed.







End GuiFacts.

(** X15. After the user has chosen a file in the dialog, the output path
    of the window ends in ".json": the chosen path is kept when it
    already does and is extended by ".json" otherwise. A cancelled dialog
    changes nothing. *)
Theorem browse_output_path_ends_in_json {F : Type} (FE : Gui.FileEnv F)
    (file_path : string) (g : Gui.Window) (f : F) :
  (PyStr.truthy file_path = true ->
   let path := Gui.output_path_text
                 (fst (Gui.browse_output_path FE file_path g f)) in
   (exists stem, path = stem +:+ ".json")
   /\ (path = file_path \/ path = file_path +:+ ".json")
   /\ ((exists stem, file_path = stem +:+ ".json") -> path = file_path))
  /\ (file_path = EmptyString ->
      Gui.browse_output_path FE file_path g f = (g, f)).
Proof.
  split; [|intros ->; reflexivity].
  intros Hsel. cbv zeta. unfold Gui.browse_output_path. rewrite Hsel.
  assert (Hpath : forall p : string,
             Gui.output_path_text
               (fst (Gui.save_settings FE (Gui.set_output_path p g) f)) = p).
  { intros p. unfold Gui.save_settings.
    now destruct (Gui.settings_dump FE _ f) as [[[]|e] f']. }
  rewrite Hpath.
  destruct (PyStr2.endswith file_path ".json") eqn:Hends; cbn [negb].
  - apply endswith_spec in Hends. auto.
  - split; [now exists file_path|]. split; [now right|].
    intros Hstem. apply endswith_spec in Hstem. congruence.
Qed.


(** A click on Start with an empty start URL starts no thread and
    only shows a warning; with a non-empty start URL it starts a thread
    whose configuration carries the texts of the window, and switches the
    buttons. *)
Theorem start_crawler_needs_start_url (g : Gui.Window) :
  (Gui.start_url_text g = EmptyString
   /\ Gui.start_crawler g = Gui.warn "Please enter a starting URL" g
   /\ Gui.crawler_thread (Gui.start_crawler g) = Gui.crawler_thread g)
  \/ (Gui.start_url_text g <> EmptyString
      /\ Gui.crawler_thread (Gui.start_crawler g) = Some (Gui.config_of g)
      /\ start_url (Gui.config_of g) = Gui.start_url_text g
      /\ max_pages (Gui.config_of g) = Gui.max_pages_value g
      /\ Gui.start_enabled (Gui.start_crawler g) = false
      /\ Gui.stop_enabled (Gui.start_crawler g) = true
      /\ Gui.warnings (Gui.start_crawler g) = Gui.warnings g).
Proof.
  unfold Gui.start_crawler.
  destruct (Gui.start_url_text g) eqn:Hu; cbn [PyStr.truthy negb].
  - left. repeat split.
  - right. repeat split; try discriminate; cbn; congruence.
Qed.

(** What [settings.get] finds in the dict [save_settings] dumped. *)
Lemma settings_of_get (g : Gui.Window) :
  Gui.get_or_empty (Gui.JString <$> Gui.settings_of g) "output_path"
  = Gui.JString (Gui.output_path_text g)
  /\ Gui.get_or_empty (Gui.JString <$> Gui.settings_of g) "url_pattern"
     = Gui.JString (Gui.url_pattern_text g)
  /\ Gui.get_or_empty (Gui.JString <$> Gui.settings_of g) "last_start_url"
     = Gui.JString (Gui.start_url_text g).
Proof.
  unfold Gui.get_or_empty, Gui.settings_of.
  rewrite !lookup_fmap. repeat split; reflexivity.
Qed.

(** X17. Settings survive a save and a load: when the file keeps what is
    dumped into it, loading after a successful save restores the URL
    pattern and the start URL of the window that was saved, and its
    output path, or the default path when that was empty. *)
Theorem settings_round_trip {F : Type} (FE : Gui.FileEnv F)
    (g g0 : Gui.Window) (f f' : F) :
  file_keeps_dump FE ->
  Gui.settings_dump FE (Gui.settings_of g) f = (Ok tt, f') ->
  Gui.save_settings FE g f = (g, f')
  /\ Gui.url_pattern_text (Gui.load_settings FE g0 f')
     = Gui.url_pattern_text g
  /\ Gui.start_url_text (Gui.load_settings FE g0 f') = Gui.start_url_text g
  /\ Gui.output_path_text (Gui.load_settings FE g0 f')
     = (if PyStr.truthy (Gui.output_path_text g)
        then Gui.output_path_text g else Gui.default_output_path FE).
Proof.
  intros Hkeep Hdump.
  destruct (Hkeep _ _ _ Hdump) as [Hex Hload].
  split; [unfold Gui.save_settings; now rewrite Hdump|].
  unfold Gui.load_settings. rewrite Hex, Hload.
  destruct (settings_of_get g) as (Hpath & Hpattern & Hurl).
  rewrite Hpath, Hpattern, Hurl. cbn.
  destruct (PyStr.truthy (Gui.output_path_text g)); repeat split.
Qed.

Lemma settings_round_trip_witness :
  file_keeps_dump MemoryFile.env
  /\ Gui.url_pattern_text
       (Gui.load_settings MemoryFile.env (Gui.fresh_window MemoryFile.env)
          (Some (Gui.JDict
                   (Gui.JString
                      <$> Gui.settings_of
                            (Gui.set_url_pattern "https://a.com/docs"
                               (Gui.fresh_window MemoryFile.env))))))
     = "https://a.com/docs".
Proof.
  assert (Hkeep : file_keeps_dump MemoryFile.env).
  { intros m f f' [= <-]. split; reflexivity. }
  split; [exact Hkeep|].
  exact (proj1 (proj2 (settings_round_trip MemoryFile.env
                         (Gui.set_url_pattern "https://a.com/docs"
                            (Gui.fresh_window MemoryFile.env))
                         (Gui.fresh_window MemoryFile.env) None _
                         Hkeep eq_refl))).
Defined.

(** A settings file edited by hand, with a number where the URL pattern
    should be: the output path is set, the second [setText] raises, the
    start URL is never set and a warning is shown. *)
Example load_settings_stops_at_bad_value :
  let file :=
    Some (Gui.JDict (<["output_path" := Gui.JString "/data/out.json"]>
                       (<["url_pattern" := Gui.JInt 5]>
                          (<["last_start_url" :=
                               Gui.JString "https://a.com/"]> ∅)))) in
  let g := Gui.new_window MemoryFile.env file in
  Gui.output_path_text g = "/data/out.json"
  /\ Gui.url_pattern_text g = ""
  /\ Gui.start_url_text g = ""
  /\ Gui.warnings g
     = ["Failed to load settings: setText(self, a0: Optional[str]): "
          +:+ "argument 1 has unexpected type 'int'"].
Proof. cbv zeta. repeat split; vm_compute; reflexivity. Qed.

(** A settings file that holds a list instead of an object. *)
Example load_settings_not_an_object :
  Gui.new_window MemoryFile.env (Some (Gui.JList []))
  = Gui.warn
      "Failed to load settings: 'list' object has no attribute 'get'"
      (Gui.fresh_window MemoryFile.env).
Proof. vm_compute. reflexivity. Qed.

Section LoadFacts.
Context {F : Type} (FE : Gui.FileEnv F).

(** A [setText] call that goes through with a true value sets a
    non-empty text: only a non-empty string is both true and accepted. *)
Lemma set_text_truthy (v : Gui.Json) (s : string) :
  Gui.json_truthy v = true ->
  Gui.set_text FE v = Ok s ->
  v = Gui.JString s /\ PyStr.truthy s = true.
Proof.
  destruct v; cbn; intros Ht Hs; try discriminate.
  injection Hs as <-. auto.
Qed.

(** [load_settings] touches the three line edits and the warnings only,
    and the output path it leaves is the one it found, the default, or a
    non-empty string stored in the file. *)
Lemma load_settings_effect (g : Gui.Window) (f : F) :
  let g' := Gui.load_settings FE g f in
  (Gui.output_path_text g' = Gui.output_path_text g
   \/ Gui.output_path_text g' = Gui.default_output_path FE
   \/ exists settings,
        Gui.settings_load FE f = Ok (Gui.JDict settings)
        /\ settings !! "output_path"
           = Some (Gui.JString (Gui.output_path_text g'))
        /\ PyStr.truthy (Gui.output_path_text g') = true)
  /\ Gui.start_enabled g' = Gui.start_enabled g
  /\ Gui.stop_enabled g' = Gui.stop_enabled g
  /\ Gui.crawler_thread g' = Gui.crawler_thread g
  /\ Gui.output_lines g' = Gui.output_lines g.
Proof.
  cbv zeta. unfold Gui.load_settings.
  destruct (Gui.settings_exists FE f); [|now auto].
  destruct (Gui.settings_load FE f) as [v|e]; [|cbn; now auto].
  destruct v as [| | | | |items|settings]; try (cbn; now auto).
  assert (Hpath : forall p,
    Gui.set_text FE
      (if Gui.json_truthy (Gui.get_or_empty settings "output_path")
       then Gui.get_or_empty settings "output_path"
       else Gui.JString (Gui.default_output_path FE)) = Ok p ->
    p = Gui.default_output_path FE
    \/ (settings !! "output_path" = Some (Gui.JString p)
        /\ PyStr.truthy p = true)).
  { intros p.
    destruct (Gui.json_truthy (Gui.get_or_empty settings "output_path"))
      eqn:Ht.
    - intros Hs. destruct (set_text_truthy _ _ Ht Hs) as [Hv Hp].
      right. split; [|exact Hp].
      unfold Gui.get_or_empty in Hv.
      destruct (settings !! "output_path") as [v|]; cbn in Hv.
      + now subst v.
      + injection Hv as <-. discriminate Hp.
    - cbn. intros [= <-]. now left. }
  destruct (Gui.set_text FE
              (if Gui.json_truthy (Gui.get_or_empty settings "output_path")
               then Gui.get_or_empty settings "output_path"
               else Gui.JString (Gui.default_output_path FE)))
    as [p|e] eqn:Hp; [|cbn; now auto].
  assert (Hout : p = Gui.output_path_text g
                 \/ p = Gui.default_output_path FE
                 \/ exists settings0,
                      Ok (Gui.JDict settings) = Ok (Gui.JDict settings0)
                      /\ settings0 !! "output_path" = Some (Gui.JString p)
                      /\ PyStr.truthy p = true).
  { destruct (Hpath p eq_refl) as [->|[Hl Ht]]; [now auto|].
    right. right. exists settings. auto. }
  destruct (Gui.set_text FE (Gui.get_or_empty settings "url_pattern"))
    as [u|e]; [|cbn; now auto].
  destruct (Gui.set_text FE (Gui.get_or_empty settings "last_start_url"))
    as [t|e]; cbn; now auto.
Qed.

End LoadFacts.

(** X18. A new window never has an empty output path, whatever the
    settings file holds (an object with values of any type, or no object
    at all), as long as the default path is not empty: the path is a
    non-empty string stored in the file under "output_path", or else the
    default. A missing file, an unreadable one, a stored path that is
    empty, missing or not a string, and a later [setText] that raises all
    leave one of the two. *)
Theorem new_window_has_output_path {F : Type} (FE : Gui.FileEnv F) (f : F) :
  PyStr.truthy (Gui.default_output_path FE) = true ->
  PyStr.truthy (Gui.output_path_text (Gui.new_window FE f)) = true
  /\ (Gui.output_path_text (Gui.new_window FE f) = Gui.default_output_path FE
      \/ exists settings,
           Gui.settings_load FE f = Ok (Gui.JDict settings)
           /\ settings !! "output_path"
              = Some (Gui.JString
                        (Gui.output_path_text (Gui.new_window FE f)))).
Proof.
  intros Hdef. unfold Gui.new_window.
  destruct (load_settings_effect FE (Gui.fresh_window FE) f)
    as ([Hp|[Hp|(settings & Hl & Hs & Ht)]] & _).
  - rewrite Hp. cbn. auto.
  - rewrite Hp. auto.
  - split; [exact Ht|]. right. exists settings. auto.
Qed.

(** The file edited by hand of [load_settings_stops_at_bad_value], and a
    file whose output path is a number. *)
Lemma new_window_has_output_path_witness :
  Gui.output_path_text
    (Gui.new_window MemoryFile.env
       (Some (Gui.JDict (<["output_path" := Gui.JString "/data/out.json"]>
                           (<["url_pattern" := Gui.JInt 5]> ∅)))))
  = "/data/out.json"
  /\ Gui.output_path_text
       (Gui.new_window MemoryFile.env
          (Some (Gui.JDict (<["output_path" := Gui.JInt 5]> ∅))))
     = Gui.default_output_path MemoryFile.env
  /\ PyStr.truthy
       (Gui.output_path_text
          (Gui.new_window MemoryFile.env
             (Some (Gui.JDict (<["output_path" := Gui.JInt 5]> ∅))))) = true.
Proof.
  split; [vm_compute; reflexivity|]. split; [vm_compute; reflexivity|].
  apply (new_window_has_output_path MemoryFile.env). reflexivity.
Defined.

Section ControlFacts.

Lemma controls_ok_react (ev : Gui.Event) (g : Gui.Window) :
  controls_ok g -> controls_ok (Gui.react ev g).
Proof.
  intros (Hb & Hs & Ht). destruct ev; cbn [Gui.react].
  - unfold Gui.start_crawler.
    destruct (PyStr.truthy (Gui.start_url_text g)) eqn:Hu; cbn [negb].
    + repeat split; cbn; eauto. intros cfg [= <-]. exact Hu.
    + repeat split; cbn; auto.
  - unfold Gui.stop_crawler.
    destruct (Gui.crawler_thread g) as [cfg|] eqn:Hth.
    + repeat split; cbn; try discriminate; eauto.
    + unfold controls_ok. rewrite Hth. auto.
  - repeat split; cbn; [discriminate | exact Ht].
  - repeat split; cbn; auto.
  - repeat split; cbn; auto.
  - repeat split; cbn; auto.
  - repeat split; cbn; auto.
Qed.

Lemma controls_ok_after (events : list Gui.Event) (g : Gui.Window) :
  controls_ok g -> controls_ok (Gui.after events g).
Proof.
  revert g; induction events as [|ev events IH]; intros g Hg; [exact Hg|].
  apply IH. now apply controls_ok_react.
Qed.

Lemma controls_ok_new {F : Type} (FE : Gui.FileEnv F) (f : F) :
  controls_ok (Gui.new_window FE f).
Proof.
  destruct (load_settings_effect FE (Gui.fresh_window FE) f)
    as (_ & Hstart & Hstop & Hthread & _).
  unfold Gui.new_window, controls_ok. rewrite Hstart, Hstop, Hthread. cbn.
  repeat split; discriminate.
Qed.

End ControlFacts.

(** X19. Whatever the user and the thread do to a new window, exactly one
    of the Start and Stop buttons is enabled; Stop is enabled only when a
    thread has been started; and a thread is only ever started with a
    non-empty start URL. *)
Theorem dashboard_controls_invariant {F : Type} (FE : Gui.FileEnv F) (f : F)
    (events : list Gui.Event) :
  let g := Gui.after events (Gui.new_window FE f) in
  Gui.start_enabled g = negb (Gui.stop_enabled g)
  /\ (Gui.stop_enabled g = true -> is_Some (Gui.crawler_thread g))
  /\ (forall cfg, Gui.crawler_thread g = Some cfg ->
        start_url cfg <> EmptyString).
Proof.
  cbv zeta.
  destruct (controls_ok_after events _ (controls_ok_new FE f))
    as (Hb & Hs & Ht).
  split; [exact Hb|]. split; [exact Hs|].
  intros cfg Hcfg Hnil. specialize (Ht cfg Hcfg). now rewrite Hnil in Ht.
Qed.

(** ** The record of a page and the log of a run *)

(** X21. Once the page has opened and given its title, [crawl_page]
    appends exactly one record, with the requested URL, that title and
    the content [process_page] returned, the diagnostic string included;
    the record stays when a later step of [crawl_page] raises. *)
Theorem crawl_page_appends_record {W : Type} (E : Env W) (url sel : string)
    (rs : list string) (st : State W) (page : Page) (w : W)
    (title : string) :
  browser st = true ->
  env_goto E url (world st) = (Ok page, w) ->
  page_title page = Ok title ->
  results (snd (crawl_page E url sel rs st))
  = results st
    ++ [{| pr_url := url; pr_title := title;
           pr_content :=
             match process_page_try page sel rs with
             | Ok content => content
             | Raise e => "Error processing page: " +:+ str_exn e
             end |}].
Proof.
  intros Hb Hgoto Htitle.
  unfold crawl_page, crawl_page_try, process_page. unfold_monad.
  rewrite Hb. cbn. rewrite Hgoto. cbn. rewrite Htitle. cbn.
  destruct (process_page_try page sel rs) as [content|e]; cbn;
    (destruct (page_anchor_hrefs page) as [hrefs|e']; cbn; [|reflexivity]);
    (destruct (env_netloc E url) as [d|e']; cbn; [|reflexivity]);
    (destruct (same_domain_links E d (http_links hrefs)) as [kept|e']; cbn;
     [|reflexivity]);
    (destruct (page_close page) as [[]|e']; reflexivity).
Qed.

Lemma crawl_page_appends_record_witness :
  results (snd (crawl_page Flaky.env "https://a.com/" "" []
                  (snd (set_browser true (init 0%nat)))))
  = [{| pr_url := "https://a.com/"; pr_title := "Home";
        pr_content := "Hello" |}].
Proof.
  exact (crawl_page_appends_record Flaky.env "https://a.com/" "" []
           (snd (set_browser true (init 0%nat))) Flaky.page 1%nat "Home"
           eq_refl eq_refl eq_refl).
Defined.

Section LogFacts.
Context {W : Type} (E : Env W).

(** [crawl_page] logs errors only. *)
Lemma crawl_page_log (url sel : string) (rs : list string)
    (st st' : State W) (r : exc (list string)) :
  browser st = true ->
  crawl_page E url sel rs st = (r, st') ->
  exists errs,
    log st' = log st ++ errs /\ List.filter is_info errs = [].
Proof.
  intros Hb. unfold crawl_page, crawl_page_try, process_page. unfold_monad.
  rewrite Hb. cbn.
  destruct (env_goto E url (world st)) as [[page|e] w]; cbn;
    [|intros [= <- <-]; cbn; eexists; split; [reflexivity|reflexivity]].
  destruct (page_title page) as [title|e]; cbn;
    [|intros [= <- <-]; cbn; eexists; split; [reflexivity|reflexivity]].
  destruct (process_page_try page sel rs) as [content|e]; cbn;
    (destruct (page_anchor_hrefs page) as [hrefs|e']; cbn;
     [|intros [= <- <-]; cbn; rewrite <- ?app_assoc; eexists;
       split; [reflexivity|reflexivity]]);
    (destruct (env_netloc E url) as [d|e']; cbn;
     [|intros [= <- <-]; cbn; rewrite <- ?app_assoc; eexists;
       split; [reflexivity|reflexivity]]);
    (destruct (same_domain_links E d (http_links hrefs)) as [kept|e']; cbn;
     [|intros [= <- <-]; cbn; rewrite <- ?app_assoc; eexists;
       split; [reflexivity|reflexivity]]);
    (destruct (page_close page) as [[]|e']; cbn;
     [|intros [= <- <-]; cbn; rewrite <- ?app_assoc; eexists;
       split; [reflexivity|reflexivity]]);
    intros [= <- <-]; cbn.
  - exists []. now rewrite app_nil_r.
  - eexists. split; reflexivity.
Qed.

Lemma logged_inv_step (cfg : Config) (st1 : State W)
    (urls urls' : gset string) (st st' : State W) :
  loop_inv E cfg st1 urls st ->
  loop_cond E cfg urls st = true ->
  logged_inv st1 st ->
  loop_body E cfg urls st = (Ok urls', st') ->
  logged_inv st1 st'.
Proof.
  intros (Hb & _) Hcond (lines & calls & Hl & Hc & Hf).
  pose proof Hcond as Hne. apply loop_cond_true in Hne as [Hne _].
  assert (Hne' : urls <> ∅).
  { intros ->. rewrite size_empty in Hne. lia. }
  destruct (set_pop_nonempty (env_pop_index E (world st) urls) urls Hne')
    as (url & Hin & Hpop).
  unfold loop_body.
  unfold bind at 1. unfold get at 1.
  unfold bind at 1. unfold lift at 1. rewrite Hpop.
  destruct (bool_decide (url ∈ visited_urls st)).
  { intros [= _ <-]. exists lines, calls. auto. }
  destruct (matches_pattern url (url_pattern cfg)); cbn [negb].
  2: { intros [= _ <-]. exists lines, calls. auto. }
  unfold bind at 1. unfold emit at 1.
  unfold bind at 1. unfold set_visited_urls at 1.
  cbn [world browser visited_urls results running log crawl_page_calls
       written].
  unfold bind at 1.
  match goal with |- context [crawl_page E url ?a ?b ?s] =>
    destruct (crawl_page E url a b s) as [r1 s1] eqn:Hcp end.
  pose proof Hcp as Hlog.
  apply crawl_page_effect in Hcp
    as (_ & _ & _ & Hc' & _ & _ & links & -> & _); [|exact Hb].
  apply crawl_page_log in Hlog as (errs & Hl' & Herrs); [|exact Hb].
  cbn [log crawl_page_calls] in Hc', Hl'.
  unfold_monad. intros [= _ <-].
  exists (lines ++ [crawling_line url] ++ errs), (calls ++ [url]).
  split; [rewrite Hl', Hl; now rewrite <- !app_assoc|].
  split; [rewrite Hc', Hc; now rewrite <- app_assoc|].
  rewrite !List.filter_app, Hf, Herrs, map_app. cbn. now rewrite ?app_nil_r.
Qed.

(** A successful save logs its two lines. *)
Lemma save_results_log (cfg : Config) (title file : string)
    (st st' : State W) :
  save_results E cfg title file st = (Ok tt, st') ->
  log st'
  = log st
    ++ [LogInfo ("Crawling completed. Processed "
                 +:+ pretty (size (visited_urls st)) +:+ " pages.");
        LogInfo ("Results saved to: " +:+ file)].
Proof.
  unfold save_results. unfold_monad.
  destruct (env_netloc E (start_url cfg)) as [domain|e]; cbn; [|discriminate].
  destruct (env_makedirs E file (world st)) as [[[]|e] w]; cbn;
    [|discriminate].
  match goal with |- context [env_write_json E file ?d w] =>
    destruct (env_write_json E file d w) as [[[]|e] w'] end;
    cbn; [|discriminate].
  intros [= <-]. cbn. now rewrite <- app_assoc.
Qed.

End LogFacts.

(** X22. The info records a run logs tell what it did: one
    "Crawling: <url>" per call of [crawl_page], in the order of the
    calls, followed, when and only when the run wrote its file, by
    "Crawling completed. Processed <n> pages.", where [n] is the number of
    visited URLs (failed fetches included), and "Results saved to: <file>". *)
Theorem crawl_info_log {W : Type} (E : Env W) (cfg : Config) (fuel : nat)
    (st st' : State W) (r : exc unit) :
  crawl E cfg fuel st = Some (r, st') ->
  List.filter is_info (log_since st st')
  = map crawling_line (calls_since st st')
    ++ match written_since st st' with
       | [] => []
       | (f, _) :: _ =>
           [LogInfo ("Crawling completed. Processed "
                     +:+ pretty (size (visited_urls st')) +:+ " pages.");
            LogInfo ("Results saved to: " +:+ f)]
       end.
Proof.
  unfold crawl, crawl_try.
  destruct (crawl_begin E cfg (snd (crawl_reset st))) as [[[t f]|e] st1]
    eqn:Hbegin.
  - pose proof (crawl_begin_inv E cfg st st1 _ Hbegin)
      as (Hinv & Hc1 & Hw1 & Hl1).
    destruct (crawl_loop E cfg fuel {[start_url cfg]} st1) as [[rl st2]|]
      eqn:Hloop; [|discriminate].
    destruct (crawl_loop_inv E cfg st1 fuel _ _ _ _ Hinv Hloop)
      as (urls & -> & (_ & Hw2 & _) & _).
    assert (Hlogged : logged_inv st1 st2).
    { apply (crawl_loop_preserves E cfg st1 (fun _ s => logged_inv st1 s)
               (fun u s u' s' => logged_inv_step E cfg st1 u u' s s')
               fuel {[start_url cfg]} st1 urls st2 Hinv); [|exact Hloop].
      exists [], []. now rewrite !app_nil_r. }
    destruct Hlogged as (lines & calls & Hl2 & Hc2 & Hf).
    destruct (save_results E cfg t f st2) as [rs st3] eqn:Hsave.
    pose proof (save_results_effect E cfg t f st2 st3 rs Hsave)
      as (Hv3 & _ & _ & _ & Hc3 & Hwr3).
    destruct rs as [[]|e].
    + pose proof (save_results_log E cfg t f st2 st3 Hsave) as Hl3.
      destruct Hwr3 as [([=] & _)|(_ & doc & Hw3 & _)].
      destruct (crawl_finally E st3) as [rf st4] eqn:Hf4.
      intros [= <- <-].
      apply crawl_finally_effect in Hf4
        as (Hv4 & _ & _ & Hl4 & Hc4 & Hw4 & _).
      unfold log_since, calls_since, written_since.
      rewrite Hl4, Hl3, Hl2, Hl1, <- app_assoc, drop_app_length.
      rewrite Hc4, Hc3, Hc2, Hc1, drop_app_length.
      rewrite Hw4, Hw3, Hw2, Hw1, drop_app_length.
      rewrite List.filter_app, Hf, Hv4, Hv3. reflexivity.
    + destruct Hwr3 as [(_ & Hw3 & Hl3)|([=] & _)].
      destruct (crawl_finally E (snd (crawl_except e st3))) as [rf st4] eqn:Hf4.
      intros [= <- <-].
      apply crawl_finally_effect in Hf4
        as (_ & _ & _ & Hl4 & Hc4 & Hw4 & _).
      cbn in Hl4, Hc4, Hw4.
      unfold log_since, calls_since, written_since.
      rewrite Hl4, Hl3, Hl2, Hl1, <- app_assoc, drop_app_length.
      rewrite Hc4, Hc3, Hc2, Hc1, drop_app_length.
      rewrite Hw4, Hw3, Hw2, Hw1, drop_all.
      rewrite List.filter_app, Hf. cbn. reflexivity.
  - pose proof (crawl_begin_effect E cfg _ _ _ Hbegin)
      as (_ & _ & _ & Hl1 & Hc1 & Hw1 & _).
    cbn in Hl1, Hc1, Hw1.
    destruct (crawl_finally E (snd (crawl_except e st1))) as [rf st4] eqn:Hf4.
    intros [= <- <-].
    apply crawl_finally_effect in Hf4 as (_ & _ & _ & Hl4 & Hc4 & Hw4 & _).
    cbn in Hl4, Hc4, Hw4.
    unfold log_since, calls_since, written_since.
    rewrite Hl4, Hl1, drop_app_length, Hc4, Hc1, Hw4, Hw1, !drop_all.
    reflexivity.
Qed.

Lemma crawl_info_log_witness :
  crawl Site.env (Site.config "" 10) 10 (init 0%nat)
  = Some (Ok tt, final_state Site.env (Site.config "" 10) 10 (init 0%nat))
  /\ List.filter is_info
       (log_since (init 0%nat)
          (final_state Site.env (Site.config "" 10) 10 (init 0%nat)))
     = [LogInfo "Crawling: https://a.com/";
        LogInfo "Crawling: https://a.com/#top";
        LogInfo "Crawling: https://a.com/docs";
        LogInfo "Crawling completed. Processed 3 pages.";
        LogInfo "Results saved to: out_Home_20240101_000000"].
Proof.
  split; [exact sample_run|].
  etransitivity;
    [exact (crawl_info_log Site.env (Site.config "" 10) 10 (init 0%nat) _ _
              sample_run)|].
  vm_compute. reflexivity.
Defined.
